(** * Sandbox execution subsystem: adapter, factory and compatibility shim

    A shallow embedding of

      - [backend/core/sandbox/adapter.py]              (data types)
      - [backend/core/sandbox/adapters/docker_sandbox.py]
      - [backend/core/sandbox/factory.py]
      - [backend/core/sandbox/compat.py]

    Python coroutines become functions in a state-and-exception monad
    [M W A]; the container engine reached through the docker client
    library is not part of the repository and is taken as a record of
    operations over an abstract world ([Platform]).  An in-memory
    instance of that record ([Mem]) is given further down and is used
    wherever a statement needs a concrete engine. *)

From stdpp Require Import base strings gmap list pretty.
From Stdlib Require Import ZArith QArith Qround Lia Ascii Strings.Byte.

Local Open Scope string_scope.
Local Open Scope Z_scope.

(** ** Python runtime fragments *)

Module Py.

(** Exception classes the sandbox code raises or catches.
    [ImageNotFound] is a subclass of [NotFound] in the client library;
    everything here is a subclass of [Exception], which is what the
    [except Exception] clauses catch (task cancellation and the other
    [BaseException]s are outside the model). *)
Inductive ExcClass :=
| RuntimeError | ValueError | NotImplementedError | FileNotFoundError
| KeyError | TypeError | ZeroDivisionError | OverflowError | UnicodeDecodeError
| AsyncioTimeoutError
| NotFound | ImageNotFound | APIError
| OtherException.

(** An exception instance: its class and the text [str(e)] gives. *)
Record Exception := mkExc { exc_class : ExcClass; exc_str : string }.

Definition isinstance_NotFound (e : Exception) : bool :=
  match exc_class e with
  | NotFound | ImageNotFound => true
  | _ => false
  end.

Definition isinstance_ImageNotFound (e : Exception) : bool :=
  match exc_class e with
  | ImageNotFound => true
  | _ => false
  end.

Definition isinstance_TimeoutError (e : Exception) : bool :=
  match exc_class e with
  | AsyncioTimeoutError => true
  | _ => false
  end.

(** [asyncio.TimeoutError()] is raised without arguments. *)
Definition asyncio_TimeoutError : Exception := mkExc AsyncioTimeoutError "".

(** Outcome of a call: a value or a raised exception. *)
Inductive Result (A : Type) :=
| Returned (a : A)
| Raised (e : Exception).
Arguments Returned {A} a.
Arguments Raised {A} e.

Definition is_raised {A} (r : Result A) : bool :=
  match r with Raised _ => true | Returned _ => false end.

(** [x or d] on an [Optional[str]]: [None] and the empty string are falsy. *)
Definition or_str (x : option string) (d : string) : string :=
  match x with
  | Some s => if decide (s = "") then d else s
  | None => d
  end.

(** [x or d] on an [Optional[int]]: [None] and [0] are falsy. *)
Definition or_int (x : option Z) (d : Z) : Z :=
  match x with
  | Some n => if n =? 0 then d else n
  | None => d
  end.

(** [s[:n]] *)
Definition slice_to (n : nat) (s : string) : string := String.substring 0 n s.

(** [str.lower] on the ASCII range. *)
Definition lower_ascii (c : ascii) : ascii :=
  let n := nat_of_ascii c in
  if (65 <=? n)%nat && (n <=? 90)%nat then ascii_of_nat (n + 32) else c.

Fixpoint lower (s : string) : string :=
  match s with
  | EmptyString => EmptyString
  | String c s' => String (lower_ascii c) (lower s')
  end.

(** [s.startswith(p)] *)
Fixpoint startswith (p s : string) {struct p} : bool :=
  match p with
  | EmptyString => true
  | String a p' =>
      match s with
      | EmptyString => false
      | String b s' => Ascii.eqb a b && startswith p' s'
      end
  end.


(** [s.replace(old, "")] for a non-empty [old]: every non-overlapping
    occurrence, scanning from the left, is removed.  [skip] counts the
    characters of the current occurrence still to be dropped. *)
Fixpoint remove_go (old : string) (skip : nat) (s : string) {struct s} : string :=
  match s with
  | EmptyString => EmptyString
  | String c s' =>
      match skip with
      | S k => remove_go old k s'
      | O =>
          if startswith old s
          then remove_go old (Nat.pred (String.length old)) s'
          else String c (remove_go old O s')
      end
  end.

Definition remove_all (old s : string) : string := remove_go old O s.

(** [os.path] (posixpath).  [split_at_last_sep p] is [(p[:i], p[i:])] for
    [i = p.rfind('/') + 1]. *)
Definition sep : ascii := "/"%char.

Fixpoint split_at_last_sep (p : string) : string * string :=
  match p with
  | EmptyString => (EmptyString, EmptyString)
  | String c p' =>
      let '(h, t) := split_at_last_sep p' in
      match h with
      | String _ _ => (String c h, t)
      | EmptyString =>
          if Ascii.eqb c sep then (String c EmptyString, t)
          else (EmptyString, String c t)
      end
  end.

(** [s.rstrip('/')] *)
Fixpoint rstrip_sep (s : string) : string :=
  match s with
  | EmptyString => EmptyString
  | String c s' =>
      match rstrip_sep s' with
      | EmptyString => if Ascii.eqb c sep then EmptyString else String c EmptyString
      | r => String c r
      end
  end.

(** [s == '/' * len(s)] *)
Fixpoint all_sep (s : string) : bool :=
  match s with
  | EmptyString => true
  | String c s' => Ascii.eqb c sep && all_sep s'
  end.

Definition basename (p : string) : string := snd (split_at_last_sep p).

Definition dirname (p : string) : string :=
  let head := fst (split_at_last_sep p) in
  if negb (String.eqb head "") && negb (all_sep head)
  then rstrip_sep head
  else head.

(** [int(x)] on a float: truncation towards zero. *)
Definition int_of_float (q : Q) : Z := Z.quot (Qnum q) (Z.pos (Qden q)).

(** Rounding of an exact value to the nearest integer, ties to the even
    one, and to two decimal places: the decimal rounding that
    [round(x, 2)] performs on the exact value of the float [x], before
    the result is read back as a float (see [py_round2]). *)
Definition round_half_even (q : Q) : Z :=
  let n := Qnum q in
  let d := Z.pos (Qden q) in
  let f := n / d in
  let r := n mod d in
  if 2 * r <? d then f
  else if d <? 2 * r then f + 1
  else if Z.even f then f else f + 1.

Definition round2 (q : Q) : Q := Qmake (round_half_even (q * 100)) 100.

End Py.
Export Py.

(** ** Logging, timers and the coroutine monad *)

Inductive Level := LOG_DEBUG | LOG_INFO | LOG_WARNING | LOG_ERROR.

Definition LogRecord : Type := Level * string.

(** State threaded through every coroutine: the engine's world, the
    records handed to [logger], and the time (milliseconds) spent so far
    in [asyncio.sleep] and [asyncio.wait_for]. *)
Record St (W : Type) := mkSt {
  world : W;
  logs : list LogRecord;
  clock : Z;
}.
Arguments mkSt {W} _ _ _.
Arguments world {W} _.
Arguments logs {W} _.
Arguments clock {W} _.

Definition M (W A : Type) : Type := St W -> Result A * St W.

Definition ret {W A} (a : A) : M W A := fun s => (Returned a, s).

Definition raise {W A} (e : Exception) : M W A := fun s => (Raised e, s).

Definition bind {W A B} (m : M W A) (k : A -> M W B) : M W B :=
  fun s =>
    match m s with
    | (Returned a, s') => k a s'
    | (Raised e, s') => (Raised e, s')
    end.

(** [try: m  except Exception as e: h e] *)
Definition try_except {W A} (m : M W A) (h : Exception -> M W A) : M W A :=
  fun s =>
    match m s with
    | (Returned a, s') => (Returned a, s')
    | (Raised e, s') => h e s'
    end.

(** A computation that touches no state. *)
Definition of_result {W A} (r : Result A) : M W A := fun s => (r, s).

Notation "x <- c1 ;; c2" := (bind c1 (fun x => c2))
  (at level 100, c1 at next level, right associativity).
Notation "c1 ;;; c2" := (bind c1 (fun _ => c2))
  (at level 100, right associativity).

Definition logger {W} (lvl : Level) (msg : string) : M W unit :=
  fun s => (Returned tt, mkSt (world s) (logs s ++ [(lvl, msg)]) (clock s)).

(** [await asyncio.sleep(ms / 1000)] *)
Definition asyncio_sleep {W} (ms : Z) : M W unit :=
  fun s => (Returned tt, mkSt (world s) (logs s) (clock s + ms)).

(** A synchronous engine call offloaded with [loop.run_in_executor] and
    awaited: the caller sees the call's outcome and the world it left. *)
Definition run_in_executor {W A} (op : W -> Result A * W) : M W A :=
  fun s => let '(r, w') := op (world s) in (r, mkSt w' (logs s) (clock s)).

(** An offloaded call that has been started but not awaited yet: the time
    it takes to complete and the outcome it completes with. *)
Record Future (A : Type) := mkFuture {
  fut_duration : Z;
  fut_outcome : Result A;
}.
Arguments mkFuture {A} _ _.
Arguments fut_duration {A} _.
Arguments fut_outcome {A} _.

(** [await asyncio.wait_for(fut, timeout=secs)]: the future is raced against
    a timer.  When the timer fires first the awaiting coroutine gets
    [asyncio.TimeoutError] at that moment; the offloaded call is not
    interrupted. *)
Definition wait_for {W A} (start : W -> Future A * W) (secs : Z) : M W A :=
  fun s =>
    let '(fut, w') := start (world s) in
    if fut_duration fut <=? secs * 1000
    then (fut_outcome fut, mkSt w' (logs s) (clock s + fut_duration fut))
    else (Raised asyncio_TimeoutError,
          mkSt w' (logs s) (clock s + Z.max 0 (secs * 1000))).

(** ** Data types of the sandbox contract ([adapter.py]) *)

Module Contract.

Inductive SandboxState :=
| CREATING | STARTED | STOPPED | ARCHIVING | ARCHIVED | ERROR.

Inductive SandboxProvider := DOCKER | E2B | DAYTONA.

(** [SandboxProvider.value] *)
Definition provider_value (p : SandboxProvider) : string :=
  match p with
  | DOCKER => "docker"
  | E2B => "e2b"
  | DAYTONA => "daytona"
  end.

(** Values a [Dict[str, Any]] of metadata carries.  A float is modelled by
    the rational number it is, throughout this development; arithmetic on
    floats rounds through the platform's [float_nearest].  Infinities, NaN
    and the sign of zero are outside the model. *)
Inductive PyVal :=
| VNone
| VBool (b : bool)
| VInt (n : Z)
| VFloat (q : Q)
| VStr (s : string).

Record SandboxInfo := mkSandboxInfo {
  sandbox_id : string;
  state : SandboxState;
  password : option string;
  sandbox_url : option string;
  vnc_preview : option string;
  token : option string;
  metadata : gmap string PyVal;
}.

(** [SandboxInfo(sandbox_id=.., state=.., metadata=..)]: the other fields
    keep their [None] defaults. *)
Definition SandboxInfo_new (id : string) (st : SandboxState)
    (md : gmap string PyVal) : SandboxInfo :=
  mkSandboxInfo id st None None None None md.

Record ExecuteResult := mkExecuteResult {
  exit_code : Z;
  stdout : string;
  stderr : string;
  success : bool;
  error : option string;
}.

End Contract.
Export Contract.

(** ** What the adapter exchanges with the container engine *)

(** The client object; all engine state lives in the world. *)
Record DockerClient := mkDockerClient { base_url : string }.

(** A container object as returned by [containers.get] / [containers.run]:
    its attributes are a snapshot taken when the object was fetched. *)
Record Container := mkContainer {
  c_id : string;
  c_status : string;
  c_labels : option (gmap string string);
}.

(** Keyword arguments of [containers.run]. *)
Record RunConfig := mkRunConfig {
  rc_image : string;
  rc_detach : bool;
  rc_network : string;
  rc_mem_limit : string;
  rc_cpu_period : Z;
  rc_cpu_quota : Z;
  rc_environment : gmap string string;
  rc_labels : gmap string string;
  rc_command : list string;
  rc_stdin_open : bool;
  rc_tty : bool;
  (** [device_requests]: absent, or one request (count, capabilities). *)
  rc_device_requests : option (list (Z * list (list string)));
}.

(** Keyword arguments of [container.exec_run]. *)
Record ExecConfig := mkExecConfig {
  ec_cmd : list string;
  ec_workdir : string;
  ec_environment : gmap string string;
  ec_stream : bool;
  ec_demux : bool;
}.

(** Result of [exec_run] with [demux=True]: the exit code and the pair
    (stdout, stderr), each stream [None] when it produced nothing. *)
Record ExecResult := mkExecResult {
  er_exit_code : Z;
  er_output : option (list byte) * option (list byte);
}.

(** A tar archive as [tarfile] sees it: its members in order, each a header
    and the bytes stored for it.  The byte-level encoding is produced and
    consumed by [tarfile] and by the engine and is not modelled.  Of the
    member types, regular files and directories are told apart;
    [OTHERTYPE] stands for FIFOs and devices.  Links, which [tarfile]
    resolves inside the archive, are not represented. *)
Inductive TarType := REGTYPE | DIRTYPE | OTHERTYPE.

Record TarInfo := mkTarInfo {
  ti_name : string;
  ti_size : Z;
  ti_mode : Z;
  ti_mtime : Z;
  ti_type : TarType;
}.

Definition Archive : Type := list (TarInfo * list byte).

(** [tarfile.TarInfo(name=n)] *)
Definition TarInfo_new (n : string) : TarInfo := mkTarInfo n 0 420 0 REGTYPE.

(** [tar.addfile(tarinfo, fileobj)]: the header is written with the
    permission bits of the mode ([mode & 0o7777]), and [tarinfo.size]
    bytes are copied from the file object. *)
Definition addfile (tar : Archive) (ti : TarInfo) (data : list byte) : Archive :=
  (tar ++ [(mkTarInfo (ti_name ti) (ti_size ti) (Z.land (ti_mode ti) 4095)
                      (ti_mtime ti) (ti_type ti),
            take (Z.to_nat (ti_size ti)) data)])%list.

(** [tar_file.next()] *)
Definition tar_next (tar : Archive) : option (TarInfo * list byte) := head tar.

(** [tar_file.extractfile(member)]: a readable object for a regular file,
    [None] for a directory, a FIFO or a device. *)
Definition extractfile (m : TarInfo * list byte) : option (list byte) :=
  match ti_type (fst m) with
  | REGTYPE => Some (snd m)
  | _ => None
  end.

(** JSON documents ([container.stats(stream=False)]). *)
#[warnings="-register-all"] Inductive Json :=
| JNull
| JBool (b : bool)
| JInt (n : Z)
| JFloat (q : Q)
| JStr (s : string)
| JList (l : list Json)
| JDict (d : list (string * Json)).

(** The engine client library, the process environment and the builtins
    whose definitions are outside the repository. *)
Record Platform := mkPlatform {
  World : Type;
  (** [os.environ] *)
  environ : World -> gmap string string;
  (** [time.time()] *)
  time_time : World -> Q;
  (** [str(x)] and [float(s)] for floats *)
  float_str : Q -> string;
  float_of_str : string -> Result Q;
  (** the float nearest to a real number, which is what a float operation
      returns for its exact result; [None] beyond the largest float *)
  float_nearest : Q -> option Q;
  (** [b.decode('utf-8')] *)
  bytes_decode_utf8 : list byte -> Result string;
  (** [docker.DockerClient(base_url=..)] and [client.ping()] *)
  docker_DockerClient : string -> World -> Result DockerClient * World;
  client_ping : DockerClient -> World -> Result bool * World;
  (** [client.containers.run(..)], [client.containers.get(id)] *)
  containers_run : RunConfig -> World -> Result Container * World;
  containers_get : string -> World -> Result Container * World;
  (** methods of a container object *)
  container_start : Container -> World -> Result unit * World;
  container_stop : Container -> Z -> World -> Result unit * World;
  container_remove : Container -> bool -> World -> Result unit * World;
  container_exec_run : Container -> ExecConfig -> World -> Future ExecResult * World;
  container_put_archive : Container -> string -> Archive -> World -> Result bool * World;
  container_get_archive : Container -> string -> World -> Result Archive * World;
  container_stats : Container -> World -> Result Json * World;
}.

(** [os.getenv(name)] and [os.getenv(name, default)] *)
Definition getenv (P : Platform) (name : string) : M (World P) (option string) :=
  fun s => (Returned (environ P (world s) !! name), s).

Definition getenv_default (P : Platform) (name default : string)
    : M (World P) string :=
  fun s => (Returned (match environ P (world s) !! name with Some v => v | None => default end), s).

(** Python operations on the values of a stats document. *)
Definition assoc_get (k : string) (d : list (string * Json)) : option Json :=
  snd <$> List.find (fun kv => String.eqb (fst kv) k) d.

(** [j[k]] for a string key *)
Definition getitem (j : Json) (k : string) : Result Json :=
  match j with
  | JDict d =>
      match assoc_get k d with
      | Some v => Returned v
      | None => Raised (mkExc KeyError ("'" +:+ k +:+ "'"))
      end
  | JList _ => Raised (mkExc TypeError "list indices must be integers or slices, not str")
  | JStr _ => Raised (mkExc TypeError "string indices must be integers, not 'str'")
  | _ => Raised (mkExc TypeError "object is not subscriptable")
  end.

(** [j[k1][k2]...] *)
Fixpoint getpath (j : Json) (ks : list string) : Result Json :=
  match ks with
  | [] => Returned j
  | k :: ks' =>
      match getitem j k with
      | Returned x => getpath x ks'
      | Raised e => Raised e
      end
  end.

(** Sequencing of two steps either of which may raise. *)
Definition rbind {A B} (r : Result A) (k : A -> Result B) : Result B :=
  match r with
  | Returned a => k a
  | Raised e => Raised e
  end.

(** Numbers: [int] (with [bool], its subclass) and [float]. *)
Inductive Num := NInt (n : Z) | NFloat (q : Q).

Definition as_num (j : Json) : option Num :=
  match j with
  | JBool b => Some (NInt (if b then 1 else 0))
  | JInt n => Some (NInt n)
  | JFloat q => Some (NFloat q)
  | _ => None
  end.

Definition num_Q (n : Num) : Q :=
  match n with
  | NInt z => inject_Z z
  | NFloat q => q
  end.

Definition unsupported_operand (op : string) : Exception :=
  mkExc TypeError ("unsupported operand type(s) for " +:+ op).

(** The float a float operation gives when its exact result is [x].
    Beyond the floats' range the operation gives an infinity, which is
    outside the model; [x] stands in for it. *)
Definition fl (P : Platform) (x : Q) : Q :=
  match float_nearest P x with Some r => r | None => x end.

(** [float(n)]: the conversion an int undergoes next to a float operand. *)
Definition float_of_int (P : Platform) (n : Z) : Result Q :=
  match float_nearest P (inject_Z n) with
  | Some r => Returned r
  | None => Raised (mkExc OverflowError "int too large to convert to float")
  end.

Definition to_float (P : Platform) (x : Num) : Result Q :=
  match x with
  | NInt n => float_of_int P n
  | NFloat q => Returned q
  end.

(** [a - b]: exact on two ints, a float operation otherwise. *)
Definition py_sub (P : Platform) (a b : Json) : Result Num :=
  match as_num a, as_num b with
  | Some (NInt x), Some (NInt y) => Returned (NInt (x - y))
  | Some x, Some y =>
      rbind (to_float P x) (fun fx =>
      rbind (to_float P y) (fun fy =>
      Returned (NFloat (fl P (fx - fy)))))
  | _, _ => Raised (unsupported_operand "-")
  end.

(** [a > 0] *)
Definition py_gt0 (a : option Num) : Result bool :=
  match a with
  | Some x => Returned (if Qlt_le_dec 0 (num_Q x) then true else false)
  | None => Raised (mkExc TypeError "'>' not supported between these instances")
  end.

(** [a / b]: true division, a float.  On two ints it is the float nearest
    to the quotient; otherwise the int operand is converted first. *)
Definition py_truediv (P : Platform) (a b : option Num) : Result Q :=
  match a, b with
  | Some (NInt x), Some (NInt y) =>
      if (y =? 0)%Z
      then Raised (mkExc ZeroDivisionError "division by zero")
      else
        match float_nearest P (inject_Z x / inject_Z y)%Q with
        | Some r => Returned r
        | None => Raised (mkExc OverflowError
                            "integer division result too large for a float")
        end
  | Some x, Some y =>
      rbind (to_float P x) (fun fx =>
      rbind (to_float P y) (fun fy =>
      if Qeq_bool fy 0
      then Raised (mkExc ZeroDivisionError "float division by zero")
      else Returned (fl P (fx / fy)%Q)))
  | _, _ => Raised (unsupported_operand "/")
  end.

(** [x * y] on two floats *)
Definition float_mul (P : Platform) (x y : Q) : Q := fl P (x * y)%Q.

(** [round(x, 2)] *)
Definition py_round2 (P : Platform) (x : Q) : Q := fl P (round2 x).

(** [str(v)] for a metadata value; [str] of a float is the platform's. *)
Definition py_str (fstr : Q -> string) (v : PyVal) : string :=
  match v with
  | VNone => "None"
  | VBool true => "True"
  | VBool false => "False"
  | VInt n => pretty n
  | VFloat q => fstr q
  | VStr s => s
  end.

(** ** The engine-backed adapter ([adapters/docker_sandbox.py]) *)

Module DockerSandboxAdapter.

Definition DEFAULT_IMAGE : string := "kortix-sandbox:latest".
Definition DEFAULT_TIMEOUT : Z := 300.

(** Prefix of the labels that carry caller metadata. *)
Definition META_PREFIX : string := "kortix.meta.".

Record t := mk {
  docker_url : string;
  image : string;
  network : string;
  memory_limit : string;
  cpu_limit : Q;
  enable_gpu : bool;
  client : option DockerClient;
}.

(** The two keys of [resources] the adapter reads. *)
Record Resources := mkResources {
  res_memory : option string;
  res_cpu : option Num;
}.

Definition not_initialized : Exception :=
  mkExc RuntimeError "Docker client not initialized".

(** Map Docker status to SandboxState ([status] is already lower-cased). *)
Definition state_of_status (status : string) : SandboxState :=
  if String.eqb status "running" then STARTED
  else if String.eqb status "created" || String.eqb status "restarting" then CREATING
  else if String.eqb status "paused" || String.eqb status "exited" then STOPPED
  else ERROR.

(** Add metadata as labels:
    [for key, value in metadata.items(): labels["kortix.meta." + key] = str(value)] *)
Definition add_metadata_labels (fstr : Q -> string)
    (metadata : gmap string PyVal) (labels : gmap string string)
    : gmap string string :=
  map_fold (fun key value labels => <[META_PREFIX +:+ key := py_str fstr value]> labels)
           labels metadata.

(** Extract metadata from labels:
    [for key, value in labels.items():
       if key.startswith("kortix.meta."):
         metadata[key.replace("kortix.meta.", "")] = value] *)
Definition extract_metadata (labels : gmap string string) : gmap string string :=
  map_fold (fun key value metadata =>
              if startswith META_PREFIX key
              then <[remove_all META_PREFIX key := value]> metadata
              else metadata)
           ∅ labels.

Definition timeout_result (timeout : Z) : ExecuteResult :=
  mkExecuteResult (-1) ""
    ("Command timeout after " +:+ pretty timeout +:+ " seconds")
    false (Some "Timeout").

Definition failure_result (e : Exception) : ExecuteResult :=
  mkExecuteResult (-1) "" (exc_str e) false (Some (exc_str e)).

(** Prepare exec command: the keyword arguments of [exec_run]. *)
Definition exec_config (command : string) (working_dir : option string)
    (env : option (gmap string string)) : ExecConfig :=
  mkExecConfig ["/bin/bash"; "-c"; command]
    (or_str working_dir "/workspace")
    (match env with Some e => e | None => ∅ end)
    false   (* stream *)
    true.   (* demux: separate stdout and stderr *)

Section Methods.
Context (P : Platform).

Definition __init__ (docker_url image network : option string)
    (memory_limit : string) (cpu_limit : Q) (enable_gpu : bool)
    : M (World P) t :=
  env_url <- getenv_default P "DOCKER_HOST" "unix:///var/run/docker.sock";;
  env_image <- getenv_default P "SANDBOX_IMAGE" DEFAULT_IMAGE;;
  env_network <- getenv_default P "SANDBOX_NETWORK" "bridge";;
  let url := or_str docker_url env_url in
  (* Initialize Docker client *)
  client <- try_except
              (c <- run_in_executor (docker_DockerClient P url);;
               (* Test connection *)
               run_in_executor (client_ping P c);;;
               logger LOG_INFO ("Docker sandbox adapter initialized: " +:+ url);;;
               ret (Some c))
              (fun e =>
                 logger LOG_ERROR ("Failed to connect to Docker: " +:+ exc_str e);;;
                 ret None);;
  ret (mk url (or_str image env_image) (or_str network env_network)
          memory_limit cpu_limit enable_gpu client).

Definition is_configured (self : t) : bool :=
  match client self with Some _ => true | None => false end.

Definition get_provider_name (self : t) : string := "Docker".

(** [int(cpu * 100000)]: exact for an int, a float product truncated
    otherwise. *)
Definition cpu_quota_of (cpu : Num) : Z :=
  match cpu with
  | NInt n => n * 100000
  | NFloat q => int_of_float (float_mul P q 100000)
  end.

Definition create_sandbox (self : t) (snapshot_id : option string)
    (resources : option Resources) (metadata : option (gmap string PyVal))
    : M (World P) SandboxInfo :=
  match client self with
  | None => raise not_initialized
  | Some _ =>
      (* Use snapshot_id as image name if provided *)
      let image := or_str snapshot_id (image self) in
      (* Parse resources *)
      let memory :=
        match resources with
        | Some r => match res_memory r with Some m => m | None => memory_limit self end
        | None => memory_limit self
        end in
      let cpu :=
        match resources with
        | Some r => match res_cpu r with Some c => c | None => NFloat (cpu_limit self) end
        | None => NFloat (cpu_limit self)
        end in
      let cpu_quota := cpu_quota_of cpu in
      fun s =>
        let labels : gmap string string :=
          <["kortix.created_at" := float_str P (time_time P (world s))]>
            {["kortix.sandbox" := "true"]} in
        (* Add metadata as labels *)
        let labels :=
          match metadata with
          | Some md => add_metadata_labels (float_str P) md labels
          | None => labels
          end in
        let container_config :=
          mkRunConfig image true (network self) memory 100000 cpu_quota
            {["DEBIAN_FRONTEND" := "noninteractive"]} labels
            ["/bin/bash"; "-c"; "tail -f /dev/null"] true true
            (if enable_gpu self then Some [(-1, [["gpu"]])] else None) in
        try_except
          (container <- run_in_executor (containers_run P container_config);;
           logger LOG_INFO ("Created Docker sandbox: " +:+ slice_to 12 (c_id container));;;
           (* Wait for container to be ready *)
           asyncio_sleep 500;;;
           ret (SandboxInfo_new (c_id container) STARTED
                  (match metadata with Some md => md | None => ∅ end)))
          (fun e =>
             if isinstance_ImageNotFound e then
               logger LOG_ERROR ("Docker image not found: " +:+ image);;;
               raise (mkExc RuntimeError
                        ("Docker image '" +:+ image +:+ "' not found. Please build it first."))
             else
               logger LOG_ERROR ("Failed to create Docker sandbox: " +:+ exc_str e);;;
               raise e)
          s
  end.

Definition get_sandbox (self : t) (sandbox_id : string) : M (World P) SandboxInfo :=
  match client self with
  | None => raise not_initialized
  | Some _ =>
      try_except
        (container <- run_in_executor (containers_get P sandbox_id);;
         (* Map Docker status to SandboxState *)
         let status := lower (c_status container) in
         let state := state_of_status status in
         (* Extract metadata from labels *)
         let labels := match c_labels container with Some l => l | None => ∅ end in
         let metadata := extract_metadata labels in
         ret (SandboxInfo_new (c_id container) state (VStr <$> metadata)))
        (fun e =>
           if isinstance_NotFound e then
             logger LOG_ERROR ("Docker container not found: " +:+ sandbox_id);;;
             raise (mkExc RuntimeError ("Sandbox " +:+ sandbox_id +:+ " not found"))
           else
             logger LOG_ERROR ("Failed to get Docker sandbox: " +:+ exc_str e);;;
             raise e)
  end.

Definition start_sandbox (self : t) (sandbox_id : string) : M (World P) SandboxInfo :=
  match client self with
  | None => raise not_initialized
  | Some _ =>
      try_except
        (container <- run_in_executor (containers_get P sandbox_id);;
         (if negb (String.eqb (c_status container) "running") then
            run_in_executor (container_start P container);;;
            logger LOG_INFO ("Started Docker sandbox: " +:+ slice_to 12 sandbox_id);;;
            asyncio_sleep 500
          else ret tt);;;
         get_sandbox self sandbox_id)
        (fun e =>
           logger LOG_ERROR ("Failed to start Docker sandbox: " +:+ exc_str e);;;
           raise e)
  end.

Definition stop_sandbox (self : t) (sandbox_id : string) : M (World P) SandboxInfo :=
  match client self with
  | None => raise not_initialized
  | Some _ =>
      try_except
        (container <- run_in_executor (containers_get P sandbox_id);;
         (if String.eqb (c_status container) "running" then
            run_in_executor (container_stop P container 10);;;
            logger LOG_INFO ("Stopped Docker sandbox: " +:+ slice_to 12 sandbox_id)
          else ret tt);;;
         get_sandbox self sandbox_id)
        (fun e =>
           logger LOG_ERROR ("Failed to stop Docker sandbox: " +:+ exc_str e);;;
           raise e)
  end.

Definition delete_sandbox (self : t) (sandbox_id : string) : M (World P) unit :=
  match client self with
  | None => raise not_initialized
  | Some _ =>
      try_except
        (container <- run_in_executor (containers_get P sandbox_id);;
         (* Stop if running *)
         (if String.eqb (c_status container) "running"
          then run_in_executor (container_stop P container 5)
          else ret tt);;;
         (* Remove container *)
         run_in_executor (container_remove P container true);;;
         logger LOG_INFO ("Deleted Docker sandbox: " +:+ slice_to 12 sandbox_id))
        (fun e =>
           if isinstance_NotFound e then
             logger LOG_WARNING ("Docker container already deleted: " +:+ sandbox_id)
           else
             logger LOG_ERROR ("Failed to delete Docker sandbox: " +:+ exc_str e);;;
             raise e)
  end.

(** [b.decode('utf-8') if b else ""] *)
Definition decode_or_empty (b : option (list byte)) : Result string :=
  match b with
  | Some (x :: xs) => bytes_decode_utf8 P (x :: xs)
  | _ => Returned ""
  end.

Definition execute_command (self : t) (sandbox_id command : string)
    (working_dir : option string) (env : option (gmap string string))
    (timeout : option Z) : M (World P) ExecuteResult :=
  match client self with
  | None => raise not_initialized
  | Some _ =>
      let timeout := or_int timeout DEFAULT_TIMEOUT in
      try_except
        (container <- run_in_executor (containers_get P sandbox_id);;
         let exec_config := exec_config command working_dir env in
         (* Execute with timeout *)
         try_except
           (result <- wait_for (container_exec_run P container exec_config) timeout;;
            let exit_code := er_exit_code result in
            let '(stdout_bytes, stderr_bytes) := er_output result in
            stdout <- of_result (decode_or_empty stdout_bytes);;
            stderr <- of_result (decode_or_empty stderr_bytes);;
            ret (mkExecuteResult exit_code stdout stderr (exit_code =? 0) None))
           (fun e =>
              if isinstance_TimeoutError e then
                logger LOG_ERROR ("Command execution timeout after " +:+ pretty timeout +:+ "s");;;
                ret (timeout_result timeout)
              else raise e))
        (fun e =>
           logger LOG_ERROR ("Failed to execute command in Docker sandbox: " +:+ exc_str e);;;
           ret (failure_result e))
  end.

Definition write_file (self : t) (sandbox_id path : string)
    (content : list byte) (mode : Z) : M (World P) unit :=
  match client self with
  | None => raise not_initialized
  | Some _ =>
      try_except
        (container <- run_in_executor (containers_get P sandbox_id);;
         now <- (fun s => (Returned (time_time P (world s)), s));;
         (* Create tar archive with the file *)
         let tarinfo :=
           mkTarInfo (basename path) (Z.of_nat (length content)) mode
                     (int_of_float now) REGTYPE in
         let tar_data := addfile [] tarinfo content in
         (* Upload to container *)
         let dest_dir := or_str (Some (dirname path)) "/" in
         run_in_executor (container_put_archive P container dest_dir tar_data);;;
         logger LOG_DEBUG ("Wrote file to Docker sandbox: " +:+ path))
        (fun e =>
           logger LOG_ERROR ("Failed to write file to Docker sandbox: " +:+ exc_str e);;;
           raise e)
  end.

Definition read_file (self : t) (sandbox_id path : string) : M (World P) (list byte) :=
  match client self with
  | None => raise not_initialized
  | Some _ =>
      try_except
        (container <- run_in_executor (containers_get P sandbox_id);;
         (* Get tar archive from container *)
         tar_file <- run_in_executor (container_get_archive P container path);;
         (* Get first file from archive *)
         match tar_next tar_file with
         | Some member =>
             let content :=
               match extractfile member with
               | Some file_obj => file_obj
               | None => []
               end in
             ret content
         | None => raise (mkExc FileNotFoundError ("File not found: " +:+ path))
         end)
        (fun e =>
           logger LOG_ERROR ("Failed to read file from Docker sandbox: " +:+ exc_str e);;;
           raise e)
  end.

(** The arithmetic of [get_resource_usage] on a fetched stats document. *)
Definition usage_of_stats (stats : Json) : Result (gmap string Json) :=
  (* Calculate CPU percentage *)
  rbind (getpath stats ["cpu_stats"; "cpu_usage"; "total_usage"]) (fun cpu_now =>
  rbind (getpath stats ["precpu_stats"; "cpu_usage"; "total_usage"]) (fun cpu_pre =>
  rbind (py_sub P cpu_now cpu_pre) (fun cpu_delta =>
  rbind (getpath stats ["cpu_stats"; "system_cpu_usage"]) (fun sys_now =>
  rbind (getpath stats ["precpu_stats"; "system_cpu_usage"]) (fun sys_pre =>
  rbind (py_sub P sys_now sys_pre) (fun system_delta =>
  rbind (py_gt0 (Some system_delta)) (fun sys_pos =>
  rbind (if sys_pos : bool
         then rbind (py_truediv P (Some cpu_delta) (Some system_delta))
                    (fun r => Returned (float_mul P r 100))
         else Returned 0%Q) (fun cpu_percent =>
  (* Memory usage *)
  rbind (getpath stats ["memory_stats"; "usage"]) (fun memory_usage =>
  rbind (getpath stats ["memory_stats"; "limit"]) (fun memory_limit =>
  rbind (py_gt0 (as_num memory_limit)) (fun lim_pos =>
  rbind (if lim_pos : bool
         then rbind (py_truediv P (as_num memory_usage) (as_num memory_limit))
                    (fun r => Returned (float_mul P r 100))
         else Returned 0%Q) (fun memory_percent =>
  Returned
    (<["cpu_percent" := JFloat (py_round2 P cpu_percent)]>
       (<["memory_bytes" := memory_usage]>
          (<["memory_limit_bytes" := memory_limit]>
             {["memory_percent" := JFloat (py_round2 P memory_percent)]})))
  )))))))))))).

Definition get_resource_usage (self : t) (sandbox_id : string)
    : M (World P) (gmap string Json) :=
  match client self with
  | None => raise not_initialized
  | Some _ =>
      try_except
        (container <- run_in_executor (containers_get P sandbox_id);;
         stats <- run_in_executor (container_stats P container);;
         of_result (usage_of_stats stats))
        (fun e =>
           logger LOG_ERROR ("Failed to get resource usage: " +:+ exc_str e);;;
           ret ∅)
  end.

End Methods.

End DockerSandboxAdapter.

(** ** Objects with mutable attributes

    A method that assigns to an attribute of [self] runs on a state made of
    the enclosing world and the object. *)

(** Run [m], which only touches the enclosing world, next to an object. *)
Definition in_world {W S A} (m : M W A) : M (W * S) A :=
  fun s =>
    let '(r, s') := m (mkSt (fst (world s)) (logs s) (clock s)) in
    (r, mkSt (world s', snd (world s)) (logs s') (clock s')).

Definition get_self {W S} : M (W * S) S :=
  fun s => (Returned (snd (world s)), s).

Definition set_self {W S} (o : S) : M (W * S) unit :=
  fun s => (Returned tt, mkSt (fst (world s), o) (logs s) (clock s)).

(** ** The provider-agnostic adapter interface ([SandboxAdapter]) *)

(** An adapter object as its callers see it: the methods of the abstract
    base class that the factory and the shim call, closed over [self]. *)
Record SandboxAdapter (W : Type) := mkSandboxAdapter {
  sa_create_sandbox :
    option string -> option DockerSandboxAdapter.Resources ->
    option (gmap string PyVal) -> M W SandboxInfo;
  sa_get_sandbox : string -> M W SandboxInfo;
  sa_start_sandbox : string -> M W SandboxInfo;
  sa_stop_sandbox : string -> M W SandboxInfo;
  sa_delete_sandbox : string -> M W unit;
  sa_execute_command :
    string -> string -> option string -> option (gmap string string) ->
    option Z -> M W ExecuteResult;
  sa_write_file : string -> string -> list byte -> Z -> M W unit;
  sa_read_file : string -> string -> M W (list byte);
  sa_get_resource_usage : string -> M W (gmap string Json);
  sa_get_provider_name : string;
  sa_is_configured : bool;
}.
Arguments sa_create_sandbox {W} _ _ _ _.
Arguments sa_get_sandbox {W} _ _.
Arguments sa_start_sandbox {W} _ _.
Arguments sa_stop_sandbox {W} _ _.
Arguments sa_delete_sandbox {W} _ _.
Arguments sa_execute_command {W} _ _ _ _ _ _.
Arguments sa_write_file {W} _ _ _ _ _.
Arguments sa_read_file {W} _ _ _.
Arguments sa_get_resource_usage {W} _ _.
Arguments sa_get_provider_name {W} _.
Arguments sa_is_configured {W} _.

(** [DockerSandboxAdapter] implements the interface. *)
Definition docker_adapter (P : Platform) (self : DockerSandboxAdapter.t)
    : SandboxAdapter (World P) :=
  mkSandboxAdapter (World P)
    (DockerSandboxAdapter.create_sandbox P self)
    (DockerSandboxAdapter.get_sandbox P self)
    (DockerSandboxAdapter.start_sandbox P self)
    (DockerSandboxAdapter.stop_sandbox P self)
    (DockerSandboxAdapter.delete_sandbox P self)
    (DockerSandboxAdapter.execute_command P self)
    (DockerSandboxAdapter.write_file P self)
    (DockerSandboxAdapter.read_file P self)
    (DockerSandboxAdapter.get_resource_usage P self)
    (DockerSandboxAdapter.get_provider_name self)
    (DockerSandboxAdapter.is_configured self).

(** ** The factory ([factory.py]) *)

Module SandboxFactory.

(** A factory object: [provider] is set by the constructor, [_adapter]
    starts as the class default [None] and is assigned by [get_adapter]. *)
Record t := mk {
  provider : SandboxProvider;
  _adapter : option DockerSandboxAdapter.t;
}.

Section Methods.
Context (P : Platform).

(** Truthiness of [os.getenv(name)]. *)
Definition env_set (name : string) : M (World P) bool :=
  v <- getenv P name;;
  ret (match v with Some s => negb (String.eqb s "") | None => false end).

Definition _detect_provider : M (World P) SandboxProvider :=
  (* Check explicit SANDBOX_PROVIDER setting *)
  provider_env <- getenv_default P "SANDBOX_PROVIDER" "";;
  let provider_env := lower provider_env in
  if String.eqb provider_env "docker" then ret DOCKER
  else if String.eqb provider_env "e2b" then ret E2B
  else if String.eqb provider_env "daytona" then
    logger LOG_WARNING "Daytona is deprecated, consider migrating to Docker or E2B";;;
    ret DAYTONA
  else
    (* Check CLOUD_PROVIDER and map to sandbox provider *)
    cloud_provider <- getenv_default P "CLOUD_PROVIDER" "";;
    let cloud_provider := lower cloud_provider in
    e2b_key <- env_set "E2B_API_KEY";;
    daytona_key <- env_set "DAYTONA_API_KEY";;
    if String.eqb cloud_provider "aliyun" || String.eqb cloud_provider "tencent"
       || String.eqb cloud_provider "local" then ret DOCKER
    else if String.eqb cloud_provider "supabase" then
      if e2b_key then ret E2B else ret DOCKER
    else if e2b_key then
      logger LOG_INFO "E2B API key found, using E2B sandboxes";;;
      ret E2B
    else if daytona_key then
      logger LOG_WARNING "Daytona API key found, but Daytona is deprecated";;;
      logger LOG_WARNING "Consider migrating to Docker or E2B";;;
      ret DAYTONA
    else
      logger LOG_INFO "Defaulting to Docker sandbox provider";;;
      ret DOCKER.

Definition __init__ : M (World P) t :=
  provider <- _detect_provider;;
  logger LOG_INFO ("Sandbox factory initialized with provider: " +:+ provider_value provider);;;
  ret (mk provider None).

Definition _create_docker_adapter : M (World P) DockerSandboxAdapter.t :=
  docker_url <- getenv P "DOCKER_HOST";;
  image <- getenv_default P "SANDBOX_IMAGE" "kortix-sandbox:latest";;
  network <- getenv P "SANDBOX_NETWORK";;
  memory_limit <- getenv_default P "SANDBOX_MEMORY_LIMIT" "512m";;
  cpu_str <- getenv_default P "SANDBOX_CPU_LIMIT" "1.0";;
  cpu_limit <- of_result (float_of_str P cpu_str);;
  gpu_str <- getenv_default P "SANDBOX_ENABLE_GPU" "false";;
  DockerSandboxAdapter.__init__ P docker_url (Some image) network memory_limit
    cpu_limit (String.eqb (lower gpu_str) "true").

Definition _create_e2b_adapter : M (World P) DockerSandboxAdapter.t :=
  raise (mkExc NotImplementedError "E2B adapter not yet implemented").

Definition _create_daytona_adapter : M (World P) DockerSandboxAdapter.t :=
  raise (mkExc NotImplementedError
           ("Daytona adapter not implemented. "
            +:+ "Please migrate to Docker or E2B. "
            +:+ "Set SANDBOX_PROVIDER=docker to use Docker sandboxes.")).

(** [get_adapter]: a method of a factory object; it assigns
    [self._adapter]. *)
Definition get_adapter : M (World P * t) DockerSandboxAdapter.t :=
  self <- get_self;;
  match _adapter self with
  | Some a => ret a
  | None =>
      a <- in_world
             match provider self with
             | DOCKER => _create_docker_adapter
             | E2B => _create_e2b_adapter
             | DAYTONA => _create_daytona_adapter
             end;;
      set_self (mk (provider self) (Some a));;;
      (* Validate adapter is configured *)
      if negb (DockerSandboxAdapter.is_configured a) then
        raise (mkExc RuntimeError
                 ("Sandbox provider '" +:+ provider_value (provider self)
                  +:+ "' is not properly configured. "
                  +:+ "Please check your environment variables and service availability."))
      else ret a
  end.

Definition get_provider_name (self : t) : string := provider_value (provider self).

(** The class attribute [SandboxFactory._instance] next to the engine. *)
Definition Process : Type := World P * option t.

(** [SandboxFactory.get_instance()] *)
Definition get_instance : M Process t :=
  inst <- get_self;;
  match inst with
  | Some f => ret f
  | None =>
      f <- in_world __init__;;
      set_self (Some f);;;
      ret f
  end.

(** Run a method on the object [factory], which is the one
    [SandboxFactory._instance] refers to: what the method assigns to
    [self] is seen through the class attribute afterwards. *)
Definition on_instance {A} (factory : t) (m : M (World P * t) A) : M Process A :=
  fun s =>
    let '(r, s') := m (mkSt (fst (world s), factory) (logs s) (clock s)) in
    (r, mkSt (fst (world s'), Some (snd (world s'))) (logs s') (clock s')).

(** [get_sandbox_adapter()]: the main entry point. *)
Definition get_sandbox_adapter : M Process DockerSandboxAdapter.t :=
  factory <- get_instance;;
  on_instance factory get_adapter.

End Methods.

End SandboxFactory.

(** ** The compatibility shim ([compat.py]) *)

(** [str(state)] of the enum member, as an f-string prints it. *)
Definition SandboxState_str (s : SandboxState) : string :=
  "SandboxState." +:+
  match s with
  | CREATING => "CREATING"
  | STARTED => "STARTED"
  | STOPPED => "STOPPED"
  | ARCHIVING => "ARCHIVING"
  | ARCHIVED => "ARCHIVED"
  | ERROR => "ERROR"
  end.

Definition SandboxState_eqb (a b : SandboxState) : bool :=
  match a, b with
  | CREATING, CREATING | STARTED, STARTED | STOPPED, STOPPED
  | ARCHIVING, ARCHIVING | ARCHIVED, ARCHIVED | ERROR, ERROR => true
  | _, _ => false
  end.

Module CompatSandbox.

Section Shim.
Context {W : Type}.

(** A sandbox handle.  [_state] is the only attribute assigned after
    construction. *)
Record t := mk {
  adapter : SandboxAdapter W;
  id : string;
  sandbox_id : string;
  metadata : gmap string PyVal;
  _state : option SandboxState;
}.

(** [CompatSandbox(adapter, sandbox_id, metadata)] *)
Definition __init__ (adapter : SandboxAdapter W) (sandbox_id : string)
    (metadata : option (gmap string PyVal)) : t :=
  mk adapter sandbox_id sandbox_id
     (match metadata with Some md => md | None => ∅ end) None.

(** Get current sandbox state.  Returns the value of [self._state]. *)
Definition get_state : M (W * t) (option SandboxState) :=
  self <- get_self;;
  match _state self with
  | None =>
      info <- in_world (sa_get_sandbox (adapter self) (sandbox_id self));;
      set_self (mk (adapter self) (id self) (sandbox_id self) (metadata self)
                   (Some (Contract.state info)))
  | Some _ => ret tt
  end;;;
  self <- get_self;;
  ret (_state self).

(** Synchronous state property (may be stale). *)
Definition state (self : t) : option SandboxState := _state self.

(** The body of [for _ in range(n)] in [get_or_start_sandbox]; [info] is
    the variable the loop reassigns. *)
Fixpoint wait_until_started (adapter : SandboxAdapter W) (sandbox_id : string)
    (n : nat) (info : SandboxInfo) : M W SandboxInfo :=
  match n with
  | O => ret info
  | S n' =>
      asyncio_sleep 1000;;;
      info <- sa_get_sandbox adapter sandbox_id;;
      if SandboxState_eqb (Contract.state info) STARTED
      then ret info
      else wait_until_started adapter sandbox_id n' info
  end.

(** [get_or_start_sandbox(sandbox_id)], over the module's
    [get_sandbox_adapter]. *)
Definition get_or_start_sandbox (get_sandbox_adapter : M W (SandboxAdapter W))
    (sandbox_id : string) : M W t :=
  logger LOG_INFO ("Getting or starting sandbox with ID: " +:+ sandbox_id);;;
  try_except
    ((* Get adapter from factory *)
     adapter <- get_sandbox_adapter;;
     (* Get sandbox info *)
     info <- sa_get_sandbox adapter sandbox_id;;
     (* Check if sandbox needs to be started *)
     info <- (if SandboxState_eqb (Contract.state info) STOPPED
                 || SandboxState_eqb (Contract.state info) ARCHIVED
              then
                logger LOG_INFO ("Sandbox is in " +:+ SandboxState_str (Contract.state info)
                                 +:+ " state. Starting...");;;
                sa_start_sandbox adapter sandbox_id;;;
                (* Wait for sandbox to be ready *)
                wait_until_started adapter sandbox_id 30 info
              else ret info);;
     logger LOG_INFO ("Sandbox " +:+ sandbox_id +:+ " is ready");;;
     (* Return compatibility wrapper *)
     ret (__init__ adapter sandbox_id (Some (Contract.metadata info))))
    (fun e =>
       logger LOG_ERROR ("Error retrieving or starting sandbox: " +:+ exc_str e);;;
       raise e).

End Shim.

Arguments t : clear implicits.

End CompatSandbox.

(** The shim's [get_sandbox_adapter] is the factory's, handing out the
    engine-backed adapter; its methods run on the engine part of the
    process state. *)
Definition process_adapter (P : Platform) (a : DockerSandboxAdapter.t)
    : SandboxAdapter (SandboxFactory.Process P) :=
  let d := docker_adapter P a in
  mkSandboxAdapter (SandboxFactory.Process P)
    (fun x y z => in_world (sa_create_sandbox d x y z))
    (fun x => in_world (sa_get_sandbox d x))
    (fun x => in_world (sa_start_sandbox d x))
    (fun x => in_world (sa_stop_sandbox d x))
    (fun x => in_world (sa_delete_sandbox d x))
    (fun x y z u v => in_world (sa_execute_command d x y z u v))
    (fun x y z u => in_world (sa_write_file d x y z u))
    (fun x y => in_world (sa_read_file d x y))
    (fun x => in_world (sa_get_resource_usage d x))
    (sa_get_provider_name d)
    (sa_is_configured d).

Definition get_or_start_sandbox (P : Platform) (sandbox_id : string)
    : M (SandboxFactory.Process P) (CompatSandbox.t (SandboxFactory.Process P)) :=
  CompatSandbox.get_or_start_sandbox
    (a <- SandboxFactory.get_sandbox_adapter P;; ret (process_adapter P a))
    sandbox_id.

(** ** An in-memory container engine

    A reference instance of [Platform]: containers with a status, labels, a
    file tree and a stats document; commands are looked up in a table of
    outcomes.  It follows the engine's API as the adapter uses it: unknown
    containers and paths are reported as [NotFound], copying an archive in
    needs an existing destination directory and skips an entry whose name
    resolves to that directory itself, copying out of a directory yields
    the directory's own entry first. *)

Module Mem.

Inductive Node := File (data : list byte) | Dir.

Record MContainer := mkMContainer {
  mc_status : string;
  mc_labels : gmap string string;
  mc_fs : gmap (list string) Node;
  mc_stats : Json;
}.

Record MWorld := mkMWorld {
  reachable : bool;
  env : gmap string string;
  now : Z;
  images : gset string;
  containers : gmap string MContainer;
  created : nat;
  (** what running an argument vector does: how long it takes and what it
      ends with *)
  run_cmd : list string -> Future ExecResult;
}.

(** [s.split('/')], as the first piece and the remaining ones. *)
Fixpoint split_sep (s : string) : string * list string :=
  match s with
  | EmptyString => (EmptyString, [])
  | String c s' =>
      let '(x, xs) := split_sep s' in
      if Ascii.eqb c sep then (EmptyString, x :: xs) else (String c x, xs)
  end.

Definition pieces (s : string) : list string :=
  let '(x, xs) := split_sep s in x :: xs.

(** Path resolution from a directory [acc]: empty pieces and [.] are
    skipped, [..] goes one level up. *)
Fixpoint resolve (acc : list string) (ps : list string) : list string :=
  match ps with
  | [] => acc
  | p :: ps' =>
      if String.eqb p "" || String.eqb p "." then resolve acc ps'
      else if String.eqb p ".." then resolve (removelast acc) ps'
      else resolve (acc ++ [p]) ps'
  end.

(** Paths are taken from the container's root. *)
Definition abspath (p : string) : list string := resolve [] (pieces p).

Definition unreachable_error : Exception :=
  mkExc OtherException "Error while fetching server API version: Connection refused".

Definition no_such_container (id : string) : Exception :=
  mkExc NotFound ("404 Client Error: Not Found (No such container: " +:+ id +:+ ")").

Definition snapshot (id : string) (mc : MContainer) : Container :=
  mkContainer id (mc_status mc) (Some (mc_labels mc)).

Definition set_containers (w : MWorld) (cs : gmap string MContainer) : MWorld :=
  mkMWorld (reachable w) (env w) (now w) (images w) cs (created w) (run_cmd w).

(** Every call first needs the daemon, then (for container methods) the
    container. *)
Definition with_container {A} (id : string) (w : MWorld)
    (k : MContainer -> Result A * MWorld) : Result A * MWorld :=
  if reachable w then
    match containers w !! id with
    | Some mc => k mc
    | None => (Raised (no_such_container id), w)
    end
  else (Raised unreachable_error, w).

Definition m_DockerClient (url : string) (w : MWorld) : Result DockerClient * MWorld :=
  (Returned (mkDockerClient url), w).

Definition m_ping (c : DockerClient) (w : MWorld) : Result bool * MWorld :=
  if reachable w then (Returned true, w) else (Raised unreachable_error, w).

Definition initial_fs : gmap (list string) Node :=
  <[ [] := Dir ]> (<[ ["workspace"] := Dir ]> (<[ ["tmp"] := Dir ]> ∅)).

Definition fresh_id (w : MWorld) : string := "sandbox-" +:+ pretty (created w).

Definition m_run (cfg : RunConfig) (w : MWorld) : Result Container * MWorld :=
  if reachable w then
    if decide (rc_image cfg ∈ images w) then
      let id := fresh_id w in
      let mc := mkMContainer "running" (rc_labels cfg) initial_fs (JDict []) in
      (Returned (snapshot id mc),
       mkMWorld (reachable w) (env w) (now w) (images w)
                (<[id := mc]> (containers w)) (S (created w)) (run_cmd w))
    else
      (Raised (mkExc ImageNotFound
                 ("404 Client Error: Not Found (No such image: " +:+ rc_image cfg +:+ ")")), w)
  else (Raised unreachable_error, w).

Definition m_get (id : string) (w : MWorld) : Result Container * MWorld :=
  with_container id w (fun mc => (Returned (snapshot id mc), w)).

Definition set_status (st : string) (mc : MContainer) : MContainer :=
  mkMContainer st (mc_labels mc) (mc_fs mc) (mc_stats mc).

Definition m_start (c : Container) (w : MWorld) : Result unit * MWorld :=
  with_container (c_id c) w (fun mc =>
    (Returned tt, set_containers w (<[c_id c := set_status "running" mc]> (containers w)))).

Definition m_stop (c : Container) (timeout : Z) (w : MWorld) : Result unit * MWorld :=
  with_container (c_id c) w (fun mc =>
    (Returned tt, set_containers w (<[c_id c := set_status "exited" mc]> (containers w)))).

Definition m_remove (c : Container) (force : bool) (w : MWorld) : Result unit * MWorld :=
  with_container (c_id c) w (fun mc =>
    if String.eqb (mc_status mc) "running" && negb force
    then (Raised (mkExc APIError "409 Client Error: Conflict (container is running)"), w)
    else (Returned tt, set_containers w (delete (c_id c) (containers w)))).

Definition m_exec_run (c : Container) (cfg : ExecConfig) (w : MWorld)
    : Future ExecResult * MWorld :=
  match with_container (c_id c) w (fun mc =>
          if String.eqb (mc_status mc) "running"
          then (Returned tt, w)
          else (Raised (mkExc APIError "409 Client Error: Conflict (container is not running)"), w))
  with
  | (Returned _, w') => (run_cmd w (ec_cmd cfg), w')
  | (Raised e, w') => (mkFuture 0 (Raised e), w')
  end.

Definition no_such_path (p : string) : Exception :=
  mkExc NotFound ("404 Client Error: Not Found (Could not find the file " +:+ p +:+ ")").

(** Unpack one member below the directory [dest]. *)
Definition unpack (dest : list string) (fs : gmap (list string) Node)
    (m : TarInfo * list byte) : gmap (list string) Node :=
  let target := resolve dest (pieces (ti_name (fst m))) in
  if decide (target = dest) then fs
  else
    match ti_type (fst m) with
    | REGTYPE => <[target := File (snd m)]> fs
    | DIRTYPE => <[target := Dir]> fs
    | OTHERTYPE => fs
    end.

Definition set_fs (fs : gmap (list string) Node) (mc : MContainer) : MContainer :=
  mkMContainer (mc_status mc) (mc_labels mc) fs (mc_stats mc).

Definition m_put_archive (c : Container) (dest : string) (tar : Archive) (w : MWorld)
    : Result bool * MWorld :=
  with_container (c_id c) w (fun mc =>
    match mc_fs mc !! abspath dest with
    | Some Dir =>
        let fs := fold_left (unpack (abspath dest)) tar (mc_fs mc) in
        (Returned true, set_containers w (<[c_id c := set_fs fs mc]> (containers w)))
    | _ => (Raised (no_such_path dest), w)
    end).

Definition entry_name (p : list string) : string := List.last p ".".

Definition m_get_archive (c : Container) (path : string) (w : MWorld)
    : Result Archive * MWorld :=
  with_container (c_id c) w (fun mc =>
    match mc_fs mc !! abspath path with
    | Some (File data) =>
        (Returned [(mkTarInfo (entry_name (abspath path))
                      (Z.of_nat (length data)) 420 (now w) REGTYPE, data)], w)
    | Some Dir =>
        (Returned [(mkTarInfo (entry_name (abspath path)) 0 493 (now w) DIRTYPE, [])], w)
    | None => (Raised (no_such_path path), w)
    end).

Definition m_stats (c : Container) (w : MWorld) : Result Json * MWorld :=
  with_container (c_id c) w (fun mc => (Returned (mc_stats mc), w)).

(** Stand-ins for the float conversions: whole seconds print as [N.0];
    only plain decimals are read. *)
Definition m_float_str (q : Q) : string :=
  pretty (Qfloor q) +:+ "." +:+ pretty (Qfloor ((q - inject_Z (Qfloor q)) * 10)).

Definition digit_of (c : ascii) : option Z :=
  let n := nat_of_ascii c in
  if (48 <=? n)%nat && (n <=? 57)%nat then Some (Z.of_nat n - 48) else None.

Fixpoint read_decimal (s : string) (seen_dot : bool) (num : Z) (den : positive)
    : option Q :=
  match s with
  | EmptyString => Some (Qmake num den)
  | String c s' =>
      if Ascii.eqb c "."%char then
        if seen_dot then None else read_decimal s' true num den
      else
        match digit_of c with
        | Some d => read_decimal s' seen_dot (10 * num + d)
                      (if seen_dot then (10 * den)%positive else den)
        | None => None
        end
  end.

Definition m_float_of_str (s : string) : Result Q :=
  match s, read_decimal s false 0 1 with
  | String _ _, Some q => Returned q
  | _, _ => Raised (mkExc ValueError ("could not convert string to float: '" +:+ s +:+ "'"))
  end.

(** Strict UTF-8: [need] continuation bytes are still expected, the next
    one within [lo..hi]. *)
Fixpoint utf8_ok (need : nat) (lo hi : N) (bs : list byte) : bool :=
  match bs with
  | [] => match need with O => true | S _ => false end
  | b :: bs' =>
      let n := Byte.to_N b in
      match need with
      | S k => (lo <=? n)%N && (n <=? hi)%N && utf8_ok k 128 191 bs'
      | O =>
          if (n <=? 127)%N then utf8_ok 0 128 191 bs'
          else if (194 <=? n)%N && (n <=? 223)%N then utf8_ok 1 128 191 bs'
          else if (n =? 224)%N then utf8_ok 2 160 191 bs'
          else if (n =? 237)%N then utf8_ok 2 128 159 bs'
          else if (225 <=? n)%N && (n <=? 239)%N then utf8_ok 2 128 191 bs'
          else if (n =? 240)%N then utf8_ok 3 144 191 bs'
          else if (241 <=? n)%N && (n <=? 243)%N then utf8_ok 3 128 191 bs'
          else if (n =? 244)%N then utf8_ok 3 128 143 bs'
          else false
      end
  end.

Definition m_decode_utf8 (bs : list byte) : Result string :=
  if utf8_ok 0 128 191 bs then Returned (String.string_of_list_byte bs)
  else Raised (mkExc UnicodeDecodeError "'utf-8' codec can't decode bytes: invalid data").

(** Stand-in for float rounding: the in-memory platform computes
    exactly, which agrees with floats wherever the exact result is a
    float. *)
Definition m_float_nearest (x : Q) : option Q := Some x.

Definition platform : Platform :=
  mkPlatform MWorld env (fun w => inject_Z (now w)) m_float_str m_float_of_str
    m_float_nearest m_decode_utf8 m_DockerClient m_ping m_run m_get m_start m_stop m_remove
    m_exec_run m_put_archive m_get_archive m_stats.

(** A reachable engine with the default image, a clock reading and no
    containers. *)
Definition fresh : MWorld :=
  mkMWorld true ∅ 1700000000 {[ "kortix-sandbox:latest" ]} ∅ 0
    (fun _ => mkFuture 10 (Returned (mkExecResult 0 (None, None)))).

(** The same engine switched off. *)
Definition down : MWorld :=
  mkMWorld false ∅ 1700000000 {[ "kortix-sandbox:latest" ]} ∅ 0
    (fun _ => mkFuture 10 (Returned (mkExecResult 0 (None, None)))).

(** An adapter connected to the in-memory engine. *)
Definition adapter : DockerSandboxAdapter.t :=
  DockerSandboxAdapter.mk "unix:///var/run/docker.sock" "kortix-sandbox:latest"
    "bridge" "512m" 1 false (Some (mkDockerClient "unix:///var/run/docker.sock")).

Definition start_state (w : MWorld) : St MWorld := mkSt w [] 0.

(** A reachable engine holding one container, ["sandbox-0"], and running
    commands as [tbl] says. *)
Definition holding (mc : MContainer) (tbl : list string -> Future ExecResult) : MWorld :=
  mkMWorld true ∅ 1700000000 {[ "kortix-sandbox:latest" ]} {[ "sandbox-0" := mc ]} 1 tbl.

Definition plain (status : string) : MContainer :=
  mkMContainer status ∅ initial_fs (JDict []).

(** Commands that run for [ms] milliseconds and end with [out]. *)
Definition always (ms : Z) (out : Result ExecResult) : list string -> Future ExecResult :=
  fun _ => mkFuture ms out.

(** Commands that end at once, successfully and silently. *)
Definition idle : list string -> Future ExecResult :=
  always 0 (Returned (mkExecResult 0 (None, None))).



(** An adapter whose connection attempt failed. *)
Definition unconfigured : DockerSandboxAdapter.t :=
  DockerSandboxAdapter.mk "unix:///var/run/docker.sock" "kortix-sandbox:latest"
    "bridge" "512m" 1 false None.

End Mem.

(** ** A scripted adapter

    An implementation of the adapter interface that reports a given
    sequence of states, one per [get_sandbox], and records when each call
    was issued. *)

Module Scripted.

Inductive Call := GetSandbox | StartSandbox.

Record SWorld := mkSWorld {
  script : nat -> SandboxState;
  polled : nat;
  calls : list (Call * Z);
}.

Definition record_call (c : Call) (consume : bool) : M SWorld SandboxState :=
  fun s =>
    let w := world s in
    (Returned (script w (polled w)),
     mkSt (mkSWorld (script w)
                    (if consume then S (polled w) else polled w)
                    (calls w ++ [(c, clock s)]))
          (logs s) (clock s)).

Definition get_sandbox (sandbox_id : string) : M SWorld SandboxInfo :=
  st <- record_call GetSandbox true;;
  ret (SandboxInfo_new sandbox_id st ∅).

Definition start_sandbox (sandbox_id : string) : M SWorld SandboxInfo :=
  st <- record_call StartSandbox false;;
  ret (SandboxInfo_new sandbox_id st ∅).

Definition unsupported {A} : M SWorld A :=
  raise (mkExc NotImplementedError "not scripted").

Definition adapter : SandboxAdapter SWorld :=
  mkSandboxAdapter SWorld
    (fun _ _ _ => unsupported) get_sandbox start_sandbox
    (fun _ => unsupported) (fun _ => unsupported)
    (fun _ _ _ _ _ => unsupported) (fun _ _ _ _ => unsupported)
    (fun _ _ => unsupported) (fun _ => unsupported)
    "Scripted" true.

Definition init (script : nat -> SandboxState) : St SWorld :=
  mkSt (mkSWorld script 0 []) [] 0.

(** Number of polls a start takes when at most [budget] are allowed and
    the next report is number [from]: up to and including the first
    [STARTED] one. *)
Fixpoint polls_needed (script : nat -> SandboxState) (from budget : nat) : nat :=
  match budget with
  | O => O
  | S b =>
      if SandboxState_eqb (script from) STARTED then 1%nat
      else S (polls_needed script (S from) b)
  end.

(** [k] polls issued one second apart, the first one second after [t0]. *)
Definition poll_calls (t0 : Z) (k : nat) : list (Call * Z) :=
  map (fun i => (GetSandbox, t0 + 1000 * Z.of_nat i)) (seq 1 k).

End Scripted.

(** ** Statement-level notions *)

(** The ways a step of [execute_command] can fail other than by the
    timer of [wait_for]: the container lookup raises, the awaited
    execution raises, or decoding one of the two streams raises. *)
Inductive internal_failure (P : Platform) (sandbox_id command : string)
    (working_dir : option string) (env : option (gmap string string))
    (timeout : Z) (w : World P) : Exception -> Prop :=
| lookup_failed e w' :
    containers_get P sandbox_id w = (Raised e, w') ->
    internal_failure P sandbox_id command working_dir env timeout w e
| exec_failed c w1 fut w2 e :
    containers_get P sandbox_id w = (Returned c, w1) ->
    container_exec_run P c
      (DockerSandboxAdapter.exec_config command working_dir env) w1 = (fut, w2) ->
    fut_duration fut <= timeout * 1000 ->
    fut_outcome fut = Raised e ->
    isinstance_TimeoutError e = false ->
    internal_failure P sandbox_id command working_dir env timeout w e
| stdout_undecodable c w1 fut w2 res e :
    containers_get P sandbox_id w = (Returned c, w1) ->
    container_exec_run P c
      (DockerSandboxAdapter.exec_config command working_dir env) w1 = (fut, w2) ->
    fut_duration fut <= timeout * 1000 ->
    fut_outcome fut = Returned res ->
    DockerSandboxAdapter.decode_or_empty P (fst (er_output res)) = Raised e ->
    isinstance_TimeoutError e = false ->
    internal_failure P sandbox_id command working_dir env timeout w e
| stderr_undecodable c w1 fut w2 res out e :
    containers_get P sandbox_id w = (Returned c, w1) ->
    container_exec_run P c
      (DockerSandboxAdapter.exec_config command working_dir env) w1 = (fut, w2) ->
    fut_duration fut <= timeout * 1000 ->
    fut_outcome fut = Returned res ->
    DockerSandboxAdapter.decode_or_empty P (fst (er_output res)) = Returned out ->
    DockerSandboxAdapter.decode_or_empty P (snd (er_output res)) = Raised e ->
    isinstance_TimeoutError e = false ->
    internal_failure P sandbox_id command working_dir env timeout w e.

(** A run of [get_state] calls on one handle, the world around the handle
    changing as [changes] says before each call; the values returned. *)
Fixpoint get_state_through {W} (changes : list (W -> W))
    : M (W * CompatSandbox.t W) (list (option SandboxState)) :=
  match changes with
  | [] => ret []
  | f :: fs =>
      (fun s => (Returned tt, mkSt (f (fst (world s)), snd (world s)) (logs s) (clock s)));;;
      v <- CompatSandbox.get_state;;
      vs <- get_state_through fs;;
      ret (v :: vs)
  end.

(** No two metadata labels decode to the same key. *)
Definition meta_keys_distinct (labels : gmap string string) : Prop :=
  let prefix := DockerSandboxAdapter.META_PREFIX in
  forall k1 k2,
    is_Some (labels !! k1) -> is_Some (labels !! k2) ->
    startswith prefix k1 = true -> startswith prefix k2 = true ->
    remove_all prefix k1 = remove_all prefix k2 -> k1 = k2.





(** The record [delete_sandbox] logs for a container that is gone. *)
Definition already_deleted (sandbox_id : string) : LogRecord :=
  (LOG_WARNING, "Docker container already deleted: " +:+ sandbox_id).

(** ** The remaining adapter methods and the file listing *)

(** [FileInfo] ([adapter.py]). *)
Module FileInfo.

Record t := mk {
  path : string;
  size : Z;
  is_directory : bool;
  modified_time : option Q;
}.

End FileInfo.

(** String methods used by the listing.  Strings are byte strings here, and
    whitespace is the ASCII whitespace ([str.split()] and [str.strip()]
    also separate at the non-ASCII space characters, which the statements
    below exclude by asking for ASCII text). *)
Module PyStr.

Definition isspace (c : ascii) : bool :=
  let n := nat_of_ascii c in
  ((9 <=? n)%nat && (n <=? 13)%nat) || ((28 <=? n)%nat && (n <=? 32)%nat).

(** [s.lstrip()], [s.rstrip()], [s.strip()] *)
Fixpoint lstrip (s : string) : string :=
  match s with
  | EmptyString => EmptyString
  | String c s' => if isspace c then lstrip s' else s
  end.

Fixpoint rstrip (s : string) : string :=
  match s with
  | EmptyString => EmptyString
  | String c s' =>
      match rstrip s' with
      | EmptyString => if isspace c then EmptyString else String c EmptyString
      | r => String c r
      end
  end.

Definition strip (s : string) : string := rstrip (lstrip s).

(** [s.split(c)] for a one-character separator, as the first piece and the
    remaining ones. *)
Fixpoint split_on_go (c : ascii) (s : string) : string * list string :=
  match s with
  | EmptyString => (EmptyString, [])
  | String a s' =>
      let '(x, xs) := split_on_go c s' in
      if Ascii.eqb a c then (EmptyString, x :: xs) else (String a x, xs)
  end.

Definition split_on (c : ascii) (s : string) : list string :=
  let '(x, xs) := split_on_go c s in x :: xs.

(** [s.split()]: the maximal runs of non-whitespace characters.  The
    helper returns the run the string starts with (empty when it starts
    with whitespace) and the runs after it. *)
Fixpoint split_go (s : string) : string * list string :=
  match s with
  | EmptyString => (EmptyString, [])
  | String a s' =>
      let '(x, xs) := split_go s' in
      if isspace a
      then (EmptyString, match x with EmptyString => xs | _ => x :: xs end)
      else (String a x, xs)
  end.

Definition split (s : string) : list string :=
  let '(x, xs) := split_go s in
  match x with EmptyString => xs | _ => x :: xs end.

(** [sep.join(l)] *)
Fixpoint join (sp : string) (l : list string) : string :=
  match l with
  | [] => EmptyString
  | [x] => x
  | x :: l' => x +:+ sp +:+ join sp l'
  end.

(** [s.endswith('/')] *)
Fixpoint endswith_sep (s : string) : bool :=
  match s with
  | EmptyString => false
  | String c EmptyString => Ascii.eqb c sep
  | String _ s' => endswith_sep s'
  end.

(** [os.path.join(a, b)] *)
Definition path_join (a b : string) : string :=
  if startswith "/" b then b
  else if String.eqb a "" || endswith_sep a then a +:+ b
  else a +:+ "/" +:+ b.

(** Every character is below 128. *)
Fixpoint is_ascii (s : string) : bool :=
  match s with
  | EmptyString => true
  | String c s' => (nat_of_ascii c <? 128)%nat && is_ascii s'
  end.

(** A field of a line: not empty, no whitespace in it. *)
Fixpoint no_space (s : string) : bool :=
  match s with
  | EmptyString => true
  | String c s' => negb (isspace c) && no_space s'
  end.

Definition is_field (s : string) : bool :=
  negb (String.eqb s "") && no_space s.

End PyStr.

Module DockerSandboxFiles.

Section Methods.
Context (P : Platform).
(** [int(s)], a builtin. *)
Variable int_of_str : string -> Result Z.

(** The body of the loop over the lines of the listing: [None] where the
    source says [continue]. *)
Definition list_entry (path line : string) : Result (option FileInfo.t) :=
  if String.eqb line "" || startswith "total" line then Returned None
  else
    let parts := PyStr.split line in
    if (length parts <? 9)%nat then Returned None
    else
      let permissions := nth 0 parts "" in
      rbind (int_of_str (nth 4 parts "")) (fun size =>
      rbind (float_of_str P (nth 5 parts "")) (fun mtime =>
      let name := PyStr.join " " (drop 8 parts) in
      if String.eqb name "." || String.eqb name ".." then Returned None
      else
        Returned (Some (FileInfo.mk (PyStr.path_join path name) size
                          (startswith "d" permissions) (Some mtime))))).

Fixpoint list_entries (path : string) (lines : list string)
    (files : list FileInfo.t) : Result (list FileInfo.t) :=
  match lines with
  | [] => Returned files
  | line :: rest =>
      rbind (list_entry path line) (fun entry =>
      list_entries path rest
        (match entry with
         | Some f => (files ++ [f])%list
         | None => files
         end))
  end.

(** List files in a directory: execute [ls -la] and parse its output. *)
Definition list_files (self : DockerSandboxAdapter.t) (sandbox_id path : string)
    : M (World P) (list FileInfo.t) :=
  result <- DockerSandboxAdapter.execute_command P self sandbox_id
              ("ls -la --time-style=+%s " +:+ path) None None (Some 10);;
  if negb (success result) then ret []
  else
    of_result (list_entries path
                 (PyStr.split_on "010"%char (PyStr.strip (stdout result))) []).

(** Delete a file or directory. *)
Definition delete_file (self : DockerSandboxAdapter.t) (sandbox_id path : string)
    : M (World P) unit :=
  result <- DockerSandboxAdapter.execute_command P self sandbox_id
              ("rm -rf " +:+ path) None None (Some 30);;
  if negb (success result) then
    raise (mkExc RuntimeError
             ("Failed to delete " +:+ path +:+ ": " +:+ stderr result))
  else ret tt.

(** Check if container is healthy; the bare [except] swallows everything. *)
Definition health_check (self : DockerSandboxAdapter.t) (sandbox_id : string)
    : M (World P) bool :=
  try_except
    (info <- DockerSandboxAdapter.get_sandbox P self sandbox_id;;
     ret (SandboxState_eqb (state info) STARTED))
    (fun _ => ret false).

End Methods.

End DockerSandboxFiles.

(** ** The shim's [create_sandbox] ([compat.py]) *)

Module Compat.

Section Shim.
Context {W : Type}.

(** Prepare metadata: [meta = metadata or {}], then the password and, when
    given, the project id.  (When a dict was passed, Python stores into
    that same dict; the caller's view of it is not modelled.) *)
Definition prepare_metadata (password : string) (project_id : option string)
    (metadata : option (gmap string PyVal)) : gmap string PyVal :=
  let meta := match metadata with Some md => md | None => ∅ end in
  let meta := <["password" := VStr password]> meta in
  match project_id with
  | Some pid =>
      if String.eqb pid "" then meta else <["project_id" := VStr pid]> meta
  | None => meta
  end.

(** [create_sandbox(password, project_id, metadata)], over the module's
    [get_sandbox_adapter]. *)
Definition create_sandbox (get_sandbox_adapter : M W (SandboxAdapter W))
    (password : string) (project_id : option string)
    (metadata : option (gmap string PyVal)) : M W (CompatSandbox.t W) :=
  logger LOG_INFO "Creating new sandbox environment";;;
  try_except
    ((* Get adapter from factory *)
     adapter <- get_sandbox_adapter;;
     (* Prepare metadata *)
     let meta := prepare_metadata password project_id metadata in
     (* Create sandbox through adapter *)
     info <- sa_create_sandbox adapter None None (Some meta);;
     logger LOG_INFO ("Created sandbox: " +:+ Contract.sandbox_id info);;;
     (* Return compatibility wrapper *)
     ret (CompatSandbox.__init__ adapter (Contract.sandbox_id info)
            (Some (Contract.metadata info))))
    (fun e =>
       logger LOG_ERROR ("Error creating sandbox: " +:+ exc_str e);;;
       raise e).

End Shim.

End Compat.

(** The shim's [create_sandbox] on the factory's adapter. *)
Definition create_sandbox_via_factory (P : Platform) (password : string)
    (project_id : option string) (metadata : option (gmap string PyVal))
    : M (SandboxFactory.Process P) (CompatSandbox.t (SandboxFactory.Process P)) :=
  Compat.create_sandbox
    (a <- SandboxFactory.get_sandbox_adapter P;; ret (process_adapter P a))
    password project_id metadata.

(** [int(s)] for the in-memory engine's listings: plain decimal digits with
    an optional sign. *)
Module MemText.

Fixpoint read_digits (s : string) (acc : Z) : option Z :=
  match s with
  | EmptyString => Some acc
  | String c s' =>
      match Mem.digit_of c with
      | Some d => read_digits s' (10 * acc + d)
      | None => None
      end
  end.

Definition int_of_str (s : string) : Result Z :=
  let bad := Raised (mkExc ValueError
                       ("invalid literal for int() with base 10: '" +:+ s +:+ "'")) in
  match s with
  | EmptyString => bad
  | String c s' =>
      if Ascii.eqb c "-"%char then
        match s', read_digits s' 0 with
        | String _ _, Some n => Returned (- n)
        | _, _ => bad
        end
      else
        match read_digits s 0 with
        | Some n => Returned n
        | None => bad
        end
  end.

(** The line feed. *)
Definition nl : string := String "010"%char "".

(** Commands that print [out] on stdout and exit with [code]. *)
Definition printing (out : string) (code : Z) : list string -> Future ExecResult :=
  Mem.always 5 (Returned (mkExecResult code
                            (Some (String.list_byte_of_string out), None))).

End MemText.

(** The keyword arguments [create_sandbox] builds for [containers.run],
    for the world it is called in. *)
Definition container_config (P : Platform) (self : DockerSandboxAdapter.t)
    (snapshot_id : option string)
    (resources : option DockerSandboxAdapter.Resources)
    (metadata : option (gmap string PyVal)) (w : World P) : RunConfig :=
  let base : gmap string string :=
    <["kortix.created_at" := float_str P (time_time P w)]>
      {["kortix.sandbox" := "true"]} in
  mkRunConfig
    (or_str snapshot_id (DockerSandboxAdapter.image self))
    true
    (DockerSandboxAdapter.network self)
    (match resources with
     | Some r => match DockerSandboxAdapter.res_memory r with
                 | Some m => m
                 | None => DockerSandboxAdapter.memory_limit self
                 end
     | None => DockerSandboxAdapter.memory_limit self
     end)
    100000
    (DockerSandboxAdapter.cpu_quota_of P
       (match resources with
        | Some r => match DockerSandboxAdapter.res_cpu r with
                    | Some c => c
                    | None => NFloat (DockerSandboxAdapter.cpu_limit self)
                    end
        | None => NFloat (DockerSandboxAdapter.cpu_limit self)
        end))
    {["DEBIAN_FRONTEND" := "noninteractive"]}
    (match metadata with
     | Some md => DockerSandboxAdapter.add_metadata_labels (float_str P) md base
     | None => base
     end)
    ["/bin/bash"; "-c"; "tail -f /dev/null"]
    true true
    (if DockerSandboxAdapter.enable_gpu self then Some [(-1, [["gpu"]])] else None).

(** The environment as the factory reads it: [os.getenv(name, default)]
    and the truthiness of [os.getenv(name)]. *)
Definition env_or (P : Platform) (w : World P) (name default : string) : string :=
  match environ P w !! name with Some v => v | None => default end.

Definition env_truthy (P : Platform) (w : World P) (name : string) : bool :=
  match environ P w !! name with
  | Some v => negb (String.eqb v "")
  | None => false
  end.

(** The in-memory engine [w] in a process started with environment [e]. *)
Definition with_environment (e : gmap string string) (w : Mem.MWorld) : Mem.MWorld :=
  Mem.mkMWorld (Mem.reachable w) e (Mem.now w) (Mem.images w) (Mem.containers w)
    (Mem.created w) (Mem.run_cmd w).

(** * Properties *)

(** ** Command execution *)

Section ExecuteCommand.
Context (P : Platform).
Import DockerSandboxAdapter.

Lemma configured_client (self : t) :
  is_configured self = true -> exists c, client self = Some c.
Proof. unfold is_configured. destruct (client self); eauto; discriminate. Qed.

(** C1. When the timer of [wait_for] fires before the offloaded [exec_run]
    completes, [execute_command] returns the timeout result: exit code -1,
    [success] false, [error] "Timeout".  The call has then waited for the
    timeout and not for the duration of the execution. *)
Theorem execute_command_timeout
    (self : t) (sandbox_id command : string) (working_dir : option string)
    (env : option (gmap string string)) (timeout : option Z)
    (s : St (World P)) (c : Container) (w1 w2 : World P) (fut : Future ExecResult) :
  is_configured self = true ->
  containers_get P sandbox_id (world s) = (Returned c, w1) ->
  container_exec_run P c (exec_config command working_dir env) w1 = (fut, w2) ->
  or_int timeout DEFAULT_TIMEOUT * 1000 < fut_duration fut ->
  exists r s',
    execute_command P self sandbox_id command working_dir env timeout s
      = (Returned r, s')
    /\ exit_code r = -1
    /\ success r = false
    /\ error r = Some "Timeout"
    /\ world s' = w2
    /\ clock s' = clock s + Z.max 0 (or_int timeout DEFAULT_TIMEOUT * 1000).
Proof.
  intros Hc Hget Hrun Hlate.
  destruct (configured_client self Hc) as [cl Hcl].
  unfold execute_command. rewrite Hcl.
  unfold try_except at 1. unfold bind at 1. unfold run_in_executor at 1.
  rewrite Hget. cbn [world logs clock].
  unfold try_except at 1. unfold bind at 1. unfold wait_for.
  cbn [world logs clock]. rewrite Hrun.
  destruct (Z.leb_spec (fut_duration fut) (or_int timeout DEFAULT_TIMEOUT * 1000)) as [Hle|Hgt];
    [lia|].
  cbn. eexists _, _. split; [reflexivity|].
  cbn. repeat split; reflexivity.
Qed.

End ExecuteCommand.

Section ExecuteCommandFailures.
Context (P : Platform).
Import DockerSandboxAdapter.

(** C9 (as amended). On an adapter whose client is initialised,
    [execute_command] always returns a result and never raises; and when a
    step fails other than by timeout (container lookup, the awaited
    execution, decoding of stdout or stderr), the result has exit code -1,
    [success] false, and both [stderr] and [error] set to the text of the
    exception. *)
Theorem execute_command_never_raises
    (self : t) (sandbox_id command : string) (working_dir : option string)
    (env : option (gmap string string)) (timeout : option Z) (s : St (World P)) :
  is_configured self = true ->
  (exists r s',
     execute_command P self sandbox_id command working_dir env timeout s
       = (Returned r, s'))
  /\ (forall e,
        internal_failure P sandbox_id command working_dir env
          (or_int timeout DEFAULT_TIMEOUT) (world s) e ->
        exists r s',
          execute_command P self sandbox_id command working_dir env timeout s
            = (Returned r, s')
          /\ exit_code r = -1
          /\ success r = false
          /\ stderr r = exc_str e
          /\ error r = Some (exc_str e)).
Proof.
  intros Hc. destruct (configured_client self Hc) as [cl Hcl].
  unfold execute_command. rewrite Hcl. split.
  - unfold try_except at 1. unfold bind at 1. unfold run_in_executor at 1.
    destruct (containers_get P sandbox_id (world s)) as [[c|e] w1];
      [|cbn; eauto].
    cbn [world logs clock]. unfold try_except at 1. unfold bind at 1.
    unfold wait_for. cbn [world logs clock].
    destruct (container_exec_run P c _ w1) as [fut w2].
    destruct (fut_duration fut <=? _).
    + destruct (fut_outcome fut) as [res|e].
      * destruct res as [code [o1 o2]]. cbn [er_exit_code er_output].
        unfold bind at 1, of_result at 1.
        destruct (decode_or_empty P o1) as [out|e].
        -- unfold bind at 1, of_result at 1.
           destruct (decode_or_empty P o2) as [err|e]; [cbn; eauto|].
           destruct (isinstance_TimeoutError e); cbn; eauto.
        -- destruct (isinstance_TimeoutError e); cbn; eauto.
      * destruct (isinstance_TimeoutError e); cbn; eauto.
    + cbn; eauto.
  - intros e Hfail.
    destruct Hfail as [e w' Hget
                      | c w1 fut w2 e Hget Hrun Hdur Hout Hnt
                      | c w1 fut w2 res e Hget Hrun Hdur Hout Hdec Hnt
                      | c w1 fut w2 res out e Hget Hrun Hdur Hout Hdec1 Hdec2 Hnt].
    + unfold try_except at 1, bind at 1, run_in_executor at 1.
      rewrite Hget. cbn. eauto 10.
    + unfold try_except at 1, bind at 1, run_in_executor at 1.
      rewrite Hget. cbn [world logs clock].
      unfold try_except at 1, bind at 1, wait_for. cbn [world logs clock].
      rewrite Hrun. apply Z.leb_le in Hdur. rewrite Hdur, Hout, Hnt.
      cbn. eauto 10.
    + unfold try_except at 1, bind at 1, run_in_executor at 1.
      rewrite Hget. cbn [world logs clock].
      unfold try_except at 1, bind at 1, wait_for. cbn [world logs clock].
      rewrite Hrun. apply Z.leb_le in Hdur. rewrite Hdur, Hout.
      destruct res as [code [o1 o2]]. cbn [er_exit_code er_output fst snd] in *.
      unfold bind at 1, of_result at 1. rewrite Hdec, Hnt.
      cbn. eauto 10.
    + unfold try_except at 1, bind at 1, run_in_executor at 1.
      rewrite Hget. cbn [world logs clock].
      unfold try_except at 1, bind at 1, wait_for. cbn [world logs clock].
      rewrite Hrun. apply Z.leb_le in Hdur. rewrite Hdur, Hout.
      destruct res as [code [o1 o2]]. cbn [er_exit_code er_output fst snd] in *.
      unfold bind at 1, of_result at 1. rewrite Hdec1.
      unfold bind at 1, of_result at 1. rewrite Hdec2, Hnt.
      cbn. eauto 10.
Qed.

End ExecuteCommandFailures.

Section ExecuteCommandExamples.
Import DockerSandboxAdapter.

(** A five-second command under a one-second timeout. *)
Lemma execute_command_timeout_witness :
  let w := Mem.holding (Mem.plain "running")
             (Mem.always 5000 (Returned (mkExecResult 0 (None, None)))) in
  or_int (Some 1) DEFAULT_TIMEOUT * 1000 < 5000
  /\ exists r s',
       execute_command Mem.platform Mem.adapter "sandbox-0" "sleep 5" None None
         (Some 1) (Mem.start_state w) = (Returned r, s')
       /\ exit_code r = -1
       /\ success r = false
       /\ error r = Some "Timeout"
       /\ world s' = w
       /\ clock s' = 0 + Z.max 0 (or_int (Some 1) DEFAULT_TIMEOUT * 1000).
Proof.
  intros w. split; [reflexivity|].
  apply (execute_command_timeout Mem.platform Mem.adapter "sandbox-0" "sleep 5"
           None None (Some 1) (Mem.start_state w)
           (Mem.snapshot "sandbox-0" (Mem.plain "running")) w w
           (mkFuture 5000 (Returned (mkExecResult 0 (None, None))))).
  - reflexivity.
  - vm_compute. reflexivity.
  - vm_compute. reflexivity.
  - reflexivity.
Defined.

(** An unknown container. *)
Lemma execute_command_never_raises_witness :
  is_configured Mem.adapter = true
  /\ internal_failure Mem.platform "nope" "ls" None None
       (or_int None DEFAULT_TIMEOUT) Mem.fresh (Mem.no_such_container "nope")
  /\ exists r s',
       execute_command Mem.platform Mem.adapter "nope" "ls" None None None
         (Mem.start_state Mem.fresh) = (Returned r, s')
       /\ exit_code r = -1
       /\ success r = false
       /\ stderr r = exc_str (Mem.no_such_container "nope")
       /\ error r = Some (exc_str (Mem.no_such_container "nope")).
Proof.
  assert (Hf : internal_failure Mem.platform "nope" "ls" None None
                 (or_int None DEFAULT_TIMEOUT) Mem.fresh (Mem.no_such_container "nope")).
  { eapply lookup_failed. vm_compute. reflexivity. }
  split; [reflexivity|]. split; [exact Hf|].
  exact (proj2 (execute_command_never_raises Mem.platform Mem.adapter "nope" "ls"
                  None None None (Mem.start_state Mem.fresh) eq_refl) _ Hf).
Defined.

(** C9 (as stated) fails: the error string is the exception's text, and
    that can be empty.  Here the engine answers the execution with an error
    that carries no text. *)
Lemma execute_command_error_may_be_empty :
  let w := Mem.holding (Mem.plain "running")
             (Mem.always 10 (Raised (mkExc APIError ""))) in
  internal_failure Mem.platform "sandbox-0" "ls" None None
    (or_int None DEFAULT_TIMEOUT) w (mkExc APIError "")
  /\ fst (execute_command Mem.platform Mem.adapter "sandbox-0" "ls" None None None
            (Mem.start_state w))
     = Returned (mkExecuteResult (-1) "" "" false (Some ""))
  /\ ~ (exists r msg,
          fst (execute_command Mem.platform Mem.adapter "sandbox-0" "ls" None None
                 None (Mem.start_state w)) = Returned r
          /\ error r = Some msg /\ msg <> "").
Proof.
  intros w.
  assert (He : fst (execute_command Mem.platform Mem.adapter "sandbox-0" "ls" None
                      None None (Mem.start_state w))
               = Returned (mkExecuteResult (-1) "" "" false (Some ""))).
  { vm_compute. reflexivity. }
  split; [|split; [exact He|]].
  - eapply exec_failed with (fut := mkFuture 10 (Raised (mkExc APIError ""))).
    + vm_compute. reflexivity.
    + vm_compute. reflexivity.
    + vm_compute. discriminate.
    + reflexivity.
    + reflexivity.
  - intros (r & msg & Hr & Herr & Hne). rewrite He in Hr.
    injection Hr as <-. cbn in Herr. congruence.
Qed.

End ExecuteCommandExamples.

(** ** State mapping *)

Section GetSandbox.
Context (P : Platform).
Import DockerSandboxAdapter.

(** What [get_sandbox] returns once the engine has answered the lookup. *)
Lemma get_sandbox_found (self : t) (sandbox_id : string) (s : St (World P))
    (c : Container) (w' : World P) :
  is_configured self = true ->
  containers_get P sandbox_id (world s) = (Returned c, w') ->
  get_sandbox P self sandbox_id s
  = (Returned (SandboxInfo_new (c_id c) (state_of_status (lower (c_status c)))
                 (VStr <$> extract_metadata
                             (match c_labels c with Some l => l | None => ∅ end))),
     mkSt w' (logs s) (clock s)).
Proof.
  intros Hc Hget. destruct (configured_client self Hc) as [cl Hcl].
  unfold get_sandbox. rewrite Hcl.
  unfold try_except, bind, run_in_executor. rewrite Hget. reflexivity.
Qed.

Lemma state_of_status_cases (status : string) :
  (status = "running" -> state_of_status status = STARTED)
  /\ (status = "created" \/ status = "restarting" -> state_of_status status = CREATING)
  /\ (status = "paused" \/ status = "exited" -> state_of_status status = STOPPED)
  /\ (status ∉ ["running"; "created"; "restarting"; "paused"; "exited"] ->
      state_of_status status = ERROR).
Proof.
  unfold state_of_status. repeat split.
  - intros ->. reflexivity.
  - intros [-> | ->]; reflexivity.
  - intros [-> | ->]; reflexivity.
  - intros Hnot.
    repeat match goal with
           | |- context [String.eqb status ?k] =>
               destruct (String.eqb_spec status k) as [->|_];
               [exfalso; apply Hnot; set_solver|]
           end.
    reflexivity.
Qed.

(** C5 (as amended). [get_sandbox] maps the lower-cased engine status:
    "running" to STARTED; "created" or "restarting" to CREATING; "paused"
    or "exited" to STOPPED; a status whose lower-cased form is none of
    these to ERROR. *)
Theorem get_sandbox_state_mapping (self : t) (sandbox_id : string)
    (s : St (World P)) (c : Container) (w' : World P) :
  is_configured self = true ->
  containers_get P sandbox_id (world s) = (Returned c, w') ->
  exists info s',
    get_sandbox P self sandbox_id s = (Returned info, s')
    /\ (lower (c_status c) = "running" -> state info = STARTED)
    /\ (lower (c_status c) = "created" \/ lower (c_status c) = "restarting" ->
        state info = CREATING)
    /\ (lower (c_status c) = "paused" \/ lower (c_status c) = "exited" ->
        state info = STOPPED)
    /\ (lower (c_status c) ∉ ["running"; "created"; "restarting"; "paused"; "exited"] ->
        state info = ERROR).
Proof.
  intros Hc Hget. eexists _, _. split.
  - apply get_sandbox_found; eassumption.
  - cbn [state SandboxInfo_new]. apply state_of_status_cases.
Qed.

End GetSandbox.

Section GetSandboxExamples.
Import DockerSandboxAdapter.

(** A stopped container. *)
Lemma get_sandbox_state_mapping_witness :
  let w := Mem.holding (Mem.plain "exited") Mem.idle in
  lower "exited" = "exited"
  /\ exists info s',
       get_sandbox Mem.platform Mem.adapter "sandbox-0" (Mem.start_state w)
         = (Returned info, s')
       /\ state info = STOPPED.
Proof.
  intros w. split; [reflexivity|].
  destruct (get_sandbox_state_mapping Mem.platform Mem.adapter "sandbox-0"
              (Mem.start_state w) (Mem.snapshot "sandbox-0" (Mem.plain "exited")) w
              eq_refl eq_refl)
    as (info & s' & Hrun & _ & _ & Hstopped & _).
  exists info, s'. split; [exact Hrun|]. apply Hstopped. right. reflexivity.
Defined.

(** C5 (as stated) fails: the status is lower-cased before it is compared,
    so a status that is none of the five names can still map to a state
    other than ERROR. *)
Lemma get_sandbox_status_case_insensitive :
  let w := Mem.holding (Mem.plain "Running") Mem.idle in
  ("Running" ∉ ["running"; "created"; "restarting"; "paused"; "exited"])
  /\ exists info s',
       get_sandbox Mem.platform Mem.adapter "sandbox-0" (Mem.start_state w)
         = (Returned info, s')
       /\ state info = STARTED
       /\ state info <> ERROR.
Proof.
  intros w. split.
  - intros Hin. repeat (apply elem_of_cons in Hin as [Hin|Hin]; [discriminate|]).
    by apply elem_of_nil in Hin.
  - eexists _, _. split.
    + apply (get_sandbox_found Mem.platform Mem.adapter "sandbox-0"
               (Mem.start_state w) (Mem.snapshot "sandbox-0" (Mem.plain "Running")) w);
        reflexivity.
    + split; [reflexivity|discriminate].
Qed.

End GetSandboxExamples.

(** ** Deletion *)

Section DeleteSandbox.
Import DockerSandboxAdapter.

(** The engine reports the container as not found: a warning, no error. *)
Lemma delete_sandbox_not_found (P : Platform) (self : t) (sandbox_id : string)
    (s : St (World P)) (e : Exception) (w' : World P) :
  is_configured self = true ->
  containers_get P sandbox_id (world s) = (Raised e, w') ->
  isinstance_NotFound e = true ->
  delete_sandbox P self sandbox_id s
  = (Returned tt, mkSt w' (logs s ++ [already_deleted sandbox_id]) (clock s)).
Proof.
  intros Hc Hget Hnf. destruct (configured_client self Hc) as [cl Hcl].
  unfold delete_sandbox. rewrite Hcl.
  unfold try_except, bind, run_in_executor. rewrite Hget.
  cbn [world logs clock]. rewrite Hnf. reflexivity.
Qed.

(** On the in-memory engine a delete that returns leaves no container
    under that id, and the engine still answers. *)
Lemma mem_delete_sandbox_gone (self : t) (sandbox_id : string)
    (s s1 : St Mem.MWorld) :
  delete_sandbox Mem.platform self sandbox_id s = (Returned tt, s1) ->
  Mem.reachable (world s1) = true /\ Mem.containers (world s1) !! sandbox_id = None.
Proof.
  unfold delete_sandbox. destruct (client self); [|discriminate].
  unfold try_except, bind, run_in_executor, logger, raise, ret.
  cbn [World containers_get container_stop container_remove Mem.platform world logs clock].
  unfold Mem.m_get, Mem.m_stop, Mem.m_remove, Mem.with_container.
  destruct (Mem.reachable (world s)) eqn:Hr; [|cbn; discriminate].
  destruct (Mem.containers (world s) !! sandbox_id) as [mc|] eqn:Hc.
  2:{ cbn. intros [= <-]. cbn. auto. }
  cbn [world logs clock Mem.snapshot c_status c_id].
  destruct (String.eqb (Mem.mc_status mc) "running") eqn:Hrun.
  - cbn [world logs clock]. rewrite Hr, Hc.
    cbn [world logs clock Mem.set_containers Mem.reachable Mem.containers].
    rewrite Hr, lookup_insert_eq. cbn [Mem.set_status Mem.mc_status].
    cbn. intros [= <-]. cbn. split; [done|]. by rewrite lookup_delete_eq.
  - cbn [world logs clock ret]. rewrite Hr, Hc, Hrun. cbn.
    intros [= <-]. cbn. split; [done|]. by rewrite lookup_delete_eq.
Qed.

Lemma mem_get_absent (sandbox_id : string) (w : Mem.MWorld) :
  Mem.reachable w = true ->
  Mem.containers w !! sandbox_id = None ->
  containers_get Mem.platform sandbox_id w
  = (Raised (Mem.no_such_container sandbox_id), w).
Proof.
  intros Hr Hc. cbn. unfold Mem.m_get, Mem.with_container. by rewrite Hr, Hc.
Qed.

(** C4. [delete_sandbox] is idempotent.  Whenever the engine reports the
    container as not found, the call logs a warning and returns; and on
    the in-memory engine a second [delete_sandbox] on the same id, after
    one that returned, returns as well, with that warning. *)
Theorem delete_sandbox_idempotent :
  (forall (P : Platform) (self : t) (sandbox_id : string) (s : St (World P))
          (e : Exception) (w' : World P),
      is_configured self = true ->
      containers_get P sandbox_id (world s) = (Raised e, w') ->
      isinstance_NotFound e = true ->
      delete_sandbox P self sandbox_id s
      = (Returned tt, mkSt w' (logs s ++ [already_deleted sandbox_id]) (clock s)))
  /\ (forall (self : t) (sandbox_id : string) (s s1 : St Mem.MWorld),
        is_configured self = true ->
        delete_sandbox Mem.platform self sandbox_id s = (Returned tt, s1) ->
        delete_sandbox Mem.platform self sandbox_id s1
        = (Returned tt,
           mkSt (world s1) (logs s1 ++ [already_deleted sandbox_id]) (clock s1))).
Proof.
  split.
  - apply delete_sandbox_not_found.
  - intros self sandbox_id s s1 Hc Hfirst.
    apply mem_delete_sandbox_gone in Hfirst as [Hr Hgone].
    apply (delete_sandbox_not_found Mem.platform self sandbox_id s1
             (Mem.no_such_container sandbox_id) (world s1) Hc);
      [by apply mem_get_absent | reflexivity].
Qed.

(** A running container, deleted twice. *)
Lemma delete_sandbox_idempotent_witness :
  exists s1 s2,
    delete_sandbox Mem.platform Mem.adapter "sandbox-0"
      (Mem.start_state (Mem.holding (Mem.plain "running") Mem.idle))
    = (Returned tt, s1)
    /\ delete_sandbox Mem.platform Mem.adapter "sandbox-0" s1 = (Returned tt, s2)
    /\ logs s2 = [(LOG_INFO, "Deleted Docker sandbox: sandbox-0");
                  (LOG_WARNING, "Docker container already deleted: sandbox-0")].
Proof.
  destruct (delete_sandbox Mem.platform Mem.adapter "sandbox-0"
              (Mem.start_state (Mem.holding (Mem.plain "running") Mem.idle)))
    as [r s1] eqn:Hfirst.
  assert (Hr : r = Returned tt /\ logs s1 = [(LOG_INFO, "Deleted Docker sandbox: sandbox-0")]).
  { vm_compute in Hfirst. injection Hfirst as <- <-. split; reflexivity. }
  destruct Hr as [-> Hlogs].
  eexists s1, _. split; [reflexivity|]. split.
  - exact (proj2 delete_sandbox_idempotent Mem.adapter "sandbox-0" _ s1 eq_refl Hfirst).
  - transitivity (logs s1 ++ [already_deleted "sandbox-0"])%list; [reflexivity|].
    rewrite Hlogs. reflexivity.
Defined.

End DeleteSandbox.

(** ** The shim's cached state *)

Section GetState.
Context {W : Type}.

(** Once [_state] is set, [get_state] returns it and touches nothing. *)
Lemma get_state_hit (s : St (W * CompatSandbox.t W)) (v : SandboxState) :
  CompatSandbox._state (snd (world s)) = Some v ->
  CompatSandbox.get_state s = (Returned (Some v), s).
Proof.
  intros Hv. unfold CompatSandbox.get_state, bind, get_self, ret.
  rewrite Hv. cbn. by rewrite Hv.
Qed.

(** A [get_state] that returns has set [_state] to what it returns. *)
Lemma get_state_sets (s s1 : St (W * CompatSandbox.t W)) (r : option SandboxState) :
  CompatSandbox.get_state s = (Returned r, s1) ->
  exists v, r = Some v /\ CompatSandbox._state (snd (world s1)) = Some v.
Proof.
  unfold CompatSandbox.get_state, bind at 1, get_self at 1.
  destruct (CompatSandbox._state (snd (world s))) as [v|] eqn:Hv.
  - unfold bind, ret, get_self. cbn. rewrite Hv. intros [= <- <-]. eauto.
  - unfold bind at 1. unfold bind at 1. unfold in_world.
    cbn [world logs clock].
    destruct (sa_get_sandbox _ _ _) as [[info|e] s']; [|discriminate].
    unfold set_self, bind, get_self, ret. cbn. intros [= <- <-]. cbn. eauto.
Qed.

Lemma get_state_through_hit (changes : list (W -> W))
    (s : St (W * CompatSandbox.t W)) (v : SandboxState) :
  CompatSandbox._state (snd (world s)) = Some v ->
  get_state_through changes s
  = (Returned (map (fun _ => Some v) changes),
     mkSt (fold_left (fun w f => f w) changes (fst (world s)), snd (world s))
          (logs s) (clock s)).
Proof.
  revert s. induction changes as [|f fs IH]; intros s Hv.
  - cbn. unfold ret. destruct s as [[w h] l c]. reflexivity.
  - cbn [get_state_through]. unfold bind at 1. cbn [world logs clock fst snd].
    unfold bind at 1. rewrite (get_state_hit _ v) by exact Hv.
    unfold bind at 1. rewrite IH by exact Hv. reflexivity.
Qed.

(** C10. Once [get_state] has returned a state for a handle, the handle
    holds that state: the [state] property reads it, and every later
    [get_state] returns it and leaves the handle, the world around it, the
    log and the clock untouched, whatever has happened to the world in
    between.  Before any fetch the property reads [None]. *)
Theorem get_state_cached (s s1 : St (W * CompatSandbox.t W))
    (r : option SandboxState) :
  CompatSandbox.get_state s = (Returned r, s1) ->
  exists v,
    r = Some v
    /\ CompatSandbox.state (snd (world s1)) = Some v
    /\ (forall w' l c,
          CompatSandbox.get_state (mkSt (w', snd (world s1)) l c)
          = (Returned (Some v), mkSt (w', snd (world s1)) l c))
    /\ (forall changes,
          get_state_through changes s1
          = (Returned (map (fun _ => Some v) changes),
             mkSt (fold_left (fun w f => f w) changes (fst (world s1)),
                   snd (world s1))
                  (logs s1) (clock s1)))
    /\ (forall a id md, CompatSandbox.state (CompatSandbox.__init__ (W:=W) a id md) = None).
Proof.
  intros Hrun. destruct (get_state_sets s s1 r Hrun) as (v & -> & Hv).
  exists v. split; [reflexivity|]. split; [exact Hv|]. split; [|split].
  - intros w' l c. apply get_state_hit. exact Hv.
  - intros changes. apply get_state_through_hit. exact Hv.
  - reflexivity.
Qed.

End GetState.

(** A handle on the scripted adapter, fetched once while the sandbox is
    stopped. *)
Lemma get_state_cached_witness :
  let h := CompatSandbox.__init__ Scripted.adapter "sb" None in
  let s := mkSt (Scripted.mkSWorld (fun _ => STOPPED) 0 [], h) [] 0 in
  exists s1,
    CompatSandbox.get_state s = (Returned (Some STOPPED), s1)
    /\ CompatSandbox.state (snd (world s1)) = Some STOPPED
    /\ CompatSandbox.get_state
         (mkSt (Scripted.mkSWorld (fun _ => STARTED) 7 [], snd (world s1)) [] 0)
       = (Returned (Some STOPPED),
          mkSt (Scripted.mkSWorld (fun _ => STARTED) 7 [], snd (world s1)) [] 0).
Proof.
  intros h s.
  destruct (CompatSandbox.get_state s) as [r s1] eqn:Hrun.
  assert (Hr : r = Returned (Some STOPPED)).
  { pose proof Hrun as H. vm_compute in H. by injection H as <- _. }
  subst r. exists s1. split; [reflexivity|].
  destruct (get_state_cached s s1 (Some STOPPED) Hrun) as (v & Hv & Hstate & Hagain & _).
  injection Hv as <-. split; [exact Hstate|]. apply Hagain.
Defined.

(** ** Start on demand *)

Section GetOrStart.
Import Scripted.

(** [polls_needed] counts up to the first STARTED report. *)
Lemma polls_needed_spec (script : nat -> SandboxState) (from budget : nat) :
  let k := polls_needed script from budget in
  (k <= budget)%nat
  /\ (0 < budget -> 1 <= k)%nat
  /\ (forall j, (1 <= j < k)%nat -> script (from + j - 1)%nat <> STARTED)
  /\ ((k < budget)%nat -> script (from + k - 1)%nat = STARTED).
Proof.
  revert from. induction budget as [|b IH]; intros from; cbn.
  - repeat split; lia.
  - destruct (SandboxState_eqb (script from) STARTED) eqn:Hs.
    + repeat split; try lia.
      intros _. replace (from + 1 - 1)%nat with from by lia.
      destruct (script from); try discriminate; reflexivity.
    + destruct (IH (S from)) as (Hle & Hpos & Hbefore & Hat).
      repeat split; try lia.
      * intros j Hj. destruct (decide (j = 1%nat)) as [->|Hne].
        -- replace (from + 1 - 1)%nat with from by lia.
           intros Heq. rewrite Heq in Hs. discriminate.
        -- replace (from + j - 1)%nat with (S from + (j - 1) - 1)%nat by lia.
           apply Hbefore. lia.
      * intros Hlt.
        replace (from + S (polls_needed script (S from) b) - 1)%nat
          with (S from + polls_needed script (S from) b - 1)%nat by lia.
        apply Hat. lia.
Qed.

Lemma wait_until_started_scripted (id : string) (n : nat) :
  forall (info : SandboxInfo) (s : St SWorld),
    let k := polls_needed (script (world s)) (polled (world s)) n in
    exists info',
      CompatSandbox.wait_until_started adapter id n info s
      = (Returned info',
         mkSt (mkSWorld (script (world s)) (polled (world s) + k)
                 (calls (world s) ++ poll_calls (clock s) k))
              (logs s) (clock s + 1000 * Z.of_nat k))
      /\ (Contract.metadata info = ∅ -> Contract.metadata info' = ∅).
Proof.
  induction n as [|n IH]; intros info s.
  - cbn. exists info. split; [|done]. unfold ret.
    destruct s as [[sc p cs] l c]. cbn. f_equal. f_equal; [f_equal|]; try lia.
    by rewrite app_nil_r.
  - cbn [CompatSandbox.wait_until_started polls_needed].
    unfold bind at 1, asyncio_sleep at 1. cbn [world logs clock].
    unfold bind at 1. cbn [sa_get_sandbox adapter].
    unfold get_sandbox, bind at 1, record_call. cbn [world logs clock script polled calls].
    unfold ret at 1. cbn [Contract.state SandboxInfo_new].
    destruct (SandboxState_eqb (script (world s) (polled (world s))) STARTED) eqn:Hs.
    + exists (SandboxInfo_new id (script (world s) (polled (world s))) ∅).
      split; [|done]. unfold ret, poll_calls. cbn [seq map Z.of_nat].
      repeat f_equal; lia.
    + edestruct (IH (SandboxInfo_new id (script (world s) (polled (world s))) ∅))
        as (info' & Hrun & Hmd).
      rewrite Hrun. cbn [world logs clock script polled calls].
      exists info'. split; [|intros _; by apply Hmd].
      set (k := polls_needed (script (world s)) (S (polled (world s))) n).
      assert (Hcalls : ((calls (world s) ++ [(GetSandbox, clock s + 1000)])
                        ++ poll_calls (clock s + 1000) k
                        = calls (world s) ++ poll_calls (clock s) (S k))%list).
      { unfold poll_calls. rewrite <- app_assoc. f_equal.
        cbn [seq map app].
        replace (clock s + 1000 * Z.of_nat 1) with (clock s + 1000) by lia.
        apply (f_equal (cons _)).
        rewrite <- (seq_shift k 1), map_map. apply map_ext. intros i.
        apply (f_equal (pair _)). lia. }
      rewrite Hcalls.
      replace (S (polled (world s)) + k)%nat with (polled (world s) + S k)%nat by lia.
      replace (clock s + 1000 + 1000 * Z.of_nat k) with (clock s + 1000 * Z.of_nat (S k)) by lia.
      reflexivity.
Qed.

(** C8. Whatever sequence of states is reported, [get_or_start_sandbox]
    returns a handle and does not raise.  It fetches the state once; only
    if that is STOPPED or ARCHIVED does it issue a start and then poll
    [get_sandbox] [n] times, one second apart, with [1 <= n <= 30]; no
    poll before the last reported STARTED, and when fewer than 30 polls
    were made the last one did. *)
Theorem get_or_start_sandbox_bounded (reports : nat -> SandboxState) (id : string) :
  exists (n : nat) s',
    CompatSandbox.get_or_start_sandbox (ret adapter) id (init reports)
    = (Returned (CompatSandbox.__init__ adapter id (Some ∅)), s')
    /\ (n <= 30)%nat
    /\ clock s' = 1000 * Z.of_nat n
    /\ (forall i, (1 <= i < n)%nat -> reports i <> STARTED)
    /\ (reports 0%nat = STOPPED \/ reports 0%nat = ARCHIVED ->
        (1 <= n)%nat
        /\ ((n < 30)%nat -> reports n = STARTED)
        /\ calls (world s')
           = (GetSandbox, 0) :: (StartSandbox, 0) :: poll_calls 0 n)
    /\ (~ (reports 0%nat = STOPPED \/ reports 0%nat = ARCHIVED) ->
        n = 0%nat /\ calls (world s') = [(GetSandbox, 0)]).
Proof.
  unfold CompatSandbox.get_or_start_sandbox, init.
  unfold bind at 1, logger at 1. cbn [world logs clock].
  unfold try_except, bind at 1, ret at 1. unfold bind at 1.
  cbn [sa_get_sandbox adapter]. unfold get_sandbox at 1, bind at 1, record_call at 1.
  cbn [world logs clock script polled calls]. unfold ret at 1.
  cbn [Contract.state SandboxInfo_new app].
  destruct (SandboxState_eqb (reports 0%nat) STOPPED || SandboxState_eqb (reports 0%nat) ARCHIVED)
    eqn:Hneeds.
  - unfold bind at 1. unfold bind at 1, logger at 1. cbn [world logs clock].
    unfold bind at 1. cbn [sa_start_sandbox adapter].
    unfold start_sandbox at 1, bind at 1, record_call at 1.
    cbn [world logs clock script polled calls]. unfold ret at 1.
    edestruct (wait_until_started_scripted id 30 (SandboxInfo_new id (reports 0%nat) ∅))
      as (info' & Hrun & Hmd).
    rewrite Hrun. cbn [world logs clock script polled calls].
    destruct (polls_needed_spec reports 1 30) as (Hle & Hpos & Hbefore & Hat).
    exists (polls_needed reports 1 30). eexists. split.
    + unfold bind, logger, ret. cbn [world logs clock Contract.metadata].
      rewrite (Hmd eq_refl). reflexivity.
    + cbn [clock world calls]. split; [exact Hle|]. split; [lia|]. split.
      * intros i Hi. specialize (Hbefore i Hi).
        by replace (1 + i - 1)%nat with i in Hbefore by lia.
      * split.
        -- intros _. split; [lia|]. split; [|reflexivity].
           intros Hlt. specialize (Hat Hlt).
           by replace (1 + polls_needed reports 1 30 - 1)%nat
             with (polls_needed reports 1 30) in Hat by lia.
        -- intros Hnot. exfalso. apply Hnot.
           destruct (reports 0%nat); cbn in Hneeds; try discriminate; auto.
  - exists 0%nat. eexists. split.
    + unfold bind, logger, ret. cbn [world logs clock Contract.metadata SandboxInfo_new].
      reflexivity.
    + cbn [clock world calls]. split; [lia|]. split; [reflexivity|]. split; [lia|].
      split.
      * intros [H|H]; rewrite H in Hneeds; discriminate.
      * intros _. split; reflexivity.
Qed.

End GetOrStart.

(** ** Factory resolution *)

Section Factory.
Import SandboxFactory.

(** [get_adapter] hands out whatever [_adapter] holds, without looking at
    [is_configured]. *)
Lemma get_adapter_cached (P : Platform) (s : St (World P * t))
    (a : DockerSandboxAdapter.t) :
  _adapter (snd (world s)) = Some a ->
  get_adapter P s = (Returned a, s).
Proof.
  intros Ha. unfold get_adapter, bind, get_self. rewrite Ha. reflexivity.
Qed.

(** C3 fails on the code: with the engine unreachable, the first
    [get_sandbox_adapter] raises [RuntimeError], but the adapter it built
    stays in [_adapter], and the second call returns that adapter, whose
    [is_configured] is false. *)
Theorem get_adapter_second_call_unconfigured :
  let first := get_sandbox_adapter Mem.platform (mkSt (Mem.down, None) [] 0) in
  let second := get_sandbox_adapter Mem.platform (snd first) in
  (exists e, fst first = Raised e /\ exc_class e = RuntimeError)
  /\ (exists f a,
        snd (world (snd first)) = Some f
        /\ _adapter f = Some a
        /\ fst second = Returned a
        /\ DockerSandboxAdapter.is_configured a = false).
Proof.
  intros first second.
  pose (a := DockerSandboxAdapter.mk "unix:///var/run/docker.sock"
               "kortix-sandbox:latest" "bridge" "512m" (Qmake 10 10) false None).
  assert (Hfirst : fst first
                   = Raised (mkExc RuntimeError
                       ("Sandbox provider 'docker' is not properly configured. "
                        +:+ "Please check your environment variables and service availability."))).
  { vm_compute. reflexivity. }
  assert (Hobj : snd (world (snd first)) = Some (mk DOCKER (Some a))).
  { vm_compute. reflexivity. }
  assert (Hsecond : fst second = Returned a).
  { vm_compute. reflexivity. }
  split.
  - eexists. split; [exact Hfirst|reflexivity].
  - exists (mk DOCKER (Some a)), a.
    split; [exact Hobj|]. split; [reflexivity|]. split; [exact Hsecond|reflexivity].
Qed.

End Factory.

(** ** Metadata labels *)

Section Metadata.
Import DockerSandboxAdapter.

Lemma startswith_app (p s : string) : startswith p (p +:+ s) = true.
Proof.
  induction p as [|a p IH]; [done|].
  change (String a p +:+ s) with (String a (p +:+ s)). cbn.
  by rewrite Ascii.eqb_refl, IH.
Qed.

Lemma startswith_split (p s : string) :
  startswith p s = true -> exists k, s = p +:+ k.
Proof.
  revert s. induction p as [|a p IH]; intros s; cbn.
  - intros _. by exists s.
  - destruct s as [|b s]; [done|].
    intros [Hab Hp]%andb_prop. apply Ascii.eqb_eq in Hab as ->.
    destruct (IH s Hp) as [k ->]. by exists k.
Qed.




Lemma append_inj (p a b : string) : p +:+ a = p +:+ b -> a = b.
Proof.
  induction p as [|c p IH]; [done|].
  change (String c p +:+ a) with (String c (p +:+ a)).
  change (String c p +:+ b) with (String c (p +:+ b)).
  intros [= H]. by apply IH.
Qed.

Lemma add_metadata_labels_meta (fstr : Q -> string) (md : gmap string PyVal)
    (base : gmap string string) (k : string) :
  add_metadata_labels fstr md base !! (META_PREFIX +:+ k)
  = match md !! k with
    | Some v => Some (py_str fstr v)
    | None => base !! (META_PREFIX +:+ k)
    end.
Proof.
  unfold add_metadata_labels.
  apply (map_fold_weak_ind
           (fun acc (m : gmap string PyVal) =>
              acc !! (META_PREFIX +:+ k)
              = match m !! k with
                | Some v => Some (py_str fstr v)
                | None => base !! (META_PREFIX +:+ k)
                end)).
  - by rewrite lookup_empty.
  - intros i x m r Hi IH. destruct (decide (i = k)) as [->|Hne].
    + by rewrite !lookup_insert_eq.
    + rewrite !lookup_insert_ne; [exact IH|done|].
      intros Heq. apply Hne. by apply append_inj in Heq.
Qed.

Lemma add_metadata_labels_other (fstr : Q -> string) (md : gmap string PyVal)
    (base : gmap string string) (l : string) :
  startswith META_PREFIX l = false ->
  add_metadata_labels fstr md base !! l = base !! l.
Proof.
  intros Hl. unfold add_metadata_labels.
  apply (map_fold_weak_ind
           (fun acc (m : gmap string PyVal) => acc !! l = base !! l)).
  - done.
  - intros i x m r Hi IH. rewrite lookup_insert_ne; [exact IH|].
    intros <-. by rewrite startswith_app in Hl.
Qed.




Lemma base_labels_not_meta (created_at : string) (l : string) :
  is_Some ((<["kortix.created_at" := created_at]>
              ({["kortix.sandbox" := "true"]} : gmap string string)) !! l) ->
  startswith META_PREFIX l = false.
Proof.
  intros [v Hl].
  destruct (decide (l = "kortix.created_at")) as [->|H1]; [reflexivity|].
  rewrite lookup_insert_ne in Hl by done.
  destruct (decide (l = "kortix.sandbox")) as [->|H2]; [reflexivity|].
  by rewrite lookup_singleton_ne in Hl.
Qed.

Lemma mem_get_present (sandbox_id : string) (w : Mem.MWorld) (mc : Mem.MContainer) :
  Mem.reachable w = true ->
  Mem.containers w !! sandbox_id = Some mc ->
  containers_get Mem.platform sandbox_id w
  = (Returned (Mem.snapshot sandbox_id mc), w).
Proof.
  intros Hr Hc. cbn. unfold Mem.m_get, Mem.with_container. by rewrite Hr, Hc.
Qed.







End Metadata.

(** ** Resource usage *)

Section ResourceUsage.
Import DockerSandboxAdapter.
Local Open Scope Q_scope.












Local Close Scope Q_scope.





End ResourceUsage.

(** ** File transfer *)

Section Files.
Import DockerSandboxAdapter.
Local Open Scope list_scope.

Lemma pieces_cons (c : ascii) (s : string) :
  Mem.pieces (String c s)
  = if Ascii.eqb c sep then "" :: Mem.pieces s
    else match Mem.pieces s with
         | x :: xs => String c x :: xs
         | [] => []
         end.
Proof.
  unfold Mem.pieces. cbn [Mem.split_sep].
  destruct (Mem.split_sep s) as [x xs]. by destruct (Ascii.eqb c sep).
Qed.

Lemma pieces_inv (s : string) : exists x xs, Mem.pieces s = x :: xs.
Proof. unfold Mem.pieces. destruct (Mem.split_sep s); eauto. Qed.

Lemma pieces_single_empty (s : string) : Mem.pieces s = [""] -> s = "".
Proof.
  destruct s as [|c s]; [done|]. rewrite pieces_cons.
  destruct (pieces_inv s) as (x & xs & ->).
  destruct (Ascii.eqb c sep); discriminate.
Qed.

Lemma resolve_app (acc l1 l2 : list string) :
  Mem.resolve acc (l1 ++ l2) = Mem.resolve (Mem.resolve acc l1) l2.
Proof.
  revert acc. induction l1 as [|p l1 IH]; intros acc; [done|].
  cbn [app Mem.resolve].
  destruct (_ || _); [apply IH|]. destruct (String.eqb p ".."); apply IH.
Qed.

Lemma resolve_blanks (acc : list string) (k : nat) :
  Mem.resolve acc (replicate k "") = acc.
Proof. induction k as [|k IH]; [done|]. exact IH. Qed.

Lemma resolve_name (acc : list string) (t : string) :
  t ∉ [""; "."; ".."] -> Mem.resolve acc [t] = acc ++ [t].
Proof.
  intros Ht. cbn [Mem.resolve].
  destruct (String.eqb_spec t "") as [->|_]; [exfalso; apply Ht; set_solver|].
  destruct (String.eqb_spec t ".") as [->|_]; [exfalso; apply Ht; set_solver|].
  destruct (String.eqb_spec t "..") as [->|_]; [exfalso; apply Ht; set_solver|].
  reflexivity.
Qed.

(** [split_at_last_sep] against [split('/')]: the tail is the last piece,
    the head holds the pieces before it. *)
Lemma split_at_last_sep_pieces (p : string) :
  let '(h, t) := split_at_last_sep p in
  Mem.pieces t = [t]
  /\ ((h = "" /\ Mem.pieces p = [t])
      \/ (h <> "" /\ exists X, Mem.pieces h = X ++ [""] /\ Mem.pieces p = X ++ [t])).
Proof.
  induction p as [|c p IH]; [cbn; auto|].
  cbn [split_at_last_sep]. destruct (split_at_last_sep p) as [h t].
  destruct IH as [Ht [[-> Hp]|[Hne (X & Hh & Hp)]]].
  - destruct (Ascii.eqb c sep) eqn:Hc.
    + split; [exact Ht|]. right. split; [done|]. exists [""].
      rewrite (pieces_cons c ""), (pieces_cons c p), Hc, Hp. done.
    + split.
      * rewrite pieces_cons, Hc, Ht. done.
      * left. split; [done|]. rewrite pieces_cons, Hc, Hp. done.
  - destruct h as [|a h]; [done|]. split; [exact Ht|]. right. split; [done|].
    destruct (Ascii.eqb c sep) eqn:Hc.
    + exists ("" :: X).
      rewrite (pieces_cons c (String a h)), (pieces_cons c p), Hc, Hh, Hp. done.
    + destruct X as [|x X].
      * apply pieces_single_empty in Hh. discriminate.
      * exists (String c x :: X).
        rewrite (pieces_cons c (String a h)), (pieces_cons c p), Hc, Hh, Hp. done.
Qed.

Lemma rstrip_sep_pieces (s : string) :
  exists k, Mem.pieces s = Mem.pieces (rstrip_sep s) ++ replicate k "".
Proof.
  induction s as [|c s [k IH]]; [by exists 0%nat|].
  cbn [rstrip_sep]. destruct (rstrip_sep s) as [|a r] eqn:Hr.
  - change (Mem.pieces "") with [""] in IH. cbn [app] in IH.
    destruct (Ascii.eqb c sep) eqn:Hc.
    + exists (S k). rewrite pieces_cons, Hc, IH. done.
    + exists k. rewrite !pieces_cons, Hc, IH. done.
  - rewrite (pieces_cons c s), (pieces_cons c (String a r)), IH.
    destruct (Ascii.eqb c sep); [by exists k|].
    destruct (pieces_inv (String a r)) as (y & ys & ->). by exists k.
Qed.

Lemma abspath_rstrip_sep (s : string) : Mem.abspath (rstrip_sep s) = Mem.abspath s.
Proof.
  unfold Mem.abspath. destruct (rstrip_sep_pieces s) as [k ->].
  by rewrite resolve_app, resolve_blanks.
Qed.

(** The engine resolves the path to where the archive entry is unpacked. *)
Lemma abspath_dirname_basename (p : string) :
  basename p ∉ [""; "."; ".."] ->
  Mem.abspath p = Mem.abspath (or_str (Some (dirname p)) "/") ++ [basename p]
  /\ Mem.pieces (basename p) = [basename p]
  /\ Mem.abspath (or_str (Some (dirname p)) "/") = Mem.abspath (dirname p).
Proof.
  intros Hb. unfold basename, dirname in *.
  pose proof (split_at_last_sep_pieces p) as H.
  destruct (split_at_last_sep p) as [h t]. cbn [fst snd] in *.
  destruct H as [Ht H].
  assert (Hdir : Mem.abspath
                   (if negb (String.eqb h "") && negb (all_sep h) then rstrip_sep h else h)
                 = Mem.abspath h).
  { destruct (_ && _); [apply abspath_rstrip_sep|done]. }
  assert (Hor : forall d, Mem.abspath (or_str (Some d) "/") = Mem.abspath d).
  { intros d. unfold or_str. destruct (decide (d = "")) as [->|]; done. }
  split; [|split; [exact Ht|apply Hor]].
  rewrite Hor, Hdir. unfold Mem.abspath.
  destruct H as [[-> Hp]|[Hne (X & Hh & Hp)]].
  - rewrite Hp. by rewrite resolve_name.
  - rewrite Hp, Hh, !resolve_app, resolve_name by done. done.
Qed.

(** [write_file] on the in-memory engine, into an existing directory. *)
Lemma mem_write_file (self : t) (sandbox_id path : string) (content : list byte)
    (mode : Z) (s : St Mem.MWorld) (mc : Mem.MContainer) :
  is_configured self = true ->
  Mem.reachable (world s) = true ->
  Mem.containers (world s) !! sandbox_id = Some mc ->
  Mem.mc_fs mc !! Mem.abspath (dirname path) = Some Mem.Dir ->
  basename path ∉ [""; "."; ".."] ->
  write_file Mem.platform self sandbox_id path content mode s
  = (Returned tt,
     mkSt (Mem.set_containers (world s)
             (<[sandbox_id :=
                  Mem.set_fs (<[Mem.abspath path := Mem.File content]> (Mem.mc_fs mc)) mc]>
                (Mem.containers (world s))))
          (logs s ++ [(LOG_DEBUG, "Wrote file to Docker sandbox: " +:+ path)])
          (clock s)).
Proof.
  intros Hc Hr Hmc Hdir Hbase. destruct (configured_client self Hc) as [cl Hcl].
  destruct (abspath_dirname_basename path Hbase) as (Hpath & Hpieces & Hdest).
  unfold write_file. rewrite Hcl.
  unfold try_except, bind, run_in_executor, logger.
  cbn [World containers_get container_put_archive time_time Mem.platform
       world logs clock].
  unfold Mem.m_get, Mem.m_put_archive, Mem.with_container.
  rewrite Hr, Hmc. cbn [world logs clock Mem.snapshot c_id].
  rewrite Hr, Hmc, Hdest, Hdir.
  unfold addfile. cbn [ti_size app fold_left].
  rewrite Nat2Z.id, firstn_all.
  unfold Mem.unpack. cbn [fst snd ti_name ti_type].
  rewrite Hpieces, resolve_name by exact Hbase.
  rewrite <- Hdest, <- Hpath.
  destruct (decide (Mem.abspath path = _)) as [Heq|_].
  { rewrite Hpath in Heq. apply (f_equal length) in Heq.
    rewrite length_app in Heq. cbn in Heq. lia. }
  reflexivity.
Qed.

(** [read_file] on the in-memory engine, of a regular file. *)
Lemma mem_read_file (self : t) (sandbox_id path : string) (content : list byte)
    (s : St Mem.MWorld) (mc : Mem.MContainer) :
  is_configured self = true ->
  Mem.reachable (world s) = true ->
  Mem.containers (world s) !! sandbox_id = Some mc ->
  Mem.mc_fs mc !! Mem.abspath path = Some (Mem.File content) ->
  read_file Mem.platform self sandbox_id path s = (Returned content, s).
Proof.
  intros Hc Hr Hmc Hfile. destruct (configured_client self Hc) as [cl Hcl].
  unfold read_file. rewrite Hcl.
  unfold try_except, bind, run_in_executor.
  cbn [World containers_get container_get_archive Mem.platform world logs clock].
  unfold Mem.m_get, Mem.m_get_archive, Mem.with_container.
  rewrite Hr, Hmc. cbn [world logs clock Mem.snapshot c_id].
  rewrite Hr, Hmc, Hfile.
  destruct s as [w l c]. reflexivity.
Qed.

(** C2 (as amended). On the in-memory engine, for every byte string
    [content] and every path whose last component is a proper file name
    (not empty, not [.] or [..]) and whose directory exists in the
    sandbox: [write_file] returns, and [read_file] of the same path then
    returns exactly [content]. *)
Theorem write_read_roundtrip (self : t) (sandbox_id path : string)
    (content : list byte) (mode : Z) (s : St Mem.MWorld) (mc : Mem.MContainer) :
  is_configured self = true ->
  Mem.reachable (world s) = true ->
  Mem.containers (world s) !! sandbox_id = Some mc ->
  Mem.mc_fs mc !! Mem.abspath (dirname path) = Some Mem.Dir ->
  basename path ∉ [""; "."; ".."] ->
  exists s1,
    write_file Mem.platform self sandbox_id path content mode s = (Returned tt, s1)
    /\ read_file Mem.platform self sandbox_id path s1 = (Returned content, s1).
Proof.
  intros Hc Hr Hmc Hdir Hbase. eexists. split.
  - by apply (mem_write_file self sandbox_id path content mode s mc).
  - apply (mem_read_file self sandbox_id path content _
             (Mem.set_fs (<[Mem.abspath path := Mem.File content]> (Mem.mc_fs mc)) mc)).
    + exact Hc.
    + exact Hr.
    + cbn. by rewrite lookup_insert_eq.
    + cbn. by rewrite lookup_insert_eq.
Qed.

(** Three bytes that are not UTF-8, written to the workspace. *)
Lemma write_read_roundtrip_witness :
  let s := Mem.start_state (Mem.holding (Mem.plain "running") Mem.idle) in
  let content := [x00; xff; x41]%byte in
  Mem.initial_fs !! Mem.abspath (dirname "/workspace/test.bin") = Some Mem.Dir
  /\ exists s1,
       write_file Mem.platform Mem.adapter "sandbox-0" "/workspace/test.bin"
         content 420 s = (Returned tt, s1)
       /\ read_file Mem.platform Mem.adapter "sandbox-0" "/workspace/test.bin" s1
          = (Returned content, s1).
Proof.
  intros s content.
  assert (Hdir : Mem.initial_fs !! Mem.abspath (dirname "/workspace/test.bin")
                 = Some Mem.Dir) by (vm_compute; reflexivity).
  split; [exact Hdir|].
  apply (write_read_roundtrip Mem.adapter "sandbox-0" "/workspace/test.bin" content
           420 s (Mem.plain "running")).
  - reflexivity.
  - reflexivity.
  - vm_compute. reflexivity.
  - exact Hdir.
  - intros Hin. repeat (apply elem_of_cons in Hin as [Hin|Hin]; [discriminate Hin|]).
    by apply elem_of_nil in Hin.
Defined.

(** C2 (as stated) fails for some paths: into a directory that does not
    exist [write_file] raises; and for a path with a trailing slash the
    archive entry gets the empty name, nothing is stored under the path,
    and [read_file] returns the empty byte string of the directory
    entry. *)
Lemma write_read_not_every_path :
  let s := Mem.start_state (Mem.holding (Mem.plain "running") Mem.idle) in
  (exists e,
     fst (write_file Mem.platform Mem.adapter "sandbox-0" "/nodir/f" [x41%byte] 420 s)
     = Raised e)
  /\ (let written :=
        write_file Mem.platform Mem.adapter "sandbox-0" "/workspace/" [x41%byte] 420 s in
      fst written = Returned tt
      /\ fst (read_file Mem.platform Mem.adapter "sandbox-0" "/workspace/" (snd written))
         = Returned []
      /\ [] <> [x41%byte]).
Proof.
  intros s. split.
  - eexists. vm_compute. reflexivity.
  - intros written. split; [vm_compute; reflexivity|].
    split; [vm_compute; reflexivity|discriminate].
Qed.

End Files.

(** * Further properties *)

(** ** Creation, lookup, start and stop *)

Section AdapterEdges.
Import DockerSandboxAdapter.
Context (P : Platform).

(** [create_sandbox] is the call of [containers.run] on [container_config]
    wrapped in its handlers. *)
Lemma create_sandbox_unfold (self : t) (snapshot_id : option string)
    (resources : option Resources) (metadata : option (gmap string PyVal))
    (s : St (World P)) :
  is_configured self = true ->
  create_sandbox P self snapshot_id resources metadata s
  = match containers_run P
            (container_config P self snapshot_id resources metadata (world s))
            (world s) with
    | (Returned c, w') =>
        (Returned (SandboxInfo_new (c_id c) STARTED
                     (match metadata with Some md => md | None => ∅ end)),
         mkSt w' (logs s ++ [(LOG_INFO, "Created Docker sandbox: " +:+ slice_to 12 (c_id c))])
              (clock s + 500))
    | (Raised e, w') =>
        if isinstance_ImageNotFound e then
          (Raised (mkExc RuntimeError
                     ("Docker image '" +:+ or_str snapshot_id (image self)
                      +:+ "' not found. Please build it first.")),
           mkSt w' (logs s ++ [(LOG_ERROR, "Docker image not found: "
                                           +:+ or_str snapshot_id (image self))])
                (clock s))
        else
          (Raised e,
           mkSt w' (logs s ++ [(LOG_ERROR, "Failed to create Docker sandbox: " +:+ exc_str e)])
                (clock s))
    end.
Proof.
  intros Hc. destruct (configured_client self Hc) as [cl Hcl].
  unfold create_sandbox. rewrite Hcl.
  unfold try_except, bind, run_in_executor, logger, asyncio_sleep, ret, raise.
  cbn [world logs clock].
  change (mkRunConfig _ _ _ _ _ _ _ _ _ _ _ _)
    with (container_config P self snapshot_id resources metadata (world s)).
  destruct (containers_run P _ (world s)) as [[c|e] w']; cbn [world logs clock].
  - reflexivity.
  - destruct (isinstance_ImageNotFound e); reflexivity.
Qed.


(** X1. A [create_sandbox] that returns has called
    [containers.run] once, on [container_config]; it reports the id of the
    container the engine returned, the state STARTED whatever status that
    container has, the metadata as passed, and it has slept half a
    second. *)
Theorem create_sandbox_reports_started (self : t) (snapshot_id : option string)
    (resources : option Resources) (metadata : option (gmap string PyVal))
    (s s' : St (World P)) (info : SandboxInfo) :
  is_configured self = true ->
  create_sandbox P self snapshot_id resources metadata s = (Returned info, s') ->
  exists c,
    containers_run P
      (container_config P self snapshot_id resources metadata (world s)) (world s)
    = (Returned c, world s')
    /\ Contract.sandbox_id info = c_id c
    /\ Contract.state info = STARTED
    /\ Contract.metadata info = match metadata with Some md => md | None => ∅ end
    /\ clock s' = clock s + 500.
Proof.
  intros Hc Hrun. rewrite (create_sandbox_unfold self _ _ _ s Hc) in Hrun.
  destruct (containers_run P _ (world s)) as [[c|e] w'].
  - injection Hrun as <- <-. exists c. repeat split; reflexivity.
  - destruct (isinstance_ImageNotFound e); discriminate Hrun.
Qed.

(** X2. The labels of a new container always carry the
    marker ["kortix.sandbox" = "true"] and the creation time; every
    metadata entry is stored under ["kortix.meta." + key] as [str(value)],
    and no other label starts with that prefix: caller metadata cannot
    overwrite the marker labels. *)
Theorem container_config_labels (self : t) (snapshot_id : option string)
    (resources : option Resources) (metadata : option (gmap string PyVal))
    (w : World P) :
  let labels := rc_labels (container_config P self snapshot_id resources metadata w) in
  labels !! "kortix.sandbox" = Some "true"
  /\ labels !! "kortix.created_at" = Some (float_str P (time_time P w))
  /\ (forall md k v,
        metadata = Some md -> md !! k = Some v ->
        labels !! (META_PREFIX +:+ k) = Some (py_str (float_str P) v))
  /\ (forall l,
        startswith META_PREFIX l = true ->
        is_Some (labels !! l) ->
        exists md k, metadata = Some md /\ is_Some (md !! k) /\ l = META_PREFIX +:+ k).
Proof.
  cbn [container_config rc_labels].
  set (base := <["kortix.created_at" := float_str P (time_time P w)]>
                 ({["kortix.sandbox" := "true"]} : gmap string string)).
  assert (Hs : base !! "kortix.sandbox" = Some "true") by reflexivity.
  assert (Ht : base !! "kortix.created_at" = Some (float_str P (time_time P w)))
    by (unfold base; by rewrite lookup_insert_eq).
  destruct metadata as [md|].
  - repeat split.
    + by rewrite add_metadata_labels_other.
    + by rewrite add_metadata_labels_other.
    + intros md' k v [= <-] Hk. by rewrite add_metadata_labels_meta, Hk.
    + intros l Hl [x Hx]. destruct (startswith_split _ _ Hl) as [k ->].
      rewrite add_metadata_labels_meta in Hx.
      destruct (md !! k) as [v|] eqn:Hk.
      * exists md, k. by rewrite Hk.
      * assert (startswith META_PREFIX (META_PREFIX +:+ k) = false) as Hf.
        { apply (base_labels_not_meta (float_str P (time_time P w))).
          fold base. by rewrite Hx. }
        by rewrite startswith_app in Hf.
  - repeat split; try done.
    intros l Hl Hx. unfold base in Hx.
    rewrite (base_labels_not_meta (float_str P (time_time P w)) l Hx) in Hl. done.
Qed.

(** X3. When [containers.run] raises, [create_sandbox]
    raises without sleeping: for [ImageNotFound] a [RuntimeError] that names
    the image and asks to build it, for anything else the exception
    itself. *)
Theorem create_sandbox_failure (self : t) (snapshot_id : option string)
    (resources : option Resources) (metadata : option (gmap string PyVal))
    (s : St (World P)) (e : Exception) (w' : World P) :
  is_configured self = true ->
  containers_run P
    (container_config P self snapshot_id resources metadata (world s)) (world s)
  = (Raised e, w') ->
  exists e' s',
    create_sandbox P self snapshot_id resources metadata s = (Raised e', s')
    /\ world s' = w' /\ clock s' = clock s
    /\ (isinstance_ImageNotFound e = true ->
        e' = mkExc RuntimeError
               ("Docker image '" +:+ or_str snapshot_id (image self)
                +:+ "' not found. Please build it first."))
    /\ (isinstance_ImageNotFound e = false -> e' = e).
Proof.
  intros Hc Hrun. rewrite (create_sandbox_unfold self _ _ _ s Hc), Hrun.
  destruct (isinstance_ImageNotFound e); eexists _, _;
    (split; [reflexivity|]); repeat split; try done.
Qed.

(** Looking up a container the engine does not know. *)
Lemma get_sandbox_not_found (self : t) (sandbox_id : string) (s : St (World P))
    (e : Exception) (w' : World P) :
  is_configured self = true ->
  containers_get P sandbox_id (world s) = (Raised e, w') ->
  isinstance_NotFound e = true ->
  get_sandbox P self sandbox_id s
  = (Raised (mkExc RuntimeError ("Sandbox " +:+ sandbox_id +:+ " not found")),
     mkSt w' (logs s ++ [(LOG_ERROR, "Docker container not found: " +:+ sandbox_id)])
          (clock s)).
Proof.
  intros Hc Hget He. destruct (configured_client self Hc) as [cl Hcl].
  unfold get_sandbox. rewrite Hcl.
  unfold try_except, bind, run_in_executor. rewrite Hget.
  cbn [world logs clock]. by rewrite He.
Qed.

(** X4. When the lookup raises, [get_sandbox] logs an error and
    raises: [RuntimeError("Sandbox <id> not found")] for [NotFound], the
    exception itself otherwise. *)
Theorem get_sandbox_failure (self : t) (sandbox_id : string) (s : St (World P))
    (e : Exception) (w' : World P) :
  is_configured self = true ->
  containers_get P sandbox_id (world s) = (Raised e, w') ->
  get_sandbox P self sandbox_id s
  = if isinstance_NotFound e
    then (Raised (mkExc RuntimeError ("Sandbox " +:+ sandbox_id +:+ " not found")),
          mkSt w' (logs s ++ [(LOG_ERROR, "Docker container not found: " +:+ sandbox_id)])
               (clock s))
    else (Raised e,
          mkSt w' (logs s ++ [(LOG_ERROR, "Failed to get Docker sandbox: " +:+ exc_str e)])
               (clock s)).
Proof.
  intros Hc Hget. destruct (configured_client self Hc) as [cl Hcl].
  unfold get_sandbox. rewrite Hcl.
  unfold try_except, bind, run_in_executor. rewrite Hget.
  cbn [world logs clock]. destruct (isinstance_NotFound e); reflexivity.
Qed.

(** On a container whose status is "running",
    [start_sandbox] is [get_sandbox]: it issues no start and does not
    sleep. *)
Lemma start_sandbox_already_running (self : t) (sandbox_id : string)
    (s s' : St (World P)) (c : Container) (w1 : World P) (info : SandboxInfo) :
  is_configured self = true ->
  containers_get P sandbox_id (world s) = (Returned c, w1) ->
  c_status c = "running" ->
  get_sandbox P self sandbox_id (mkSt w1 (logs s) (clock s)) = (Returned info, s') ->
  start_sandbox P self sandbox_id s = (Returned info, s').
Proof.
  intros Hc Hget Hst Hinfo. destruct (configured_client self Hc) as [cl Hcl].
  unfold start_sandbox. rewrite Hcl.
  unfold try_except, bind at 1, run_in_executor at 1. rewrite Hget.
  cbn [world logs clock]. rewrite Hst, String.eqb_refl. cbn [negb].
  unfold bind, ret. cbn [world logs clock]. by rewrite Hinfo.
Qed.

(** On a container whose status is not "running",
    [stop_sandbox] is [get_sandbox]: it issues no stop. *)
Lemma stop_sandbox_not_running (self : t) (sandbox_id : string)
    (s s' : St (World P)) (c : Container) (w1 : World P) (info : SandboxInfo) :
  is_configured self = true ->
  containers_get P sandbox_id (world s) = (Returned c, w1) ->
  c_status c <> "running" ->
  get_sandbox P self sandbox_id (mkSt w1 (logs s) (clock s)) = (Returned info, s') ->
  stop_sandbox P self sandbox_id s = (Returned info, s').
Proof.
  intros Hc Hget Hst Hinfo. destruct (configured_client self Hc) as [cl Hcl].
  unfold stop_sandbox. rewrite Hcl.
  unfold try_except, bind at 1, run_in_executor at 1. rewrite Hget.
  cbn [world logs clock].
  destruct (String.eqb_spec (c_status c) "running") as [Heq|_]; [done|].
  unfold bind, ret. cbn [world logs clock]. by rewrite Hinfo.
Qed.

(** X5. When there is nothing to do, [start_sandbox] (status
    "running") and [stop_sandbox] (any other status) are [get_sandbox]
    after the lookup: no start or stop is issued, nothing is logged and
    no time passes. *)
Theorem start_stop_nothing_to_do (self : t) (sandbox_id : string)
    (s s' : St (World P)) (c : Container) (w1 : World P) (info : SandboxInfo) :
  is_configured self = true ->
  containers_get P sandbox_id (world s) = (Returned c, w1) ->
  get_sandbox P self sandbox_id (mkSt w1 (logs s) (clock s)) = (Returned info, s') ->
  (c_status c = "running" -> start_sandbox P self sandbox_id s = (Returned info, s'))
  /\ (c_status c <> "running" -> stop_sandbox P self sandbox_id s = (Returned info, s')).
Proof.
  intros Hc Hget Hinfo. split; intros Hst.
  - by apply (start_sandbox_already_running self sandbox_id s s' c w1 info).
  - by apply (stop_sandbox_not_running self sandbox_id s s' c w1 info).
Qed.

End AdapterEdges.

Section AdapterEdgeExamples.
Import DockerSandboxAdapter.

Lemma create_sandbox_reports_started_witness :
  exists info s' c,
    create_sandbox Mem.platform Mem.adapter None None None (Mem.start_state Mem.fresh)
    = (Returned info, s')
    /\ Contract.sandbox_id info = c_id c
    /\ Contract.state info = STARTED
    /\ clock s' = 0 + 500.
Proof.
  destruct (create_sandbox Mem.platform Mem.adapter None None None
              (Mem.start_state Mem.fresh)) as [r s'] eqn:Hrun.
  assert (Hr : exists info, r = Returned info).
  { pose proof Hrun as H. vm_compute in H. injection H as <- _. eauto. }
  destruct Hr as [info ->].
  destruct (create_sandbox_reports_started Mem.platform Mem.adapter None None None
              _ s' info eq_refl Hrun) as (c & _ & Hid & Hst & _ & Hclock).
  exists info, s', c. auto.
Defined.

Lemma create_sandbox_failure_witness :
  exists e' s',
    create_sandbox Mem.platform Mem.adapter (Some "missing:latest") None None
      (Mem.start_state Mem.fresh) = (Raised e', s')
    /\ e' = mkExc RuntimeError
              "Docker image 'missing:latest' not found. Please build it first.".
Proof.
  destruct (create_sandbox_failure Mem.platform Mem.adapter (Some "missing:latest")
              None None (Mem.start_state Mem.fresh)
              (mkExc ImageNotFound
                 "404 Client Error: Not Found (No such image: missing:latest)")
              Mem.fresh eq_refl)
    as (e' & s' & Hrun & _ & _ & Himg & _).
  { vm_compute. reflexivity. }
  exists e', s'. split; [exact Hrun|]. rewrite (Himg eq_refl). reflexivity.
Defined.

Lemma get_sandbox_failure_witness :
  get_sandbox Mem.platform Mem.adapter "gone" (Mem.start_state Mem.fresh)
  = (Raised (mkExc RuntimeError "Sandbox gone not found"),
     mkSt Mem.fresh [(LOG_ERROR, "Docker container not found: gone")] 0).
Proof.
  exact (get_sandbox_failure Mem.platform Mem.adapter "gone" (Mem.start_state Mem.fresh)
           (Mem.no_such_container "gone") Mem.fresh eq_refl eq_refl).
Defined.

(** Starting a sandbox that runs. *)
Lemma start_stop_nothing_to_do_witness :
  let w := Mem.holding (Mem.plain "running") Mem.idle in
  exists info,
    start_sandbox Mem.platform Mem.adapter "sandbox-0" (Mem.start_state w)
    = (Returned info, Mem.start_state w)
    /\ Contract.state info = STARTED.
Proof.
  intros w. eexists. split.
  - apply (start_stop_nothing_to_do Mem.platform Mem.adapter "sandbox-0"
             (Mem.start_state w) (Mem.start_state w)
             (Mem.snapshot "sandbox-0" (Mem.plain "running")) w).
    + reflexivity.
    + reflexivity.
    + apply (get_sandbox_found Mem.platform Mem.adapter "sandbox-0" (Mem.start_state w)
               (Mem.snapshot "sandbox-0" (Mem.plain "running")) w); reflexivity.
    + reflexivity.
  - reflexivity.
Defined.

End AdapterEdgeExamples.

(** ** Construction and the unconfigured adapter *)

Section Unconfigured.
Import DockerSandboxAdapter.
Context (P : Platform).

(** X6. On an adapter without a client every operation
    fails at once with [RuntimeError("Docker client not initialized")] and
    leaves the engine, the log and the clock untouched; [list_files] and
    [delete_file] fail the same way, and [health_check] answers false. *)
Theorem unconfigured_fails_fast (self : t) (s : St (World P)) :
  is_configured self = false ->
  (forall a b c, create_sandbox P self a b c s = (Raised not_initialized, s))
  /\ (forall id, get_sandbox P self id s = (Raised not_initialized, s))
  /\ (forall id, start_sandbox P self id s = (Raised not_initialized, s))
  /\ (forall id, stop_sandbox P self id s = (Raised not_initialized, s))
  /\ (forall id, delete_sandbox P self id s = (Raised not_initialized, s))
  /\ (forall id cmd wd env t,
        execute_command P self id cmd wd env t s = (Raised not_initialized, s))
  /\ (forall id path content mode,
        write_file P self id path content mode s = (Raised not_initialized, s))
  /\ (forall id path, read_file P self id path s = (Raised not_initialized, s))
  /\ (forall id, get_resource_usage P self id s = (Raised not_initialized, s))
  /\ (forall int_of_str id path,
        DockerSandboxFiles.list_files P int_of_str self id path s
        = (Raised not_initialized, s))
  /\ (forall id path,
        DockerSandboxFiles.delete_file P self id path s = (Raised not_initialized, s))
  /\ (forall id, DockerSandboxFiles.health_check P self id s = (Returned false, s)).
Proof.
  intros Hc.
  assert (Hcl : client self = None).
  { unfold is_configured in Hc. by destruct (client self). }
  unfold create_sandbox, get_sandbox, start_sandbox, stop_sandbox, delete_sandbox,
    execute_command, write_file, read_file, get_resource_usage,
    DockerSandboxFiles.list_files, DockerSandboxFiles.delete_file,
    DockerSandboxFiles.health_check, execute_command, get_sandbox.
  rewrite Hcl. repeat split; reflexivity.
Qed.

(** X7. The constructor never raises and takes no time.  Each of the
    three string settings is the argument when that is a non-empty
    string, else the environment variable, else the default; the memory
    limit, the CPU limit and the GPU flag are stored as given.  When the
    client construction and the ping both return, the client is kept and
    one INFO record is logged; when either raises, the client is [None]
    and one ERROR record with the exception's text is logged.  So the
    adapter is configured exactly when both calls returned. *)
Theorem init_never_raises (docker_url image network : option string)
    (memory_limit : string) (cpu_limit : Q) (enable_gpu : bool) (s : St (World P)) :
  let env name default :=
    match environ P (world s) !! name with Some v => v | None => default end in
  let url := or_str docker_url (env "DOCKER_HOST" "unix:///var/run/docker.sock") in
  let failed e := (LOG_ERROR, "Failed to connect to Docker: " +:+ exc_str e) in
  exists self s',
    __init__ P docker_url image network memory_limit cpu_limit enable_gpu s
    = (Returned self, s')
    /\ DockerSandboxAdapter.docker_url self = url
    /\ DockerSandboxAdapter.image self = or_str image (env "SANDBOX_IMAGE" DEFAULT_IMAGE)
    /\ DockerSandboxAdapter.network self = or_str network (env "SANDBOX_NETWORK" "bridge")
    /\ DockerSandboxAdapter.memory_limit self = memory_limit
    /\ DockerSandboxAdapter.cpu_limit self = cpu_limit
    /\ DockerSandboxAdapter.enable_gpu self = enable_gpu
    /\ clock s' = clock s
    /\ match docker_DockerClient P url (world s) with
       | (Returned c, w1) =>
           match client_ping P c w1 with
           | (Returned _, w2) =>
               client self = Some c /\ world s' = w2
               /\ logs s' = (logs s ++ [(LOG_INFO, "Docker sandbox adapter initialized: "
                                                   +:+ url)])%list
           | (Raised e, w2) =>
               client self = None /\ world s' = w2
               /\ logs s' = (logs s ++ [failed e])%list
           end
       | (Raised e, w1) =>
           client self = None /\ world s' = w1 /\ logs s' = (logs s ++ [failed e])%list
       end
    /\ (is_configured self = true
        <-> exists c w1 b w2,
              docker_DockerClient P url (world s) = (Returned c, w1)
              /\ client_ping P c w1 = (Returned b, w2)).
Proof.
  intros env url failed. unfold __init__.
  unfold bind at 1, getenv_default at 1.
  unfold bind at 1, getenv_default at 1.
  unfold bind at 1, getenv_default at 1.
  fold (env "DOCKER_HOST" "unix:///var/run/docker.sock"). fold url.
  unfold bind at 1, try_except, bind at 1, run_in_executor at 1.
  destruct (docker_DockerClient P url (world s)) as [[c|e] w1] eqn:Hnew.
  - cbn [world logs clock]. unfold bind at 1, run_in_executor at 1.
    cbn [world logs clock].
    destruct (client_ping P c w1) as [[b|e] w2] eqn:Hping.
    + unfold bind, logger, ret. cbn. eexists _, _. split; [reflexivity|].
      cbn. repeat split; try done. intros _. exists c, w1, b, w2. auto.
    + unfold bind, logger, ret. cbn. eexists _, _. split; [reflexivity|].
      cbn. repeat split; try done.
      intros (c' & w1' & b' & w2' & [= <- <-] & Hp). congruence.
  - unfold bind, logger, ret. cbn. eexists _, _. split; [reflexivity|].
    cbn. repeat split; try done.
    intros (c' & w1' & b' & w2' & Hn & Hp). discriminate Hn.
Qed.

End Unconfigured.

Section UnconfiguredExamples.
Import DockerSandboxAdapter.

(** An adapter whose connection attempt failed. *)
Lemma unconfigured_fails_fast_witness :
  get_sandbox Mem.platform Mem.unconfigured "sandbox-0" (Mem.start_state Mem.fresh)
  = (Raised not_initialized, Mem.start_state Mem.fresh)
  /\ DockerSandboxFiles.health_check Mem.platform Mem.unconfigured "sandbox-0"
       (Mem.start_state Mem.fresh) = (Returned false, Mem.start_state Mem.fresh).
Proof.
  destruct (unconfigured_fails_fast Mem.platform Mem.unconfigured
              (Mem.start_state Mem.fresh) eq_refl)
    as (_ & Hget & _ & _ & _ & _ & _ & _ & _ & _ & _ & Hhealth).
  split; [apply Hget|apply Hhealth].
Defined.

End UnconfiguredExamples.

(** ** Commands, file reads and health *)

Section Commands.
Import DockerSandboxAdapter.
Context (P : Platform).

(** On a configured adapter [execute_command] returns a result. *)
Lemma execute_command_returns (self : t) (sandbox_id command : string)
    (working_dir : option string) (env : option (gmap string string))
    (timeout : option Z) (s : St (World P)) :
  is_configured self = true ->
  exists r s',
    execute_command P self sandbox_id command working_dir env timeout s
    = (Returned r, s').
Proof.
  intros Hc. destruct (configured_client self Hc) as [cl Hcl].
  unfold execute_command. rewrite Hcl.
  unfold try_except at 1. unfold bind at 1. unfold run_in_executor at 1.
  destruct (containers_get P sandbox_id (world s)) as [[c|e] w1]; [|cbn; eauto].
  cbn [world logs clock]. unfold try_except at 1. unfold bind at 1.
  unfold wait_for. cbn [world logs clock].
  destruct (container_exec_run P c _ w1) as [fut w2].
  destruct (fut_duration fut <=? _); [|cbn; eauto].
  destruct (fut_outcome fut) as [[code [o1 o2]]|e].
  - cbn [er_exit_code er_output]. unfold bind at 1, of_result at 1.
    destruct (decode_or_empty P o1) as [out|e].
    + unfold bind at 1, of_result at 1.
      destruct (decode_or_empty P o2) as [err|e]; [cbn; eauto|].
      destruct (isinstance_TimeoutError e); cbn; eauto.
    + destruct (isinstance_TimeoutError e); cbn; eauto.
  - destruct (isinstance_TimeoutError e); cbn; eauto.
Qed.

(** X8. When the execution completes within the timeout and both
    streams decode, [execute_command] returns the program's exit code, the
    two decoded streams, [success] exactly when the exit code is 0 and no
    [error]; it logs nothing and has waited for the duration of the
    execution. *)
Theorem execute_command_completed (self : t) (sandbox_id command : string)
    (working_dir : option string) (env : option (gmap string string))
    (timeout : option Z) (s : St (World P)) (c : Container) (w1 w2 : World P)
    (fut : Future ExecResult) (res : ExecResult) (out err : string) :
  is_configured self = true ->
  containers_get P sandbox_id (world s) = (Returned c, w1) ->
  container_exec_run P c (exec_config command working_dir env) w1 = (fut, w2) ->
  fut_duration fut <= or_int timeout DEFAULT_TIMEOUT * 1000 ->
  fut_outcome fut = Returned res ->
  decode_or_empty P (fst (er_output res)) = Returned out ->
  decode_or_empty P (snd (er_output res)) = Returned err ->
  execute_command P self sandbox_id command working_dir env timeout s
  = (Returned (mkExecuteResult (er_exit_code res) out err (er_exit_code res =? 0) None),
     mkSt w2 (logs s) (clock s + fut_duration fut)).
Proof.
  intros Hc Hget Hrun Hdur Hres Hout Herr.
  destruct (configured_client self Hc) as [cl Hcl].
  unfold execute_command. rewrite Hcl.
  unfold try_except at 1, bind at 1, run_in_executor at 1. rewrite Hget.
  cbn [world logs clock]. unfold try_except at 1, bind at 1, wait_for.
  cbn [world logs clock]. rewrite Hrun. apply Z.leb_le in Hdur. rewrite Hdur, Hres.
  destruct res as [code [o1 o2]]. cbn [er_exit_code er_output fst snd] in *.
  unfold bind at 1, of_result at 1. rewrite Hout.
  unfold bind at 1, of_result at 1. rewrite Herr. reflexivity.
Qed.

(** X9. When the first entry of the fetched archive is a directory (the
    path names a directory), [read_file] returns the empty byte string
    and raises nothing. *)
Theorem read_file_directory (self : t) (sandbox_id path : string)
    (s : St (World P)) (c : Container) (w1 w2 : World P)
    (tar : Archive) (m : TarInfo * list byte) :
  is_configured self = true ->
  containers_get P sandbox_id (world s) = (Returned c, w1) ->
  container_get_archive P c path w1 = (Returned tar, w2) ->
  head tar = Some m ->
  ti_type (fst m) = DIRTYPE ->
  read_file P self sandbox_id path s = (Returned [], mkSt w2 (logs s) (clock s)).
Proof.
  intros Hc Hget Harch Hhead Hty. destruct (configured_client self Hc) as [cl Hcl].
  unfold read_file. rewrite Hcl.
  unfold try_except, bind, run_in_executor. rewrite Hget.
  cbn [world logs clock]. rewrite Harch. cbn [world logs clock].
  unfold tar_next. rewrite Hhead. unfold extractfile. by rewrite Hty.
Qed.

(** X10. When the engine cannot produce the archive (the path
    does not exist, say), [read_file] logs an error and raises the engine's
    exception itself, not [FileNotFoundError]. *)
Theorem read_file_engine_failure (self : t) (sandbox_id path : string)
    (s : St (World P)) (c : Container) (w1 w2 : World P) (e : Exception) :
  is_configured self = true ->
  containers_get P sandbox_id (world s) = (Returned c, w1) ->
  container_get_archive P c path w1 = (Raised e, w2) ->
  read_file P self sandbox_id path s
  = (Raised e,
     mkSt w2
       (logs s ++ [(LOG_ERROR, "Failed to read file from Docker sandbox: " +:+ exc_str e)])
       (clock s)).
Proof.
  intros Hc Hget Harch. destruct (configured_client self Hc) as [cl Hcl].
  unfold read_file. rewrite Hcl.
  unfold try_except, bind, run_in_executor. rewrite Hget.
  cbn [world logs clock]. rewrite Harch. reflexivity.
Qed.

(** X11. [health_check] never raises, configured or not: it answers
    true exactly when [get_sandbox] returns with state STARTED, and false
    for every other state and for every exception. *)
Theorem health_check_total (self : t) (sandbox_id : string) (s : St (World P)) :
  exists b s',
    DockerSandboxFiles.health_check P self sandbox_id s = (Returned b, s')
    /\ (b = true
        <-> exists info,
              get_sandbox P self sandbox_id s = (Returned info, s')
              /\ Contract.state info = STARTED).
Proof.
  unfold DockerSandboxFiles.health_check, try_except, bind, ret.
  destruct (get_sandbox P self sandbox_id s) as [[info|e] s'].
  - exists (SandboxState_eqb (Contract.state info) STARTED), s'.
    split; [reflexivity|]. split.
    + intros Hb. exists info. split; [reflexivity|].
      by destruct (Contract.state info).
    + intros (info' & [= <-] & ->). reflexivity.
  - exists false, s'. split; [reflexivity|]. split; [done|].
    intros (info' & Hbad & _). discriminate Hbad.
Qed.

(** X12. On a configured adapter [delete_file] runs
    ["rm -rf " + path] with a 30 second timeout; it returns when the
    command succeeded and raises [RuntimeError("Failed to delete <path>:
    <stderr>")] otherwise, whatever the failure was. *)
Theorem delete_file_outcome (self : t) (sandbox_id path : string) (s : St (World P)) :
  is_configured self = true ->
  exists r s',
    execute_command P self sandbox_id ("rm -rf " +:+ path) None None (Some 30) s
    = (Returned r, s')
    /\ DockerSandboxFiles.delete_file P self sandbox_id path s
       = if success r
         then (Returned tt, s')
         else (Raised (mkExc RuntimeError
                         ("Failed to delete " +:+ path +:+ ": " +:+ stderr r)), s').
Proof.
  intros Hc.
  destruct (execute_command_returns self sandbox_id ("rm -rf " +:+ path) None None
              (Some 30) s Hc) as (r & s' & Hrun).
  exists r, s'. split; [exact Hrun|].
  unfold DockerSandboxFiles.delete_file, bind. rewrite Hrun.
  by destruct (success r).
Qed.

(** What [execute_command] returns when the container lookup raises. *)
Lemma execute_command_lookup_failed (self : t) (sandbox_id command : string)
    (working_dir : option string) (env : option (gmap string string))
    (timeout : option Z) (s : St (World P)) (e : Exception) (w' : World P) :
  is_configured self = true ->
  containers_get P sandbox_id (world s) = (Raised e, w') ->
  execute_command P self sandbox_id command working_dir env timeout s
  = (Returned (failure_result e),
     mkSt w' (logs s ++ [(LOG_ERROR, "Failed to execute command in Docker sandbox: "
                                     +:+ exc_str e)]) (clock s)).
Proof.
  intros Hc Hget. destruct (configured_client self Hc) as [cl Hcl].
  unfold execute_command. rewrite Hcl.
  unfold try_except at 1, bind at 1, run_in_executor at 1. rewrite Hget.
  reflexivity.
Qed.

(** When the container lookup fails, [list_files] logs the error and
    returns the empty list. *)
Lemma list_files_lookup_failed (int_of_str : string -> Result Z) (self : t)
    (sandbox_id path : string) (s : St (World P)) (e : Exception) (w' : World P) :
  is_configured self = true ->
  containers_get P sandbox_id (world s) = (Raised e, w') ->
  DockerSandboxFiles.list_files P int_of_str self sandbox_id path s
  = (Returned [],
     mkSt w' (logs s ++ [(LOG_ERROR, "Failed to execute command in Docker sandbox: "
                                     +:+ exc_str e)]) (clock s)).
Proof.
  intros Hc Hget. unfold DockerSandboxFiles.list_files, bind.
  rewrite (execute_command_lookup_failed self sandbox_id _ None None (Some 10) s e w' Hc Hget).
  reflexivity.
Qed.

(** When the listing command is still running after ten seconds,
    [list_files] returns the empty list. *)
Lemma list_files_timeout (int_of_str : string -> Result Z) (self : t)
    (sandbox_id path : string) (s : St (World P)) (c : Container) (w1 w2 : World P)
    (fut : Future ExecResult) :
  is_configured self = true ->
  containers_get P sandbox_id (world s) = (Returned c, w1) ->
  container_exec_run P c
    (exec_config ("ls -la --time-style=+%s " +:+ path) None None) w1 = (fut, w2) ->
  10 * 1000 < fut_duration fut ->
  exists s',
    DockerSandboxFiles.list_files P int_of_str self sandbox_id path s = (Returned [], s')
    /\ clock s' = clock s + 10000.
Proof.
  intros Hc Hget Hrun Hlate. destruct (configured_client self Hc) as [cl Hcl].
  unfold DockerSandboxFiles.list_files, bind at 1, execute_command. rewrite Hcl.
  unfold try_except at 1, bind at 1, run_in_executor at 1. rewrite Hget.
  cbn [world logs clock]. unfold try_except at 1, bind at 1, wait_for.
  cbn [world logs clock]. rewrite Hrun.
  change (or_int (Some 10) DEFAULT_TIMEOUT) with 10.
  destruct (Z.leb_spec (fut_duration fut) (10 * 1000)); [lia|].
  cbn. eexists. split; reflexivity.
Qed.

(** X13. On a configured adapter [list_files] reports no
    failure of the listing: it returns the empty list, as for an empty
    directory, when the container lookup raises (an unknown sandbox, an
    engine that does not answer), when the command is still running after
    ten seconds, and whenever the command's result is not a success (a
    non-zero exit code for a missing directory, say). *)
Theorem list_files_failure_is_empty (int_of_str : string -> Result Z) (self : t)
    (sandbox_id path : string) (s : St (World P)) :
  is_configured self = true ->
  (forall e w',
      containers_get P sandbox_id (world s) = (Raised e, w') ->
      fst (DockerSandboxFiles.list_files P int_of_str self sandbox_id path s) = Returned [])
  /\ (forall c w1 fut w2,
        containers_get P sandbox_id (world s) = (Returned c, w1) ->
        container_exec_run P c
          (exec_config ("ls -la --time-style=+%s " +:+ path) None None) w1 = (fut, w2) ->
        10 * 1000 < fut_duration fut ->
        fst (DockerSandboxFiles.list_files P int_of_str self sandbox_id path s)
        = Returned [])
  /\ (forall r s',
        execute_command P self sandbox_id ("ls -la --time-style=+%s " +:+ path)
          None None (Some 10) s = (Returned r, s') ->
        success r = false ->
        DockerSandboxFiles.list_files P int_of_str self sandbox_id path s
        = (Returned [], s')).
Proof.
  intros Hc. split; [|split].
  - intros e w' Hget.
    by rewrite (list_files_lookup_failed int_of_str self sandbox_id path s e w' Hc Hget).
  - intros c w1 fut w2 Hget Hrun Hlate.
    destruct (list_files_timeout int_of_str self sandbox_id path s c w1 w2 fut
                Hc Hget Hrun Hlate) as (s' & -> & _).
    reflexivity.
  - intros r s' Hrun Hfail. unfold DockerSandboxFiles.list_files, bind.
    by rewrite Hrun, Hfail.
Qed.

(** X14. What [write_file] uploads and what it makes of the answer:
    one archive with one regular member, named after the last component
    of the path, holding the content, with the permission bits of the
    given mode ([mode & 0o7777]) and the current time in whole seconds,
    sent to the directory part of the path (["/"] when that is empty).
    It returns whatever truth value the engine answers with, and it logs
    and re-raises what the engine raises. *)
Theorem write_file_upload (self : t) (sandbox_id path : string) (content : list byte)
    (mode : Z) (s : St (World P)) (c : Container) (w1 : World P) :
  is_configured self = true ->
  containers_get P sandbox_id (world s) = (Returned c, w1) ->
  let tar :=
    [(mkTarInfo (basename path) (Z.of_nat (length content)) (Z.land mode 4095)
                (int_of_float (time_time P w1)) REGTYPE, content)] in
  let dest := or_str (Some (dirname path)) "/" in
  (forall b w2,
      container_put_archive P c dest tar w1 = (Returned b, w2) ->
      write_file P self sandbox_id path content mode s
      = (Returned tt,
         mkSt w2 (logs s ++ [(LOG_DEBUG, "Wrote file to Docker sandbox: " +:+ path)])
              (clock s)))
  /\ (forall e w2,
        container_put_archive P c dest tar w1 = (Raised e, w2) ->
        write_file P self sandbox_id path content mode s
        = (Raised e,
           mkSt w2 (logs s ++ [(LOG_ERROR, "Failed to write file to Docker sandbox: "
                                           +:+ exc_str e)])
                (clock s))).
Proof.
  intros Hc Hget tar dest. destruct (configured_client self Hc) as [cl Hcl].
  assert (Htar : addfile [] (mkTarInfo (basename path) (Z.of_nat (length content)) mode
                               (int_of_float (time_time P w1)) REGTYPE) content
                 = tar).
  { unfold addfile, tar. cbn [ti_name ti_size ti_mode ti_mtime ti_type app].
    by rewrite Nat2Z.id, firstn_all. }
  split; intros x w2 Hput; unfold write_file; rewrite Hcl;
    unfold try_except, bind, run_in_executor, logger; rewrite Hget;
    cbn [world logs clock]; rewrite Htar; fold dest; rewrite Hput; reflexivity.
Qed.

End Commands.

Section CommandExamples.
Import DockerSandboxAdapter.

(** A command that prints two bytes and exits with status 3. *)
Lemma execute_command_completed_witness :
  let res := mkExecResult 3 (Some [x68; x69]%byte, None) in
  let w := Mem.holding (Mem.plain "running") (Mem.always 20 (Returned res)) in
  execute_command Mem.platform Mem.adapter "sandbox-0" "echo hi; exit 3" None None
    (Some 1) (Mem.start_state w)
  = (Returned (mkExecuteResult 3 "hi" "" false None), mkSt w [] 20).
Proof.
  intros res w.
  exact (execute_command_completed Mem.platform Mem.adapter "sandbox-0"
           "echo hi; exit 3" None None (Some 1) (Mem.start_state w)
           (Mem.snapshot "sandbox-0" (Mem.plain "running")) w w
           (mkFuture 20 (Returned res)) res "hi" ""
           eq_refl eq_refl eq_refl ltac:(vm_compute; discriminate) eq_refl eq_refl eq_refl).
Defined.

(** Reading the workspace directory. *)
Lemma read_file_directory_witness :
  let w := Mem.holding (Mem.plain "running") Mem.idle in
  read_file Mem.platform Mem.adapter "sandbox-0" "/workspace" (Mem.start_state w)
  = (Returned [], Mem.start_state w).
Proof.
  intros w.
  apply (read_file_directory Mem.platform Mem.adapter "sandbox-0" "/workspace"
           (Mem.start_state w) (Mem.snapshot "sandbox-0" (Mem.plain "running")) w w
           [(mkTarInfo "workspace" 0 493 1700000000 DIRTYPE, [])]
           (mkTarInfo "workspace" 0 493 1700000000 DIRTYPE, [])).
  - reflexivity.
  - reflexivity.
  - vm_compute. reflexivity.
  - reflexivity.
  - reflexivity.
Defined.

(** Reading a file that is not there. *)
Lemma read_file_engine_failure_witness :
  let w := Mem.holding (Mem.plain "running") Mem.idle in
  exists s',
    read_file Mem.platform Mem.adapter "sandbox-0" "/workspace/none" (Mem.start_state w)
    = (Raised (Mem.no_such_path "/workspace/none"), s').
Proof.
  intros w. eexists.
  apply (read_file_engine_failure Mem.platform Mem.adapter "sandbox-0" "/workspace/none"
           (Mem.start_state w) (Mem.snapshot "sandbox-0" (Mem.plain "running")) w w).
  - reflexivity.
  - reflexivity.
  - vm_compute. reflexivity.
Defined.

(** Deleting a file in a sandbox that does not exist. *)
Lemma delete_file_outcome_witness :
  exists s',
    DockerSandboxFiles.delete_file Mem.platform Mem.adapter "nope" "/x"
      (Mem.start_state Mem.fresh)
    = (Raised (mkExc RuntimeError
                 ("Failed to delete /x: " +:+ exc_str (Mem.no_such_container "nope"))),
       s').
Proof.
  destruct (delete_file_outcome Mem.platform Mem.adapter "nope" "/x"
              (Mem.start_state Mem.fresh) eq_refl) as (r & s' & Hrun & Hdel).
  exists s'. rewrite Hdel.
  assert (Hr : r = failure_result (Mem.no_such_container "nope")).
  { pose proof Hrun as H. vm_compute in H. injection H as <- _. reflexivity. }
  rewrite Hr. reflexivity.
Defined.

(** Listing a sandbox that does not exist. *)
Lemma list_files_failure_is_empty_witness :
  fst (DockerSandboxFiles.list_files Mem.platform MemText.int_of_str Mem.adapter "nope" "/"
         (Mem.start_state Mem.fresh)) = Returned [].
Proof.
  apply (proj1 (list_files_failure_is_empty Mem.platform MemText.int_of_str Mem.adapter
                  "nope" "/" (Mem.start_state Mem.fresh) eq_refl)
           (Mem.no_such_container "nope") Mem.fresh).
  reflexivity.
Defined.

(** Writing below a directory that does not exist. *)
Lemma write_file_upload_witness :
  let w := Mem.holding (Mem.plain "running") Mem.idle in
  write_file Mem.platform Mem.adapter "sandbox-0" "/srv/data/a.txt" [x68; x69]%byte 420
    (Mem.start_state w)
  = (Raised (Mem.no_such_path "/srv/data"),
     mkSt w [(LOG_ERROR, "Failed to write file to Docker sandbox: "
                         +:+ exc_str (Mem.no_such_path "/srv/data"))] 0).
Proof.
  intros w.
  apply (proj2 (write_file_upload Mem.platform Mem.adapter "sandbox-0" "/srv/data/a.txt"
                  [x68; x69]%byte 420 (Mem.start_state w)
                  (Mem.snapshot "sandbox-0" (Mem.plain "running")) w eq_refl eq_refl)).
  vm_compute. reflexivity.
Defined.

End CommandExamples.

(** ** Directory listings *)

Section Listing.
Import DockerSandboxAdapter.
Context (P : Platform).
Variable int_of_str : string -> Result Z.

(** [split] takes a leading run without whitespace as one field. *)
Lemma split_go_field (x rest : string) :
  PyStr.no_space x = true ->
  PyStr.split_go (x +:+ rest)
  = (x +:+ fst (PyStr.split_go rest), snd (PyStr.split_go rest)).
Proof.
  induction x as [|a x IH]; intros Hx.
  - change ("" +:+ rest) with rest. change ("" +:+ ?y) with y.
    by destruct (PyStr.split_go rest).
  - cbn in Hx. apply andb_prop in Hx as [Ha Hx].
    change (String a x +:+ ?y) with (String a (x +:+ y)).
    cbn [PyStr.split_go]. rewrite (IH Hx).
    apply negb_true_iff in Ha. by rewrite Ha.
Qed.

Lemma append_empty_r (x : string) : x +:+ "" = x.
Proof.
  induction x as [|a x IH]; [done|].
  change (String a x +:+ "") with (String a (x +:+ "")). by rewrite IH.
Qed.

Lemma split_field_cons (x rest : string) :
  PyStr.is_field x = true ->
  PyStr.split (x +:+ " " +:+ rest) = x :: PyStr.split rest.
Proof.
  intros [Hne Hx]%andb_prop. unfold PyStr.split at 1.
  rewrite (split_go_field x _ Hx).
  change (" " +:+ rest) with (String " "%char rest). cbn [PyStr.split_go].
  destruct (PyStr.split_go rest) as [y ys] eqn:Hrest.
  change (PyStr.isspace " ") with true. cbn [fst snd].
  rewrite append_empty_r. unfold PyStr.split. rewrite Hrest.
  destruct x; [done|]. reflexivity.
Qed.

Lemma split_field (x : string) :
  PyStr.is_field x = true -> PyStr.split x = [x].
Proof.
  intros [Hne Hx]%andb_prop. unfold PyStr.split.
  rewrite <- (append_empty_r x) at 1. rewrite (split_go_field x _ Hx).
  cbn [PyStr.split_go fst snd]. rewrite append_empty_r.
  destruct x; [done|]. reflexivity.
Qed.

(** Splitting a line of fields separated by single spaces gives the
    fields back. *)
Lemma split_join (fs : list string) :
  Forall (fun x => PyStr.is_field x = true) fs ->
  PyStr.split (PyStr.join " " fs) = fs.
Proof.
  induction 1 as [|x fs Hx Hfs IH]; [reflexivity|].
  destruct fs as [|y fs].
  - cbn [PyStr.join]. by apply split_field.
  - change (PyStr.join " " (x :: y :: fs)) with (x +:+ " " +:+ PyStr.join " " (y :: fs)).
    rewrite (split_field_cons x _ Hx). by rewrite IH.
Qed.

(** The loop of [list_files] keeps the entries in the order of the lines
    and adds nothing else. *)
Lemma list_entries_collect (path : string) (lines : list string)
    (entries : list (option FileInfo.t)) (files : list FileInfo.t) :
  Forall2 (fun line entry => DockerSandboxFiles.list_entry P int_of_str path line
                             = Returned entry) lines entries ->
  DockerSandboxFiles.list_entries P int_of_str path lines files
  = Returned (files ++ omap id entries)%list.
Proof.
  intros H. revert files. induction H as [|line entry lines entries Hl _ IH]; intros files.
  - cbn. by rewrite app_nil_r.
  - cbn [DockerSandboxFiles.list_entries]. rewrite Hl. cbn [rbind]. rewrite IH.
    destruct entry as [f|]; cbn; [by rewrite <- app_assoc|done].
Qed.

Lemma list_entries_raise (path : string) (before after : list string) (line : string)
    (entries : list (option FileInfo.t)) (files : list FileInfo.t) (e : Exception) :
  Forall2 (fun line entry => DockerSandboxFiles.list_entry P int_of_str path line
                             = Returned entry) before entries ->
  DockerSandboxFiles.list_entry P int_of_str path line = Raised e ->
  DockerSandboxFiles.list_entries P int_of_str path (before ++ line :: after) files
  = Raised e.
Proof.
  intros H Hl. revert files. induction H as [|l entry ls entries Hx _ IH]; intros files.
  - cbn. by rewrite Hl.
  - cbn [app DockerSandboxFiles.list_entries]. rewrite Hx. cbn [rbind]. apply IH.
Qed.

Lemma list_entry_few_fields (path line : string) :
  (length (PyStr.split line) < 9)%nat ->
  DockerSandboxFiles.list_entry P int_of_str path line = Returned None.
Proof.
  intros Hlen. unfold DockerSandboxFiles.list_entry.
  destruct (_ || _); [done|].
  destruct (Nat.ltb_spec (length (PyStr.split line)) 9); [done|lia].
Qed.

(** X15. When the listing command succeeded and every line of its (ASCII)
    output has fewer than nine whitespace-separated fields, [list_files]
    returns the empty list.  (With [--time-style=+%s] a line of [ls -la]
    has six fields before the name, so the line of an entry whose name
    has no whitespace has seven fields and is such a line.) *)
Theorem list_files_short_lines (self : t) (sandbox_id path : string)
    (s s' : St (World P)) (r : ExecuteResult) :
  execute_command P self sandbox_id ("ls -la --time-style=+%s " +:+ path)
    None None (Some 10) s = (Returned r, s') ->
  success r = true ->
  PyStr.is_ascii (stdout r) = true ->
  Forall (fun line => (length (PyStr.split line) < 9)%nat)
    (PyStr.split_on "010" (PyStr.strip (stdout r))) ->
  DockerSandboxFiles.list_files P int_of_str self sandbox_id path s = (Returned [], s').
Proof.
  intros Hrun Hok _ Hshort.
  unfold DockerSandboxFiles.list_files, bind. rewrite Hrun, Hok. cbn [negb].
  unfold of_result.
  rewrite (list_entries_collect path _
             (map (fun _ => None) (PyStr.split_on "010" (PyStr.strip (stdout r)))) []).
  - f_equal. f_equal. generalize (PyStr.split_on "010" (PyStr.strip (stdout r))).
    intros ls. induction ls as [|l ls IH]; [reflexivity|exact IH].
  - induction Hshort as [|line lines Hl _ IH]; cbn [map]; constructor; [|exact IH].
    by apply list_entry_few_fields.
Qed.

(** X16. An ASCII line of nine or more fields separated by
    single spaces, not starting with [total], whose fifth field reads as an
    integer and whose sixth as a float, gives one entry: the size is the
    fifth field, the time the sixth, it is a directory exactly when the
    first field starts with [d], and its name is the ninth and later
    fields joined by spaces -- the seventh and eighth are dropped -- joined
    to the listed path ([.] and [..] apart). *)
Theorem list_entry_parsed (path : string) (fs : list string) (n : Z) (q : Q) :
  Forall (fun x => PyStr.is_field x = true) fs ->
  PyStr.is_ascii (PyStr.join " " fs) = true ->
  (9 <= length fs)%nat ->
  startswith "total" (PyStr.join " " fs) = false ->
  int_of_str (nth 4 fs "") = Returned n ->
  float_of_str P (nth 5 fs "") = Returned q ->
  PyStr.join " " (drop 8 fs) <> "." ->
  PyStr.join " " (drop 8 fs) <> ".." ->
  DockerSandboxFiles.list_entry P int_of_str path (PyStr.join " " fs)
  = Returned (Some (FileInfo.mk (PyStr.path_join path (PyStr.join " " (drop 8 fs))) n
                      (startswith "d" (nth 0 fs "")) (Some q))).
Proof.
  intros Hfs _ Hlen Htotal Hint Hfloat Hdot Hdots.
  unfold DockerSandboxFiles.list_entry. rewrite Htotal, (split_join fs Hfs).
  assert (Hne : String.eqb (PyStr.join " " fs) "" = false).
  { destruct fs as [|x fs]; [cbn in Hlen; lia|].
    apply Forall_cons in Hfs as [[Hx _]%andb_prop _].
    destruct x as [|a x]; [done|]. by destruct fs. }
  rewrite Hne. cbn [orb].
  destruct (Nat.ltb_spec (length fs) 9); [lia|].
  rewrite Hint, Hfloat. cbn [rbind].
  destruct (String.eqb_spec (PyStr.join " " (drop 8 fs)) "."); [done|].
  destruct (String.eqb_spec (PyStr.join " " (drop 8 fs)) ".."); [done|].
  reflexivity.
Qed.

(** X17. [list_files] does not catch what parsing raises: when the command
    succeeded with ASCII output and the first line that fails to parse has
    nine or more fields with a fifth field [int] rejects, the exception of
    [int] leaves [list_files], and the entries read so far are lost. *)
Theorem list_files_parse_error (self : t) (sandbox_id path : string)
    (s s' : St (World P)) (r : ExecuteResult) (before after : list string)
    (line : string) (e : Exception) :
  execute_command P self sandbox_id ("ls -la --time-style=+%s " +:+ path)
    None None (Some 10) s = (Returned r, s') ->
  success r = true ->
  PyStr.is_ascii (stdout r) = true ->
  PyStr.split_on "010" (PyStr.strip (stdout r)) = (before ++ line :: after)%list ->
  Forall (fun l => exists entry,
            DockerSandboxFiles.list_entry P int_of_str path l = Returned entry) before ->
  (9 <= length (PyStr.split line))%nat ->
  startswith "total" line = false ->
  int_of_str (nth 4 (PyStr.split line) "") = Raised e ->
  DockerSandboxFiles.list_files P int_of_str self sandbox_id path s = (Raised e, s').
Proof.
  intros Hrun Hok _ Hlines Hbefore Hlen Htotal Hint.
  unfold DockerSandboxFiles.list_files, bind. rewrite Hrun, Hok, Hlines. cbn [negb].
  unfold of_result.
  assert (Hentries : exists entries,
             Forall2 (fun l entry => DockerSandboxFiles.list_entry P int_of_str path l
                                     = Returned entry) before entries).
  { clear -Hbefore. induction Hbefore as [|l ls [entry Hl] _ [entries IH]].
    - by exists [].
    - exists (entry :: entries). by constructor. }
  destruct Hentries as [entries Hentries].
  rewrite (list_entries_raise path before after line entries [] e Hentries); [done|].
  unfold DockerSandboxFiles.list_entry. rewrite Htotal.
  destruct (String.eqb_spec line "") as [->|_]; [cbn in Hlen; lia|]. cbn [orb].
  destruct (Nat.ltb_spec (length (PyStr.split line)) 9); [lia|].
  by rewrite Hint.
Qed.

End Listing.

Section ListingExamples.
Import DockerSandboxAdapter.

(** What [ls -la --time-style=+%s] prints for a directory with one file. *)
Lemma list_files_short_lines_witness :
  let out := PyStr.join MemText.nl
               ["total 12";
                "drwxr-xr-x 2 root root 4096 1700000000 .";
                "drwxr-xr-x 3 root root 4096 1700000000 ..";
                "-rw-r--r-- 1 root root 5 1700000000 notes.txt"] +:+ MemText.nl in
  let w := Mem.holding (Mem.plain "running") (MemText.printing out 0) in
  DockerSandboxFiles.list_files Mem.platform MemText.int_of_str Mem.adapter
    "sandbox-0" "/workspace" (Mem.start_state w)
  = (Returned [], mkSt w [] 5).
Proof.
  intros out w.
  apply (list_files_short_lines Mem.platform MemText.int_of_str Mem.adapter
           "sandbox-0" "/workspace" (Mem.start_state w) (mkSt w [] 5)
           (mkExecuteResult 0 out "" true None)).
  - vm_compute. reflexivity.
  - reflexivity.
  - reflexivity.
  - vm_compute. repeat constructor.
Defined.

(** The line of a symbolic link: the entry is named after the target. *)
Lemma list_entry_parsed_witness :
  DockerSandboxFiles.list_entry Mem.platform MemText.int_of_str "/"
    "lrwxrwxrwx 1 root root 7 1700000000 bin -> usr/bin"
  = Returned (Some (FileInfo.mk "/usr/bin" 7 false (Some (1700000000 # 1)))).
Proof.
  apply (list_entry_parsed Mem.platform MemText.int_of_str "/"
           ["lrwxrwxrwx"; "1"; "root"; "root"; "7"; "1700000000"; "bin"; "->"; "usr/bin"]
           7 (1700000000 # 1)).
  - repeat constructor.
  - reflexivity.
  - cbn. lia.
  - reflexivity.
  - reflexivity.
  - reflexivity.
  - discriminate.
  - discriminate.
Defined.

(** A group name of two words moves a word into the size column. *)
Lemma list_files_parse_error_witness :
  let out := PyStr.join MemText.nl
               ["total 0";
                "lrwxrwxrwx 1 root domain users 7 1700000000 bin -> usr/bin"] +:+ MemText.nl in
  let w := Mem.holding (Mem.plain "running") (MemText.printing out 0) in
  DockerSandboxFiles.list_files Mem.platform MemText.int_of_str Mem.adapter
    "sandbox-0" "/" (Mem.start_state w)
  = (Raised (mkExc ValueError "invalid literal for int() with base 10: 'users'"),
     mkSt w [] 5).
Proof.
  intros out w.
  apply (list_files_parse_error Mem.platform MemText.int_of_str Mem.adapter
           "sandbox-0" "/" (Mem.start_state w) (mkSt w [] 5)
           (mkExecuteResult 0 out "" true None)
           ["total 0"] []
           "lrwxrwxrwx 1 root domain users 7 1700000000 bin -> usr/bin").
  - vm_compute. reflexivity.
  - reflexivity.
  - reflexivity.
  - vm_compute. reflexivity.
  - constructor; [by exists None|constructor].
  - vm_compute. lia.
  - reflexivity.
  - vm_compute. reflexivity.
Defined.

End ListingExamples.

(** ** Starting, stopping and deleting *)

Section Lifecycle.
Import DockerSandboxAdapter.
Context (P : Platform).

(** On a container whose status is not "running", [start_sandbox] starts
    it, logs the start, waits half a second and then answers as
    [get_sandbox] does. *)
Lemma start_sandbox_stopped (self : t) (sandbox_id : string)
    (s s' : St (World P)) (c : Container) (w1 w2 : World P) (info : SandboxInfo) :
  is_configured self = true ->
  containers_get P sandbox_id (world s) = (Returned c, w1) ->
  c_status c <> "running" ->
  container_start P c w1 = (Returned tt, w2) ->
  get_sandbox P self sandbox_id
    (mkSt w2 (logs s ++ [(LOG_INFO, "Started Docker sandbox: " +:+ slice_to 12 sandbox_id)])
          (clock s + 500))
  = (Returned info, s') ->
  start_sandbox P self sandbox_id s = (Returned info, s').
Proof.
  intros Hc Hget Hst Hstart Hinfo. destruct (configured_client self Hc) as [cl Hcl].
  unfold start_sandbox. rewrite Hcl.
  unfold try_except, bind at 1, run_in_executor at 1. rewrite Hget.
  cbn [world logs clock].
  destruct (String.eqb_spec (c_status c) "running") as [|_]; [done|]. cbn [negb].
  unfold bind, run_in_executor, logger, asyncio_sleep. cbn [world logs clock].
  rewrite Hstart. cbn [world logs clock]. by rewrite Hinfo.
Qed.

(** On a running container [stop_sandbox] stops it with a
    grace period of ten seconds, logs the stop and then answers as
    [get_sandbox] does; it does not wait. *)
Lemma stop_sandbox_running (self : t) (sandbox_id : string)
    (s s' : St (World P)) (c : Container) (w1 w2 : World P) (info : SandboxInfo) :
  is_configured self = true ->
  containers_get P sandbox_id (world s) = (Returned c, w1) ->
  c_status c = "running" ->
  container_stop P c 10 w1 = (Returned tt, w2) ->
  get_sandbox P self sandbox_id
    (mkSt w2 (logs s ++ [(LOG_INFO, "Stopped Docker sandbox: " +:+ slice_to 12 sandbox_id)])
          (clock s))
  = (Returned info, s') ->
  stop_sandbox P self sandbox_id s = (Returned info, s').
Proof.
  intros Hc Hget Hst Hstop Hinfo. destruct (configured_client self Hc) as [cl Hcl].
  unfold stop_sandbox. rewrite Hcl.
  unfold try_except, bind at 1, run_in_executor at 1. rewrite Hget.
  cbn [world logs clock]. rewrite Hst, String.eqb_refl.
  unfold bind, run_in_executor, logger. cbn [world logs clock].
  rewrite Hstop. cbn [world logs clock]. by rewrite Hinfo.
Qed.

(** X18. When the container lookup raises, [start_sandbox]
    and [stop_sandbox] log the failure and raise the engine's exception
    unchanged: for a container that does not exist that is the engine's
    [NotFound], not the [RuntimeError] that [get_sandbox] raises. *)
Theorem start_stop_lookup_failure (self : t) (sandbox_id : string)
    (s : St (World P)) (e : Exception) (w' : World P) :
  is_configured self = true ->
  containers_get P sandbox_id (world s) = (Raised e, w') ->
  start_sandbox P self sandbox_id s
  = (Raised e,
     mkSt w' (logs s ++ [(LOG_ERROR, "Failed to start Docker sandbox: " +:+ exc_str e)])
          (clock s))
  /\ stop_sandbox P self sandbox_id s
     = (Raised e,
        mkSt w' (logs s ++ [(LOG_ERROR, "Failed to stop Docker sandbox: " +:+ exc_str e)])
             (clock s)).
Proof.
  intros Hc Hget. destruct (configured_client self Hc) as [cl Hcl].
  unfold start_sandbox, stop_sandbox. rewrite Hcl.
  unfold try_except, bind at 1, run_in_executor at 1. rewrite Hget.
  split; [reflexivity|].
  unfold bind at 1, run_in_executor at 1. rewrite Hget. reflexivity.
Qed.

(** X19. Whatever [delete_sandbox] raises is not a [NotFound]:
    a lookup, a stop or a removal that finds the container gone counts as
    a deletion.  On a configured adapter the exception it raises is the
    engine's, logged as a failure. *)
Theorem delete_sandbox_raises (self : t) (sandbox_id : string)
    (s s' : St (World P)) (e : Exception) :
  delete_sandbox P self sandbox_id s = (Raised e, s') ->
  isinstance_NotFound e = false
  /\ (is_configured self = true ->
      last (logs s')
      = Some (LOG_ERROR, "Failed to delete Docker sandbox: " +:+ exc_str e)).
Proof.
  unfold delete_sandbox, is_configured.
  destruct (client self) as [cl|].
  2:{ intros [= <- <-]. split; [reflexivity|discriminate]. }
  unfold try_except, bind at 1, run_in_executor at 1.
  destruct (containers_get P sandbox_id (world s)) as [[c|e0] w1].
  - cbn [world logs clock].
    unfold bind, run_in_executor, logger, ret, raise. cbn [world logs clock].
    destruct (String.eqb (c_status c) "running").
    + cbn [world logs clock]. destruct (container_stop P c 5 w1) as [[[]|e1] w2]; cbn [world logs clock].
      * destruct (container_remove P c true w2) as [[[]|e2] w3]; cbn [world logs clock].
        { discriminate. }
        destruct (isinstance_NotFound e2) eqn:Hnf; [discriminate|].
        intros [= <- <-]. cbn [logs]. split; [exact Hnf|]. intros _. apply last_snoc.
      * destruct (isinstance_NotFound e1) eqn:Hnf; [discriminate|].
        intros [= <- <-]. cbn [logs]. split; [exact Hnf|]. intros _. apply last_snoc.
    + cbn [world logs clock].
      destruct (container_remove P c true w1) as [[[]|e2] w3]; cbn [world logs clock].
      { discriminate. }
      destruct (isinstance_NotFound e2) eqn:Hnf; [discriminate|].
      intros [= <- <-]. cbn [logs]. split; [exact Hnf|]. intros _. apply last_snoc.
  - unfold logger, raise, bind. cbn [world logs clock].
    destruct (isinstance_NotFound e0) eqn:Hnf; [discriminate|].
    intros [= <- <-]. cbn [logs]. split; [exact Hnf|]. intros _. apply last_snoc.
Qed.

End Lifecycle.

Section MemLifecycle.
Import DockerSandboxAdapter.

(** X20. On the in-memory engine, once [delete_sandbox] has
    returned for an id, [get_sandbox] raises "Sandbox <id> not found",
    [health_check] answers false and [execute_command] reports a failure
    for that id. *)
Theorem mem_delete_then_use (self : t) (sandbox_id : string) (s s1 : St Mem.MWorld) :
  is_configured self = true ->
  delete_sandbox Mem.platform self sandbox_id s = (Returned tt, s1) ->
  (exists s2,
     get_sandbox Mem.platform self sandbox_id s1
     = (Raised (mkExc RuntimeError ("Sandbox " +:+ sandbox_id +:+ " not found")), s2))
  /\ (exists s2,
        DockerSandboxFiles.health_check Mem.platform self sandbox_id s1
        = (Returned false, s2))
  /\ (forall command wd env timeout, exists s2,
        execute_command Mem.platform self sandbox_id command wd env timeout s1
        = (Returned (failure_result (Mem.no_such_container sandbox_id)), s2)).
Proof.
  intros Hc Hdel.
  destruct (mem_delete_sandbox_gone self sandbox_id s s1 Hdel) as [Hr Hgone].
  pose proof (mem_get_absent sandbox_id (world s1) Hr Hgone) as Hget.
  pose proof (get_sandbox_not_found Mem.platform self sandbox_id s1 _ _ Hc Hget eq_refl)
    as Hinfo.
  split; [|split].
  - eexists. exact Hinfo.
  - unfold DockerSandboxFiles.health_check, try_except, bind.
    rewrite Hinfo. eexists. reflexivity.
  - intros command wd env timeout. eexists.
    apply (execute_command_lookup_failed Mem.platform self sandbox_id command wd env
             timeout s1 _ _ Hc Hget).
Qed.

(** X21. On the in-memory engine, stopping a running sandbox
    reports STOPPED, starting it again reports STARTED with the same
    metadata half a second later, and the engine holds the containers it
    held before, files included. *)
Theorem mem_stop_then_start (self : t) (sandbox_id : string) (s : St Mem.MWorld)
    (mc : Mem.MContainer) :
  is_configured self = true ->
  Mem.reachable (world s) = true ->
  Mem.containers (world s) !! sandbox_id = Some mc ->
  Mem.mc_status mc = "running" ->
  exists info1 s1 info2 s2,
    stop_sandbox Mem.platform self sandbox_id s = (Returned info1, s1)
    /\ Contract.state info1 = STOPPED
    /\ start_sandbox Mem.platform self sandbox_id s1 = (Returned info2, s2)
    /\ Contract.state info2 = STARTED
    /\ Contract.metadata info2 = Contract.metadata info1
    /\ Mem.containers (world s2) = Mem.containers (world s)
    /\ clock s2 = clock s + 500.
Proof.
  intros Hc Hr Hmc Hrun.
  set (stopped := Mem.set_status "exited" mc).
  set (w1 := Mem.set_containers (world s) (<[sandbox_id := stopped]> (Mem.containers (world s)))).
  set (l1 := (logs s ++ [(LOG_INFO, "Stopped Docker sandbox: " +:+ slice_to 12 sandbox_id)])%list).
  set (w2 := Mem.set_containers w1
               (<[sandbox_id := Mem.set_status "running" stopped]> (Mem.containers w1))).
  set (l2 := (l1 ++ [(LOG_INFO, "Started Docker sandbox: " +:+ slice_to 12 sandbox_id)])%list).
  assert (Hget1 : containers_get Mem.platform sandbox_id w1
                  = (Returned (Mem.snapshot sandbox_id stopped), w1)).
  { apply mem_get_present; [exact Hr|]. apply lookup_insert_eq. }
  assert (Hget2 : containers_get Mem.platform sandbox_id w2
                  = (Returned (Mem.snapshot sandbox_id (Mem.set_status "running" stopped)), w2)).
  { apply mem_get_present; [exact Hr|]. apply lookup_insert_eq. }
  eexists _, (mkSt w1 l1 (clock s)), _, (mkSt w2 l2 (clock s + 500)).
  split; [|split; [|split; [|split; [|split; [|split]]]]].
  - apply (stop_sandbox_running Mem.platform self sandbox_id s _
             (Mem.snapshot sandbox_id mc) (world s) w1 _ Hc).
    + by apply mem_get_present.
    + exact Hrun.
    + cbn [container_stop Mem.platform Mem.snapshot]. unfold Mem.m_stop, Mem.with_container.
      unfold Mem.snapshot. cbn [c_id]. by rewrite Hr, Hmc.
    + apply (get_sandbox_found Mem.platform self sandbox_id (mkSt w1 l1 (clock s)) _ w1 Hc Hget1).
  - reflexivity.
  - apply (start_sandbox_stopped Mem.platform self sandbox_id (mkSt w1 l1 (clock s)) _
             (Mem.snapshot sandbox_id stopped) w1 w2 _ Hc Hget1).
    + discriminate.
    + cbn [container_start Mem.platform Mem.snapshot]. unfold Mem.m_start, Mem.with_container.
      unfold Mem.snapshot. cbn [c_id]. change (Mem.reachable w1) with (Mem.reachable (world s)).
      rewrite Hr. unfold w1 at 1. cbn [Mem.containers Mem.set_containers].
      by rewrite lookup_insert_eq.
    + apply (get_sandbox_found Mem.platform self sandbox_id (mkSt w2 l2 (clock s + 500)) _
               w2 Hc Hget2).
  - reflexivity.
  - reflexivity.
  - cbn [world w2 w1 Mem.containers Mem.set_containers].
    rewrite insert_insert_eq.
    assert (Hback : Mem.set_status "running" stopped = mc).
    { destruct mc as [st lb fs js]. cbn in Hrun. by rewrite Hrun. }
    rewrite Hback. by apply insert_id.
  - reflexivity.
Qed.

End MemLifecycle.

Section LifecycleExamples.
Import DockerSandboxAdapter.

Lemma start_stop_lookup_failure_witness :
  start_sandbox Mem.platform Mem.adapter "nope" (Mem.start_state Mem.fresh)
  = (Raised (Mem.no_such_container "nope"),
     mkSt Mem.fresh [(LOG_ERROR, "Failed to start Docker sandbox: "
                                 +:+ exc_str (Mem.no_such_container "nope"))] 0).
Proof.
  exact (proj1 (start_stop_lookup_failure Mem.platform Mem.adapter "nope"
                  (Mem.start_state Mem.fresh) (Mem.no_such_container "nope") Mem.fresh
                  eq_refl eq_refl)).
Defined.

(** Deleting while the engine is switched off. *)
Lemma delete_sandbox_raises_witness :
  exists e s',
    delete_sandbox Mem.platform Mem.adapter "sandbox-0" (Mem.start_state Mem.down)
    = (Raised e, s')
    /\ isinstance_NotFound e = false.
Proof.
  exists Mem.unreachable_error,
    (mkSt Mem.down [(LOG_ERROR, "Failed to delete Docker sandbox: "
                                +:+ exc_str Mem.unreachable_error)] 0).
  split; [reflexivity|].
  exact (proj1 (delete_sandbox_raises Mem.platform Mem.adapter "sandbox-0"
                  (Mem.start_state Mem.down) _ Mem.unreachable_error eq_refl)).
Defined.

Lemma mem_delete_then_use_witness :
  let w := Mem.holding (Mem.plain "running") Mem.idle in
  exists s1 s2,
    delete_sandbox Mem.platform Mem.adapter "sandbox-0" (Mem.start_state w)
    = (Returned tt, s1)
    /\ get_sandbox Mem.platform Mem.adapter "sandbox-0" s1
       = (Raised (mkExc RuntimeError "Sandbox sandbox-0 not found"), s2).
Proof.
  intros w.
  destruct (delete_sandbox Mem.platform Mem.adapter "sandbox-0" (Mem.start_state w))
    as [r s1] eqn:Hdel.
  pose proof Hdel as Hval. vm_compute in Hval.
  destruct r as [[]|e]; [|discriminate Hval].
  destruct (mem_delete_then_use Mem.adapter "sandbox-0" (Mem.start_state w) s1
              eq_refl Hdel) as [[s2 Hget] _].
  exists s1, s2. split; [reflexivity|exact Hget].
Defined.

Lemma mem_stop_then_start_witness :
  let w := Mem.holding (Mem.plain "running") Mem.idle in
  exists info1 s1 info2 s2,
    stop_sandbox Mem.platform Mem.adapter "sandbox-0" (Mem.start_state w)
    = (Returned info1, s1)
    /\ start_sandbox Mem.platform Mem.adapter "sandbox-0" s1 = (Returned info2, s2)
    /\ Contract.state info2 = STARTED
    /\ clock s2 = 500.
Proof.
  intros w.
  destruct (mem_stop_then_start Mem.adapter "sandbox-0" (Mem.start_state w)
              (Mem.plain "running") eq_refl eq_refl eq_refl eq_refl)
    as (info1 & s1 & info2 & s2 & Hstop & _ & Hstart & Hstate & _ & _ & Hclock).
  exists info1, s1, info2, s2. repeat split; assumption.
Defined.

End LifecycleExamples.

(** ** The factory *)

Section FactoryEdges.
Import DockerSandboxAdapter.
Import SandboxFactory.
Context (P : Platform).

(** X22. [SANDBOX_PROVIDER] decides alone when it is
    [docker], [e2b] or [daytona] in any letter case: no other variable is
    looked at, and only [daytona] logs (a deprecation warning). *)
Theorem detect_provider_explicit (s : St (World P)) :
  let selector := lower (env_or P (world s) "SANDBOX_PROVIDER" "") in
  (selector = "docker" -> _detect_provider P s = (Returned DOCKER, s))
  /\ (selector = "e2b" -> _detect_provider P s = (Returned E2B, s))
  /\ (selector = "daytona" ->
      _detect_provider P s
      = (Returned DAYTONA,
         mkSt (world s)
           (logs s ++ [(LOG_WARNING,
                        "Daytona is deprecated, consider migrating to Docker or E2B")])
           (clock s))).
Proof.
  intros selector.
  repeat split; intros Hsel; unfold selector, env_or in Hsel;
    unfold _detect_provider, bind at 1, getenv_default at 1; rewrite Hsel; reflexivity.
Qed.

(** X23. Without an API key in the environment
    ([E2B_API_KEY] and [DAYTONA_API_KEY] unset or empty) and without
    [SANDBOX_PROVIDER] asking for E2B or Daytona, the provider is Docker,
    whatever [CLOUD_PROVIDER] and an unrecognised [SANDBOX_PROVIDER]
    say. *)
Theorem detect_provider_docker (s : St (World P)) :
  let selector := lower (env_or P (world s) "SANDBOX_PROVIDER" "") in
  selector <> "e2b" ->
  selector <> "daytona" ->
  env_truthy P (world s) "E2B_API_KEY" = false ->
  env_truthy P (world s) "DAYTONA_API_KEY" = false ->
  exists s',
    _detect_provider P s = (Returned DOCKER, s')
    /\ world s' = world s /\ clock s' = clock s.
Proof.
  intros selector He2b Hday Hk1 Hk2.
  unfold _detect_provider, bind at 1, getenv_default at 1.
  fold (env_or P (world s) "SANDBOX_PROVIDER" ""). fold selector.
  destruct (String.eqb_spec selector "docker"); [by eexists|].
  destruct (String.eqb_spec selector "e2b"); [done|].
  destruct (String.eqb_spec selector "daytona"); [done|].
  unfold bind at 1, getenv_default at 1.
  unfold bind at 1, env_set at 1, bind at 1, getenv at 1, ret at 1.
  fold (env_truthy P (world s) "E2B_API_KEY"). rewrite Hk1.
  unfold bind at 1, env_set at 1, bind at 1, getenv at 1, ret at 1.
  fold (env_truthy P (world s) "DAYTONA_API_KEY"). rewrite Hk2.
  destruct (_ || _); [by eexists|].
  destruct (String.eqb _ "supabase"); [by eexists|].
  eexists. split; [reflexivity|]. by split.
Qed.

(** The constructor leaves [_adapter] empty. *)
Lemma factory_init_no_adapter (s s' : St (World P)) (f : t) :
  SandboxFactory.__init__ P s = (Returned f, s') -> _adapter f = None.
Proof.
  unfold SandboxFactory.__init__, bind at 1.
  destruct (_detect_provider P s) as [[p|e] s0]; [|discriminate].
  unfold bind, logger, ret. by intros [= <- _].
Qed.

(** X24. In a process that has no factory yet, a
    [get_sandbox_adapter] that returns has detected Docker, returns a
    configured adapter and has stored it in the factory that
    [SandboxFactory._instance] refers to; the next call returns the same
    adapter and changes nothing. *)
Theorem get_sandbox_adapter_success (s s' : St (Process P))
    (a : DockerSandboxAdapter.t) :
  snd (world s) = None ->
  get_sandbox_adapter P s = (Returned a, s') ->
  snd (world s') = Some (SandboxFactory.mk DOCKER (Some a))
  /\ is_configured a = true
  /\ get_sandbox_adapter P s' = (Returned a, s').
Proof.
  intros Hnone. destruct s as [[w o] l c]. cbn [world snd] in Hnone. subst o.
  unfold get_sandbox_adapter, get_instance, bind, get_self, in_world, set_self, ret.
  cbn [world logs clock fst snd].
  destruct (SandboxFactory.__init__ P _) as [[f|e] s0] eqn:Hinit; [|discriminate].
  pose proof (factory_init_no_adapter _ _ _ Hinit) as Hf.
  cbn [world logs clock fst snd].
  unfold on_instance, get_adapter, bind, get_self, in_world, set_self.
  cbn [world logs clock fst snd]. rewrite Hf.
  destruct (provider f) eqn:Hp.
  - destruct (_create_docker_adapter P _) as [[a0|e] s1]; [|discriminate].
    cbn [world logs clock fst snd].
    destruct (is_configured a0) eqn:Hconf; [|discriminate].
    cbn [negb]. unfold ret. cbn [world logs clock fst snd].
    intros [= <- <-]. cbn [world logs clock fst snd].
    split; [reflexivity|]. split; [exact Hconf|].
    unfold get_sandbox_adapter, bind, get_instance, get_self, ret, on_instance, get_adapter.
    cbn [world logs clock fst snd _adapter]. reflexivity.
  - discriminate.
  - discriminate.
Qed.

(** X25. A factory whose provider is E2B or Daytona
    has no adapter to give: [get_adapter] raises [NotImplementedError],
    stores nothing and leaves the state as it was, so every call raises
    again. *)
Theorem get_adapter_not_implemented (s : St (World P * t)) :
  _adapter (snd (world s)) = None ->
  provider (snd (world s)) <> DOCKER ->
  exists e,
    get_adapter P s = (Raised e, s)
    /\ exc_class e = NotImplementedError.
Proof.
  intros Hnone Hp. destruct s as [[w f] l c]. cbn [world snd] in Hnone, Hp.
  unfold get_adapter, bind at 1, get_self at 1. cbn [world snd]. rewrite Hnone.
  destruct (provider f); [done| |]; eexists; split; reflexivity.
Qed.

(** X26. When [SANDBOX_CPU_LIMIT] does not read as a float, a
    Docker factory's [get_adapter] raises what [float] raises (a
    [ValueError] in Python) before any connection is attempted; nothing
    is stored and the state is as it was. *)
Theorem get_adapter_bad_cpu_limit (s : St (World P * t)) (e : Exception) :
  _adapter (snd (world s)) = None ->
  provider (snd (world s)) = DOCKER ->
  float_of_str P (env_or P (fst (world s)) "SANDBOX_CPU_LIMIT" "1.0") = Raised e ->
  get_adapter P s = (Raised e, s).
Proof.
  intros Hnone Hp Hcpu. destruct s as [[w f] l c]. cbn [world fst snd] in Hnone, Hp, Hcpu.
  unfold get_adapter, bind at 1, get_self at 1. cbn [world snd]. rewrite Hnone, Hp.
  unfold bind at 1, in_world at 1. cbn [world logs clock fst snd].
  unfold _create_docker_adapter, bind, getenv, getenv_default, of_result.
  cbn [world logs clock]. unfold env_or in Hcpu. rewrite Hcpu. reflexivity.
Qed.

(** X27. Once [get_instance] has returned a factory, every later
    call returns that factory and changes nothing, whatever has become of
    the environment: the provider is detected once per process. *)
Theorem get_instance_singleton (s s1 : St (Process P)) (f : t) :
  get_instance P s = (Returned f, s1) ->
  forall s2 : St (Process P),
    snd (world s2) = snd (world s1) ->
    get_instance P s2 = (Returned f, s2).
Proof.
  intros Hrun.
  assert (Hstored : snd (world s1) = Some f).
  { revert Hrun. destruct s as [[w [f0|]] l c];
      unfold get_instance, bind, get_self, in_world, set_self, ret;
      cbn [world logs clock fst snd].
    - by intros [= <- <-].
    - destruct (SandboxFactory.__init__ P _) as [[f1|e] s0]; [|discriminate].
      cbn [world logs clock fst snd]. by intros [= <- <-]. }
  intros [[w2 o2] l2 c2] Hsame. cbn [world snd] in Hsame.
  rewrite Hstored in Hsame. subst o2. reflexivity.
Qed.

End FactoryEdges.

Section FactoryExamples.
Import DockerSandboxAdapter.
Import SandboxFactory.

(** The selector in capitals, with an E2B key present. *)
Lemma detect_provider_explicit_witness :
  let w := with_environment {[ "SANDBOX_PROVIDER" := "Docker"; "E2B_API_KEY" := "k" ]}
             Mem.fresh in
  _detect_provider Mem.platform (Mem.start_state w) = (Returned DOCKER, Mem.start_state w).
Proof.
  intros w.
  exact (proj1 (detect_provider_explicit Mem.platform (Mem.start_state w)) eq_refl).
Defined.

(** An unknown selector and an international cloud provider. *)
Lemma detect_provider_docker_witness :
  let w := with_environment {[ "SANDBOX_PROVIDER" := "podman"; "CLOUD_PROVIDER" := "supabase" ]}
             Mem.fresh in
  exists s',
    _detect_provider Mem.platform (Mem.start_state w) = (Returned DOCKER, s')
    /\ world s' = w /\ clock s' = 0.
Proof.
  intros w.
  apply (detect_provider_docker Mem.platform (Mem.start_state w)).
  - vm_compute. discriminate.
  - vm_compute. discriminate.
  - reflexivity.
  - reflexivity.
Defined.

(** A reachable engine and an empty environment. *)
Lemma get_sandbox_adapter_success_witness :
  exists a s',
    get_sandbox_adapter Mem.platform (mkSt (Mem.fresh, None) [] 0) = (Returned a, s')
    /\ is_configured a = true
    /\ get_sandbox_adapter Mem.platform s' = (Returned a, s').
Proof.
  destruct (get_sandbox_adapter Mem.platform (mkSt (Mem.fresh, None) [] 0))
    as [r s'] eqn:Hrun.
  pose proof Hrun as Hval. vm_compute in Hval.
  destruct r as [a|e]; [|discriminate Hval].
  destruct (get_sandbox_adapter_success Mem.platform (mkSt (Mem.fresh, None) [] 0) s' a
              eq_refl Hrun) as (_ & Hconf & Hagain).
  exists a, s'. split; [reflexivity|]. split; [exact Hconf|exact Hagain].
Defined.

(** A process configured for E2B. *)
Lemma get_adapter_not_implemented_witness :
  let s := mkSt (Mem.fresh, SandboxFactory.mk E2B None) [] 0 in
  exists e,
    get_adapter Mem.platform s = (Raised e, s)
    /\ exc_class e = NotImplementedError.
Proof.
  intros s.
  exact (get_adapter_not_implemented Mem.platform s eq_refl ltac:(discriminate)).
Defined.

(** A CPU limit with a unit. *)
Lemma get_adapter_bad_cpu_limit_witness :
  let w := with_environment {[ "SANDBOX_CPU_LIMIT" := "2 cores" ]} Mem.fresh in
  let s := mkSt (w, SandboxFactory.mk DOCKER None) [] 0 in
  get_adapter Mem.platform s
  = (Raised (mkExc ValueError "could not convert string to float: '2 cores'"), s).
Proof.
  intros w s.
  exact (get_adapter_bad_cpu_limit Mem.platform s _ eq_refl eq_refl eq_refl).
Defined.

(** The environment changes after the first call. *)
Lemma get_instance_singleton_witness :
  let w := with_environment {[ "SANDBOX_PROVIDER" := "e2b" ]} Mem.fresh in
  exists f s1,
    get_instance Mem.platform (mkSt (Mem.fresh, None) [] 0) = (Returned f, s1)
    /\ provider f = DOCKER
    /\ get_instance Mem.platform (mkSt (w, Some f) [] 0)
       = (Returned f, mkSt (w, Some f) [] 0).
Proof.
  intros w.
  destruct (get_instance Mem.platform (mkSt (Mem.fresh, None) [] 0)) as [r s1] eqn:Hrun.
  pose proof Hrun as Hval. vm_compute in Hval.
  destruct r as [f|e]; [|discriminate Hval].
  assert (Hf : f = SandboxFactory.mk DOCKER None) by (by injection Hval as <- _).
  assert (Hs1 : snd (world s1) = Some f) by (by injection Hval as <- <-).
  exists f, s1. split; [reflexivity|]. split; [by rewrite Hf|].
  apply (get_instance_singleton Mem.platform _ s1 f Hrun). cbn [world snd]. by rewrite Hs1.
Defined.

End FactoryExamples.


(** ** The shim over the factory and the adapter *)

Section ShimOnDocker.
Import DockerSandboxAdapter.
Context (P : Platform).

(** A factory that holds an adapter hands it out and changes nothing. *)
Lemma get_sandbox_adapter_held (s : St (SandboxFactory.Process P))
    (prov : SandboxProvider) (a : t) :
  snd (world s) = Some (SandboxFactory.mk prov (Some a)) ->
  SandboxFactory.get_sandbox_adapter P s = (Returned a, s).
Proof.
  destruct s as [[w o] l c]. cbn [world snd]. intros ->. reflexivity.
Qed.

(** X28. With a configured Docker adapter in the factory, the
    shim's [create_sandbox] starts a container and returns, half a second
    later, a handle for it whose state is not fetched yet.  The password
    is part of the handle's metadata under ["password"], whatever the
    caller's metadata said for that key, and it is written in clear into
    the container's label [kortix.meta.password]. *)
Theorem create_sandbox_via_factory_docker (a : t) (prov : SandboxProvider)
    (password : string) (project_id : option string)
    (metadata : option (gmap string PyVal)) (s : St (SandboxFactory.Process P))
    (c : Container) (w' : World P) :
  let meta := Compat.prepare_metadata password project_id metadata in
  let cfg := container_config P a None None (Some meta) (fst (world s)) in
  snd (world s) = Some (SandboxFactory.mk prov (Some a)) ->
  is_configured a = true ->
  containers_run P cfg (fst (world s)) = (Returned c, w') ->
  exists sb s',
    create_sandbox_via_factory P password project_id metadata s = (Returned sb, s')
    /\ CompatSandbox.sandbox_id sb = c_id c
    /\ CompatSandbox.metadata sb = meta
    /\ CompatSandbox._state sb = None
    /\ meta !! "password" = Some (VStr password)
    /\ rc_labels cfg !! "kortix.meta.password" = Some password
    /\ fst (world s') = w'
    /\ clock s' = clock s + 500.
Proof.
  intros meta cfg Hheld Hc Hrun.
  assert (Hpw : meta !! "password" = Some (VStr password)).
  { unfold meta, Compat.prepare_metadata.
    destruct project_id as [pid|]; [destruct (String.eqb pid "")|];
      rewrite ?lookup_insert_ne by done; apply lookup_insert_eq. }
  unfold create_sandbox_via_factory, Compat.create_sandbox.
  unfold bind at 1, logger at 1. unfold try_except, bind at 1, bind at 1.
  rewrite (get_sandbox_adapter_held _ prov a) by exact Hheld.
  unfold ret at 1. fold meta. unfold bind at 1.
  cbn [sa_create_sandbox process_adapter docker_adapter].
  unfold in_world. cbn [world logs clock fst snd].
  rewrite (create_sandbox_unfold P a None None (Some meta) _ Hc).
  cbn [world logs clock]. fold cfg. rewrite Hrun.
  unfold bind, logger, ret. cbn [world logs clock fst snd Contract.sandbox_id
    Contract.metadata SandboxInfo_new].
  eexists _, _. split; [reflexivity|].
  cbn [world logs clock fst snd CompatSandbox.sandbox_id CompatSandbox.metadata
         CompatSandbox._state CompatSandbox.__init__].
  repeat split; try done.
  unfold cfg. cbn [container_config rc_labels].
  change "kortix.meta.password" with (META_PREFIX +:+ "password").
  by rewrite add_metadata_labels_meta, Hpw.
Qed.

(** X29. With a configured Docker adapter in the factory,
    [get_or_start_sandbox] for a container the engine does not know
    raises [RuntimeError("Sandbox <id> not found")]; nothing is started,
    and the failure is logged twice, by the adapter and by the shim. *)
Theorem get_or_start_sandbox_unknown (a : t) (prov : SandboxProvider)
    (sandbox_id : string) (s : St (SandboxFactory.Process P))
    (e : Exception) (w' : World P) :
  snd (world s) = Some (SandboxFactory.mk prov (Some a)) ->
  is_configured a = true ->
  containers_get P sandbox_id (fst (world s)) = (Raised e, w') ->
  isinstance_NotFound e = true ->
  let e' := mkExc RuntimeError ("Sandbox " +:+ sandbox_id +:+ " not found") in
  get_or_start_sandbox P sandbox_id s
  = (Raised e',
     mkSt (w', snd (world s))
       (logs s ++ [(LOG_INFO, "Getting or starting sandbox with ID: " +:+ sandbox_id);
                   (LOG_ERROR, "Docker container not found: " +:+ sandbox_id);
                   (LOG_ERROR, "Error retrieving or starting sandbox: " +:+ exc_str e')])
       (clock s)).
Proof.
  intros Hheld Hc Hget He e'.
  unfold get_or_start_sandbox, CompatSandbox.get_or_start_sandbox.
  unfold bind at 1, logger at 1. unfold try_except, bind at 1, bind at 1.
  rewrite (get_sandbox_adapter_held _ prov a) by exact Hheld.
  unfold ret at 1. unfold bind at 1.
  cbn [sa_get_sandbox process_adapter docker_adapter].
  unfold in_world. cbn [world logs clock fst snd].
  rewrite (get_sandbox_not_found P a sandbox_id
             (mkSt (fst (world s))
                   (logs s ++ [(LOG_INFO, "Getting or starting sandbox with ID: "
                                          +:+ sandbox_id)])
                   (clock s)) e w' Hc Hget He).
  unfold bind, logger, raise. cbn [world logs clock fst snd].
  rewrite <- !app_assoc. reflexivity.
Qed.

End ShimOnDocker.

Section ShimOnMem.
Import DockerSandboxAdapter.

(** No two of no labels decode to the same key. *)
Lemma meta_keys_distinct_empty : meta_keys_distinct ∅.
Proof. intros k1 k2 [v H]. by rewrite lookup_empty in H. Qed.

(** X30. Through the whole stack on the in-memory engine: for an exited
    container no two of whose labels decode to the same metadata key,
    [get_or_start_sandbox] starts it and returns a handle with the
    container's metadata after one poll, a second and a half after the
    call (half a second in [start_sandbox], one second before the poll);
    the container is running afterwards and the factory is untouched. *)
Theorem mem_get_or_start_stopped (a : t) (prov : SandboxProvider)
    (sandbox_id : string) (s : St (SandboxFactory.Process Mem.platform))
    (mc : Mem.MContainer) :
  snd (world s) = Some (SandboxFactory.mk prov (Some a)) ->
  is_configured a = true ->
  Mem.reachable (fst (world s)) = true ->
  Mem.containers (fst (world s)) !! sandbox_id = Some mc ->
  Mem.mc_status mc = "exited" ->
  meta_keys_distinct (Mem.mc_labels mc) ->
  exists sb s',
    get_or_start_sandbox Mem.platform sandbox_id s = (Returned sb, s')
    /\ CompatSandbox.sandbox_id sb = sandbox_id
    /\ CompatSandbox.metadata sb = VStr <$> extract_metadata (Mem.mc_labels mc)
    /\ Mem.containers (fst (world s'))
       = <[sandbox_id := Mem.set_status "running" mc]> (Mem.containers (fst (world s)))
    /\ snd (world s') = snd (world s)
    /\ clock s' = clock s + 1500.
Proof.
  intros Hheld Hc Hr Hmc Hst _.
  destruct s as [[w o] l c]. cbn [world fst snd] in Hheld, Hr, Hmc |- *. subst o.
  set (f := SandboxFactory.mk prov (Some a)).
  set (l1 := (l ++ [(LOG_INFO, "Getting or starting sandbox with ID: " +:+ sandbox_id)])%list).
  set (started := Mem.set_status "running" mc).
  set (w2 := Mem.set_containers w (<[sandbox_id := started]> (Mem.containers w))).
  set (l2 := (l1 ++ [(LOG_INFO, "Sandbox is in SandboxState.STOPPED state. Starting...")])%list).
  set (l3 := (l2 ++ [(LOG_INFO, "Started Docker sandbox: " +:+ slice_to 12 sandbox_id)])%list).
  set (md := VStr <$> extract_metadata (Mem.mc_labels mc)).
  assert (Hget0 : forall l0 c0,
             get_sandbox Mem.platform a sandbox_id (mkSt w l0 c0)
             = (Returned (SandboxInfo_new sandbox_id STOPPED md), mkSt w l0 c0)).
  { intros l0 c0.
    rewrite (get_sandbox_found Mem.platform a sandbox_id (mkSt w l0 c0)
               (Mem.snapshot sandbox_id mc) w Hc (mem_get_present sandbox_id w mc Hr Hmc)).
    unfold Mem.snapshot. cbn [c_id c_status c_labels]. rewrite Hst. reflexivity. }
  assert (Hget2 : forall l0 c0,
             get_sandbox Mem.platform a sandbox_id (@mkSt (World Mem.platform) w2 l0 c0)
             = (Returned (SandboxInfo_new sandbox_id STARTED md),
                @mkSt (World Mem.platform) w2 l0 c0)).
  { intros l0 c0.
    assert (Hpresent : Mem.containers w2 !! sandbox_id = Some started)
      by apply lookup_insert_eq.
    exact (get_sandbox_found Mem.platform a sandbox_id
             (@mkSt (World Mem.platform) w2 l0 c0)
             (Mem.snapshot sandbox_id started) w2 Hc
             (mem_get_present sandbox_id w2 started Hr Hpresent)). }
  assert (Hstart : start_sandbox Mem.platform a sandbox_id (mkSt w l2 c)
                   = (Returned (SandboxInfo_new sandbox_id STARTED md),
                      @mkSt (World Mem.platform) w2 l3 (c + 500))).
  { apply (start_sandbox_stopped Mem.platform a sandbox_id (mkSt w l2 c) _
             (Mem.snapshot sandbox_id mc) w w2 _ Hc (mem_get_present sandbox_id w mc Hr Hmc)).
    - unfold Mem.snapshot. cbn [c_status]. rewrite Hst. discriminate.
    - cbn [container_start Mem.platform]. unfold Mem.m_start, Mem.with_container, Mem.snapshot.
      cbn [c_id]. by rewrite Hr, Hmc.
    - apply Hget2. }
  exists (CompatSandbox.__init__ (process_adapter Mem.platform a) sandbox_id (Some md)),
    (mkSt (w2, Some f)
          (l3 ++ [(LOG_INFO, "Sandbox " +:+ sandbox_id +:+ " is ready")])%list
          (c + 500 + 1000)).
  split; [|cbn [world logs clock fst snd CompatSandbox.sandbox_id CompatSandbox.metadata
                  CompatSandbox.__init__]; repeat split; try done; lia].
  unfold get_or_start_sandbox, CompatSandbox.get_or_start_sandbox.
  unfold bind at 1, logger at 1. unfold try_except, bind at 1, bind at 1.
  cbn [world logs clock]. fold l1.
  rewrite (get_sandbox_adapter_held Mem.platform
             (@mkSt (SandboxFactory.Process Mem.platform) (w, Some f) l1 c) prov a eq_refl).
  unfold ret at 1. unfold bind at 1.
  cbn [sa_get_sandbox sa_start_sandbox process_adapter docker_adapter].
  unfold in_world at 1. cbn [world logs clock fst snd].
  rewrite (Hget0 l1 c). cbn [world logs clock fst snd Contract.state SandboxInfo_new
                               SandboxState_eqb orb].
  unfold bind at 1, bind at 1, logger at 1. cbn [world logs clock fst snd].
  change (SandboxState_str STOPPED) with "SandboxState.STOPPED". 
  change ("Sandbox is in " +:+ "SandboxState.STOPPED" +:+ " state. Starting...")
    with "Sandbox is in SandboxState.STOPPED state. Starting...".
  fold l2. unfold bind at 1, in_world at 1. cbn [world logs clock fst snd].
  rewrite Hstart. cbn [world logs clock fst snd].
  change (CompatSandbox.wait_until_started ?ad ?i 30 ?info)
    with (asyncio_sleep 1000;;;
          info' <- sa_get_sandbox ad i;;
          if SandboxState_eqb (Contract.state info') STARTED
          then ret info'
          else CompatSandbox.wait_until_started ad i 29 info').
  unfold bind at 1, asyncio_sleep at 1. cbn [world logs clock fst snd].
  unfold bind at 1. cbn [sa_get_sandbox process_adapter docker_adapter].
  unfold in_world at 1. cbn [world logs clock fst snd].
  rewrite (Hget2 l3 (c + 500 + 1000)).
  cbn [world logs clock fst snd Contract.state SandboxInfo_new SandboxState_eqb].
  unfold bind, logger, ret. cbn [world logs clock fst snd Contract.metadata SandboxInfo_new].
  reflexivity.
Qed.

End ShimOnMem.

Section ShimExamples.
Import DockerSandboxAdapter.

Lemma create_sandbox_via_factory_docker_witness :
  let s := mkSt (Mem.fresh, Some (SandboxFactory.mk DOCKER (Some Mem.adapter))) [] 0 in
  exists sb s',
    create_sandbox_via_factory Mem.platform "secret" (Some "p1") None s = (Returned sb, s')
    /\ CompatSandbox.metadata sb !! "password" = Some (VStr "secret")
    /\ clock s' = 500.
Proof.
  intros s.
  destruct (containers_run Mem.platform
              (container_config Mem.platform Mem.adapter None None
                 (Some (Compat.prepare_metadata "secret" (Some "p1") None)) Mem.fresh)
              Mem.fresh) as [r w'] eqn:Hrun.
  pose proof Hrun as Hval. vm_compute in Hval.
  destruct r as [c|e]; [|discriminate Hval].
  destruct (create_sandbox_via_factory_docker Mem.platform Mem.adapter DOCKER "secret"
              (Some "p1") None s c w' eq_refl eq_refl Hrun)
    as (sb & s' & Hcreate & _ & Hmeta & _ & Hpw & _ & _ & Hclock).
  exists sb, s'. split; [exact Hcreate|]. split; [by rewrite Hmeta|exact Hclock].
Defined.

Lemma get_or_start_sandbox_unknown_witness :
  let s := mkSt (Mem.fresh, Some (SandboxFactory.mk DOCKER (Some Mem.adapter))) [] 0 in
  exists s',
    get_or_start_sandbox Mem.platform "nope" s
    = (Raised (mkExc RuntimeError "Sandbox nope not found"), s').
Proof.
  intros s. eexists.
  exact (get_or_start_sandbox_unknown Mem.platform Mem.adapter DOCKER "nope" s
           (Mem.no_such_container "nope") Mem.fresh eq_refl eq_refl eq_refl eq_refl).
Defined.

Lemma mem_get_or_start_stopped_witness :
  let w := Mem.holding (Mem.plain "exited") Mem.idle in
  let s := mkSt (w, Some (SandboxFactory.mk DOCKER (Some Mem.adapter))) [] 0 in
  exists sb s',
    get_or_start_sandbox Mem.platform "sandbox-0" s = (Returned sb, s')
    /\ clock s' = 1500.
Proof.
  intros w s.
  destruct (mem_get_or_start_stopped Mem.adapter DOCKER "sandbox-0" s (Mem.plain "exited")
              eq_refl eq_refl eq_refl eq_refl eq_refl meta_keys_distinct_empty)
    as (sb & s' & Hrun & _ & _ & _ & _ & Hclock).
  exists sb, s'. split; [exact Hrun|exact Hclock].
Defined.

End ShimExamples.
